(** * Trace Timeline Viewer Launcher: a shallow embedding of
      [launch_viewer_webview.py] and the properties of its
      process-lifecycle supervisor.

    The launcher is effectful Python: it reads and writes a lock marker,
    binds sockets, spawns a browser, polls, and reacts to signals.  The
    embedding keeps that shape.  Every function of the source becomes a
    computation in a small monad [M] that threads the process state and
    has three outcomes: a value, a raised exception, or no return at all
    (a wait that blocks forever, or the end of the process by a signal
    nobody handles).  Whatever the operating system decides
    (is a port busy, does a write fail, when does a signal arrive, does
    the browser exit) is read from an environment record [Env], so every
    [except] branch of the source can be reached.

    Conventions of the model:
    - text is ASCII ([string]); the non-ASCII digits and blanks that
      Python's [int] and [str.strip] also accept are not represented, nor
      is the interpreter's limit on the number of digits [int] parses;
    - [log] and [print] append a line to the standard-output transcript
      and do not fail;
    - time is counted in loop iterations: a polling loop with a deadline
      runs over the finite list of observations that fit before it;
    - a signal arrives at the points where the polling loops sample the
      flag; what it does there depends on the handlers installed so
      far. *)

From Stdlib Require Import ZArith Ascii String List Bool Lia.
From stdpp Require Import gmap strings pretty.
Import ListNotations.

Local Open Scope string_scope.
Local Open Scope Z_scope.

(** ** Exceptions and outcomes *)

Inductive exn_class : Type :=
  | OSError
  | OverflowError
  | ValueError
  | RuntimeError
  | AttributeError
  | TimeoutExpired
  | KeyboardInterrupt.

Record exn : Type := Exn { exn_cls : exn_class; exn_msg : string }.

(** [except Exception] catches everything but [KeyboardInterrupt], which
    derives from [BaseException] only. *)
Definition is_Exception (e : exn) : bool :=
  match exn_cls e with
  | KeyboardInterrupt => false
  | _ => true
  end.

Definition is_OSError (e : exn) : bool :=
  match exn_cls e with
  | OSError => true
  | _ => false
  end.

Definition is_KeyboardInterrupt (e : exn) : bool :=
  match exn_cls e with
  | KeyboardInterrupt => true
  | _ => false
  end.

(** [str(e)] *)
Definition str_exn (e : exn) : string := exn_msg e.

Inductive result (A : Type) : Type :=
  | Ret (a : A)
  | Raise (e : exn)
  | Hang.

Arguments Ret {A} a.
Arguments Raise {A} e.
Arguments Hang {A}.

(** ** The process state *)

Inductive node : Type :=
  | File (content : string)
  | Dir.

(** The accept loop of a [socketserver] server. *)
Inductive loop_state : Type :=
  | NotStarted
  | Serving
  | Exited.

Record Server : Type := mkServer {
  srv_port : Z;
  srv_directory : string;
  srv_loop : loop_state;
  srv_shutdown_request : bool;   (* BaseServer.__shutdown_request *)
  srv_is_shut_down : bool;       (* BaseServer.__is_shut_down, an Event *)
  srv_socket_open : bool
}.

(** Calls that leave the process, in the order they are made. *)
Inductive call : Type :=
  | CExists (p : string)
  | CRead (p : string)
  | CRemove (p : string)
  | CWrite (p : string) (text : string)
  | CKill0 (pid : Z)
  | COpenProcess (pid : Z)
  | CBind (port : Z)
  | CListen (port : Z)
  | CConnect (port : Z)
  | CUrlopen (url : string)
  | CWebbrowserOpen (url : string)
  | CMkdtemp (prefix : string)
  | CIsdir (p : string)
  | CRmtree (p : string)
  | CPopen (cmd : list string) (new_console : bool)
  | CPoll
  | CTerminate
  | CWait
  | CProcKill
  | CSleep (ms : Z)
  | CSignal (signum : Z).

Record State : Type := mkState {
  fs : gmap string node;
  server : option Server;
  _shutdown_requested : bool;
  stdout : list string;
  calls : list call;
  handlers : list Z
}.

Definition set_fs (f : gmap string node) (s : State) : State :=
  mkState f (server s) (_shutdown_requested s) (stdout s) (calls s) (handlers s).
Definition set_server (v : option Server) (s : State) : State :=
  mkState (fs s) v (_shutdown_requested s) (stdout s) (calls s) (handlers s).
Definition set_shutdown (b : bool) (s : State) : State :=
  mkState (fs s) (server s) b (stdout s) (calls s) (handlers s).
Definition add_stdout (line : string) (s : State) : State :=
  mkState (fs s) (server s) (_shutdown_requested s) (stdout s ++ [line]) (calls s)
          (handlers s).
Definition add_call (c : call) (s : State) : State :=
  mkState (fs s) (server s) (_shutdown_requested s) (stdout s) (calls s ++ [c])
          (handlers s).
Definition add_handler (signum : Z) (s : State) : State :=
  mkState (fs s) (server s) (_shutdown_requested s) (stdout s) (calls s)
          (handlers s ++ [signum]).

(** ** The environment: what the operating system answers *)

(** One look at the world inside a polling loop: the signal (if any) that
    is delivered before the loop samples the flag, and whether the probe
    of this iteration succeeds. *)
Record tick : Type := mkTick { tick_signal : option Z; tick_ok : bool }.

Record Env : Type := mkEnv {
  os_name : string;
  getpid : Z;
  open_process : Z -> option bool;   (* None: the ctypes call raises *)
  kill0_ok : Z -> bool;              (* os.kill(pid, 0) returns *)
  read_fails : string -> bool;
  open_fails : string -> bool;       (* open(p, "w") raises *)
  write_fails : string -> bool;      (* the write does, once the file is open *)
  remove_fails : string -> bool;
  rmtree_fails : nat -> bool;        (* by attempt *)
  port_busy : Z -> bool;
  listen_fails : bool;               (* the port was taken after the probe *)
  thread_start_fails : bool;
  startup_ticks : list tick;
  signal_after_start : option Z;
  webbrowser_fails : bool;
  gettempdir : string;
  mkdtemp_suffix : option string;   (* None: the directory cannot be made *)
  popen_result : option Z;
  browser_ticks : list tick;         (* tick_ok: poll() reports an exit *)
  terminate_fails : bool;
  wait_times_out : bool;
  kill_fails : bool;
  health_ticks : list tick;
  has_SIGHUP : bool;
  signal_fails : Z -> bool;
  oserror_text : string
}.

(** ** The monad *)

Definition M (A : Type) : Type := State -> result A * State.

Definition ret {A} (a : A) : M A := fun s => (Ret a, s).

Definition raise {A} (e : exn) : M A := fun s => (Raise e, s).

Definition hang {A} : M A := fun s => (Hang, s).

Definition bind {A B} (m : M A) (k : A -> M B) : M B :=
  fun s =>
    match m s with
    | (Ret a, s1) => k a s1
    | (Raise e, s1) => (Raise e, s1)
    | (Hang, s1) => (Hang, s1)
    end.

Definition get : M State := fun s => (Ret s, s).

Definition modify (f : State -> State) : M unit := fun s => (Ret tt, f s).

(** [try: m  except <matches> as e: h e] *)
Definition try_except {A} (m : M A) (matches : exn -> bool) (h : exn -> M A) : M A :=
  fun s =>
    match m s with
    | (Raise e, s1) => if matches e then h e s1 else (Raise e, s1)
    | other => other
    end.

(** [try: m  finally: f].  The final block runs after a value and after an
    exception; an exception of its own replaces the pending outcome.  A
    block that never returns never reaches [finally]. *)
Definition try_finally {A} (m : M A) (f : M unit) : M A :=
  fun s =>
    match m s with
    | (Hang, s1) => (Hang, s1)
    | (r, s1) =>
        match f s1 with
        | (Ret _, s2) => (r, s2)
        | (Raise e, s2) => (Raise e, s2)
        | (Hang, s2) => (Hang, s2)
        end
    end.

Declare Scope py_scope.
Delimit Scope py_scope with py.
Notation "x <- c1 ;; c2" := (bind c1 (fun x => c2))
  (at level 100, c1 at next level, right associativity) : py_scope.
Notation "c1 ;; c2" := (bind c1 (fun _ => c2))
  (at level 100, c2 at level 200, right associativity) : py_scope.
Local Open Scope py_scope.

Definition when (b : bool) (m : M unit) : M unit := if b then m else ret tt.

(** ** Python values *)

(** Truthiness of an [Optional[int]]: [None] and [0] are false. *)
Definition truthy_int (v : option Z) : bool :=
  match v with
  | Some n => negb (n =? 0)
  | None => false
  end.

(** Truthiness of an [Optional[str]]: [None] and the empty string are
    false. *)
Definition truthy_str (v : option string) : bool :=
  match v with
  | Some EmptyString => false
  | Some _ => true
  | None => false
  end.

(** [str(n)] for an [int]. *)
Definition str_int (n : Z) : string := pretty n.

Definition dquote : string := String "034"%char EmptyString.

(** [str.isspace] on ASCII. *)
Definition is_space (c : ascii) : bool :=
  let n := nat_of_ascii c in
  ((9 <=? n) && (n <=? 13) || (28 <=? n) && (n <=? 32))%nat.

Fixpoint lstrip (s : string) : string :=
  match s with
  | String c rest => if is_space c then lstrip rest else s
  | EmptyString => EmptyString
  end.

(** Drops trailing blanks: a character is kept when something that is not
    blank follows it or it is not blank itself. *)
Fixpoint rstrip (s : string) : string :=
  match s with
  | String c rest =>
      match rstrip rest with
      | EmptyString => if is_space c then EmptyString else String c EmptyString
      | kept => String c kept
      end
  | EmptyString => EmptyString
  end.

(** [s.strip()] *)
Definition strip (s : string) : string := rstrip (lstrip s).

Definition digit_val (c : ascii) : option Z :=
  let n := nat_of_ascii c in
  if ((48 <=? n) && (n <=? 57))%nat then Some (Z.of_nat n - 48) else None.

(** The digits of a decimal literal: at least one digit, single
    underscores between digits only. *)
Fixpoint int_digits (s : string) (acc : Z) (after_digit : bool) : option Z :=
  match s with
  | EmptyString => if after_digit then Some acc else None
  | String c rest =>
      if Ascii.eqb c "_"%char then
        if after_digit then int_digits rest acc false else None
      else
        match digit_val c with
        | Some d => int_digits rest (10 * acc + d) true
        | None => None
        end
  end.

(** [int(s)] in base ten; [None] stands for [ValueError]. *)
Definition int_of_str (s : string) : option Z :=
  match strip s with
  | String "+"%char rest => int_digits rest 0 false
  | String "-"%char rest => Z.opp <$> int_digits rest 0 false
  | body => int_digits body 0 false
  end.

(** ** Primitives *)

Definition log (line : string) : M unit := modify (add_stdout line).

Definition called (c : call) : M unit := modify (add_call c).

Definition os_error (env : Env) : exn := Exn OSError (oserror_text env).

(** [os.path.exists(p)] *)
Definition os_path_exists (p : string) : M bool :=
  called (CExists p) ;;
  s <- get ;;
  ret (bool_decide (is_Some (fs s !! p))).

(** [os.path.isdir(p)] *)
Definition os_path_isdir (p : string) : M bool :=
  called (CIsdir p) ;;
  s <- get ;;
  ret (match fs s !! p with Some Dir => true | _ => false end).

(** [with open(p, "r") as f: f.read()] *)
Definition read_text (env : Env) (p : string) : M string :=
  called (CRead p) ;;
  s <- get ;;
  match fs s !! p with
  | Some (File content) =>
      if read_fails env p then raise (os_error env) else ret content
  | _ => raise (os_error env)
  end.

(** [with open(p, "w") as f: f.write(text)].  A failing [open] leaves
    the path as it is.  Once [open] has succeeded the file exists and is
    empty, and that is how a failing write leaves it. *)
Definition write_text (env : Env) (p : string) (text : string) : M unit :=
  called (CWrite p text) ;;
  s <- get ;;
  match fs s !! p with
  | Some Dir => raise (os_error env)
  | _ =>
      if open_fails env p then raise (os_error env)
      else
        modify (set_fs (<[p := File EmptyString]> (fs s))) ;;
        if write_fails env p then raise (os_error env)
        else modify (set_fs (<[p := File text]> (fs s)))
  end.

(** [os.remove(p)] *)
Definition os_remove (env : Env) (p : string) : M unit :=
  called (CRemove p) ;;
  s <- get ;;
  match fs s !! p with
  | Some (File _) =>
      if remove_fails env p then raise (os_error env)
      else modify (set_fs (delete p (fs s)))
  | _ => raise (os_error env)
  end.

(** [int(raw)] *)
Definition int_ (raw : string) : M Z :=
  match int_of_str raw with
  | Some n => ret n
  | None => raise (Exn ValueError ("invalid literal for int() with base 10: " +:+ raw))
  end.

(** ** Lock file management *)

(** [OpenProcess] answers a handle (closed again at once), a null handle,
    or the call through [ctypes] raises. *)
Definition _windows_process_exists (env : Env) (pid : Z) : M bool :=
  try_except
    (called (COpenProcess pid) ;;
     match open_process env pid with
     | None => raise (os_error env)
     | Some handle => if negb handle then ret false else ret true
     end)
    is_Exception
    (fun _ => ret false).

Definition _posix_pid_alive (env : Env) (pid : Z) : M bool :=
  try_except
    (called (CKill0 pid) ;;
     if kill0_ok env pid then ret true else raise (os_error env))
    is_Exception
    (fun _ => ret false).

(** [alive = _windows_process_exists(old_pid) if os.name == "nt" else
    _posix_pid_alive(old_pid)] *)
Definition liveness_check (env : Env) (pid : Z) : M bool :=
  if String.eqb (os_name env) "nt"
  then _windows_process_exists env pid
  else _posix_pid_alive env pid.

(** The first half of [acquire_lock]: the inspection of an existing
    marker.  [Some b] is an early [return b]; [None] falls through to the
    write. *)
Definition inspect_marker (env : Env) (lock_path : string) : M (option bool) :=
  old_pid <-
    try_except
      (raw <- read_text env lock_path ;;
       n <- int_ (strip raw) ;;
       ret (Some n))
      is_Exception
      (fun _ =>
         (* corrupted lock; remove it *)
         try_except
           (os_remove env lock_path ;;
            log "Removed corrupted lock file.")
           is_Exception
           (fun _ => ret tt) ;;
         ret None) ;;
  if truthy_int old_pid then
    let pid := default 0 old_pid in
    alive <- liveness_check env pid ;;
    if alive then
      log ("Another instance appears to be running (PID " +:+ str_int pid
           +:+ "). Aborting.") ;;
      ret (Some false)
    else
      log ("Removing stale lock file for PID " +:+ str_int pid +:+ ".") ;;
      try_except (os_remove env lock_path) is_Exception (fun _ => ret tt) ;;
      ret None
  else ret None.

(** The second half of [acquire_lock]: writing the caller's PID. *)
Definition write_marker (env : Env) (lock_path : string) : M bool :=
  try_except
    (write_text env lock_path (str_int (getpid env)) ;;
     ret true)
    is_Exception
    (fun e =>
       log ("Failed to create lock file: " +:+ str_exn e) ;;
       ret false).

Definition acquire_lock (env : Env) (lock_path : string) : M bool :=
  present <- os_path_exists lock_path ;;
  early <- (if present then inspect_marker env lock_path else ret None) ;;
  match early with
  | Some b => ret b
  | None => write_marker env lock_path
  end.

Definition release_lock (env : Env) (lock_path : string) : M unit :=
  try_except
    (present <- os_path_exists lock_path ;;
     when present (os_remove env lock_path))
    is_Exception
    (fun e => log ("Warning: failed to remove lock file: " +:+ str_exn e)).

(** ** Signal handling *)

Definition SIGHUP : Z := 1.
Definition SIGINT : Z := 2.
Definition SIGTERM : Z := 15.

Definition signal_handler (signum : Z) : M unit :=
  log ("Received signal " +:+ str_int signum +:+ "; requesting shutdown.") ;;
  modify (set_shutdown true).

(** [signal.signal(signum, signal_handler)] *)
Definition signal_signal (env : Env) (signum : Z) : M unit :=
  called (CSignal signum) ;;
  if signal_fails env signum
  then raise (Exn ValueError "signal only works in main thread of the main interpreter")
  else modify (add_handler signum).

Definition setup_signal_handlers (env : Env) : M unit :=
  try_except
    (signal_signal env SIGINT ;;
     signal_signal env SIGTERM ;;
     when (has_SIGHUP env) (signal_signal env SIGHUP))
    is_Exception
    (fun e => log ("Warning: failed to setup signal handlers: " +:+ str_exn e)).

(** [signal_handler] has been installed for [signum]. *)
Definition handled (signum : Z) (s : State) : bool :=
  existsb (Z.eqb signum) (handlers s).

Definition interrupt : exn := Exn KeyboardInterrupt EmptyString.

(** The arrival of a signal.  With [signal_handler] installed for it,
    the handler runs.  Without, the default applies: SIGINT raises
    [KeyboardInterrupt] where the program stands, and any other signal
    ends the process there, so that nothing after that point runs.  A
    signal that the system ignores by default (a child that exits, a
    window that is resized) is no arrival: it does nothing. *)
Definition deliver (sig : option Z) : M unit :=
  match sig with
  | Some signum =>
      s <- get ;;
      if handled signum s then signal_handler signum
      else if signum =? SIGINT then raise interrupt
      else hang
  | None => ret tt
  end.

(** ** The request handler *)

Definition hex_digit (n : nat) : ascii :=
  nth n ["0"; "1"; "2"; "3"; "4"; "5"; "6"; "7"; "8"; "9";
         "a"; "b"; "c"; "d"; "e"; "f"]%char "0"%char.

(** One character of a JSON string under [ensure_ascii]: the quote and
    the backslash are escaped, and so is everything outside the printable
    range from the blank to the tilde. *)
Definition json_escape_char (c : ascii) : string :=
  let n := nat_of_ascii c in
  if (n =? 34)%nat then "\" +:+ dquote
  else if (n =? 92)%nat then "\\"
  else if (n =? 10)%nat then "\n"
  else if (n =? 13)%nat then "\r"
  else if (n =? 9)%nat then "\t"
  else if (n =? 8)%nat then "\b"
  else if (n =? 12)%nat then "\f"
  else if ((n <? 32) || (126 <? n))%nat then
    "\u00" +:+ String (hex_digit (n / 16)) (String (hex_digit (n mod 16)) EmptyString)
  else String c EmptyString.

Fixpoint json_escape (s : string) : string :=
  match s with
  | String c rest => json_escape_char c +:+ json_escape rest
  | EmptyString => EmptyString
  end.

Definition json_string (s : string) : string := dquote +:+ json_escape s +:+ dquote.

Fixpoint join (sep : string) (parts : list string) : string :=
  match parts with
  | [] => EmptyString
  | [p] => p
  | p :: rest => p +:+ sep +:+ join sep rest
  end.

(** [json.dumps(d)] for a [dict] from [str] to [str], with the default
    separators: a comma and a blank between items, a colon and a blank
    between key and value. *)
Definition json_dumps (d : list (string * string)) : string :=
  "{" +:+ join ", " (map (fun kv => json_string (fst kv) +:+ ": " +:+ json_string (snd kv)) d)
      +:+ "}".

(** What a handler has sent so far. *)
Record response : Type := mkResponse {
  resp_status : option Z;
  resp_headers : list (string * string);
  resp_headers_ended : bool;
  resp_body : string
}.

Definition no_response : response := mkResponse None [] false EmptyString.

Definition send_header (k v : string) (r : response) : response :=
  mkResponse (resp_status r) (resp_headers r ++ [(k, v)]) (resp_headers_ended r)
             (resp_body r).

Definition end_headers (r : response) : response :=
  mkResponse (resp_status r) (resp_headers r) true (resp_body r).

Definition wfile_write (data : string) (r : response) : response :=
  mkResponse (resp_status r) (resp_headers r) (resp_headers_ended r)
             (resp_body r +:+ data).

Section ViewerRequestHandler.

(** What the standard library's handler contributes: the two headers
    [send_response] adds, and static file serving. *)
Variable version_string : string.
Variable date_time_string : string.
Variable SimpleHTTPRequestHandler_do_GET : string -> string -> response -> response.

Definition send_response (code : Z) (r : response) : response :=
  send_header "Date" date_time_string
    (send_header "Server" version_string
       (mkResponse (Some code) (resp_headers r) (resp_headers_ended r) (resp_body r))).

Definition do_GET (directory path : string) (r : response) : response :=
  if String.eqb path "/health" then
    let payload := [("status", "ok")] in
    let body := json_dumps payload in
    let r := send_response 200 r in
    let r := send_header "Content-Type" "application/json" r in
    let r := send_header "Content-Length" (str_int (Z.of_nat (String.length body))) r in
    let r := end_headers r in
    wfile_write body r
  else SimpleHTTPRequestHandler_do_GET directory path r.

End ViewerRequestHandler.

(** ** The stoppable server *)

(** A method call on the server object. *)
Definition on_server {A} (f : Server -> result A * Server) : M A :=
  fun s =>
    match server s with
    | Some srv => let (r, srv') := f srv in (r, set_server (Some srv') s)
    | None => (Raise (Exn AttributeError "'NoneType' object has no attribute"), s)
    end.

(** [serve_forever] clears the event and loops until a shutdown request;
    on the way out it resets the request and sets the event. *)
Definition serve_forever_enter (srv : Server) : Server :=
  mkServer (srv_port srv) (srv_directory srv) Serving
           (srv_shutdown_request srv) false (srv_socket_open srv).

Definition serve_forever_leave (srv : Server) : Server :=
  mkServer (srv_port srv) (srv_directory srv) Exited false true (srv_socket_open srv).

(** [shutdown] sets the request and waits for the event.  A running loop
    sees the request and leaves; with no loop running the wait returns
    only if the event is already set. *)
Definition shutdown (srv : Server) : result unit * Server :=
  let asked := mkServer (srv_port srv) (srv_directory srv) (srv_loop srv) true
                        (srv_is_shut_down srv) (srv_socket_open srv) in
  match srv_loop srv with
  | Serving => (Ret tt, serve_forever_leave asked)
  | _ => if srv_is_shut_down srv then (Ret tt, asked) else (Hang, asked)
  end.

Definition server_close (srv : Server) : result unit * Server :=
  (Ret tt, mkServer (srv_port srv) (srv_directory srv) (srv_loop srv)
                    (srv_shutdown_request srv) (srv_is_shut_down srv) false).

(** [StoppableHTTPServer.run], the body of the background thread. *)
Definition run : M unit :=
  on_server (fun srv => (Ret tt, serve_forever_enter srv)).

(** [StoppableHTTPServer.stop] *)
Definition stop : M unit :=
  try_finally
    (on_server shutdown)
    (try_except (on_server server_close) is_Exception (fun _ => ret tt)).

(** ** Ports and server start *)

Definition HOST : string := "127.0.0.1".
Definition DEFAULT_PORT : Z := 8080.
Definition PORT_SEARCH_RANGE : Z := 200.

(** [s.bind((HOST, port))] on a fresh socket that is closed at once.
    Port 0 asks the system for any free port, so a bind to it does not
    find the port taken. *)
Definition probe_bind (env : Env) (port : Z) : M unit :=
  called (CBind port) ;;
  if (port <? 0) || (65535 <? port)
  then raise (Exn OverflowError "bind(): port must be 0-65535.")
  else if negb (port =? 0) && port_busy env port then raise (os_error env)
  else ret tt.

Fixpoint find_free_port_from (env : Env) (port : Z) (attempts : nat) : M (option Z) :=
  match attempts with
  | O => ret None
  | S fewer =>
      bound <- try_except
                 (probe_bind env port ;; ret true)
                 is_OSError
                 (fun _ => ret false) ;;
      if bound then ret (Some port) else find_free_port_from env (port + 1) fewer
  end.

Definition find_free_port (env : Env) (start_port max_attempts : Z) : M Z :=
  found <- find_free_port_from env start_port (Z.to_nat max_attempts) ;;
  match found with
  | Some port => ret port
  | None =>
      raise (Exn RuntimeError
               ("No free port found in range " +:+ str_int start_port +:+ "-"
                +:+ str_int (start_port + max_attempts - 1)))
  end.

(** The first step of [start_server], under its comment "Determine port". *)
Definition determine_port (env : Env) (preferred_port : option Z) : M Z :=
  if truthy_int preferred_port then
    let preferred := default 0 preferred_port in
    try_except
      (find_free_port env preferred 1)
      is_Exception
      (fun _ =>
         raise (Exn RuntimeError
                  ("Preferred port " +:+ str_int preferred +:+ " unavailable")))
  else find_free_port env DEFAULT_PORT PORT_SEARCH_RANGE.

(** [StoppableHTTPServer((HOST, port), handler_cls)]: bind and listen. *)
Definition new_server (env : Env) (serve_dir : string) (port : Z) : M unit :=
  called (CListen port) ;;
  if port_busy env port || listen_fails env then raise (os_error env)
  else modify (set_server (Some (mkServer port serve_dir NotStarted false false true))).

(** [socket.create_connection((HOST, port), timeout=0.5)] *)
Definition create_connection (env : Env) (port : Z) (ok : bool) : M unit :=
  called (CConnect port) ;;
  if ok then ret tt else raise (os_error env).

Definition sleep (ms : Z) : M unit := called (CSleep ms).

(** The loop that waits for the socket to accept connections; [true] is
    its [break], [false] its [else]. *)
Fixpoint startup_wait (env : Env) (port : Z) (ticks : list tick) : M bool :=
  match ticks with
  | [] => ret false
  | t :: later =>
      deliver (tick_signal t) ;;
      s <- get ;;
      if _shutdown_requested s then ret false
      else
        connected <- try_except
                       (create_connection env port (tick_ok t) ;; ret true)
                       is_OSError
                       (fun _ => sleep 50 ;; ret false) ;;
        if connected then ret true else startup_wait env port later
  end.

Definition startup_interrupted : exn :=
  Exn KeyboardInterrupt "Shutdown requested during server startup".

Definition startup_timeout : exn :=
  Exn RuntimeError "Server failed to start within timeout".

(** [thread.start()] for the thread whose target is [server.run]. *)
Definition thread_start (env : Env) : M unit :=
  if thread_start_fails env
  then raise (Exn RuntimeError "can't start new thread")
  else run.

(** The result stands for the triple [(server, thread, port)]: the server
    and its thread are the ones in the state. *)
Definition start_server (env : Env) (serve_dir : string) (preferred_port : option Z)
  : M (unit * unit * Z) :=
  port <- determine_port env preferred_port ;;
  new_server env serve_dir port ;;
  thread_start env ;;
  connected <- startup_wait env port (startup_ticks env) ;;
  if connected then ret (tt, tt, port)
  else
    s <- get ;;
    if _shutdown_requested s
    then raise startup_interrupted
    else raise startup_timeout.

(** ** Browser launch helpers *)

Definition candidates : list string :=
  [ "C:\Program Files\Microsoft\Edge\Application\msedge.exe";
    "C:\Program Files (x86)\Microsoft\Edge\Application\msedge.exe";
    "C:\Program Files\Google\Chrome\Application\chrome.exe";
    "C:\Program Files (x86)\Google\Chrome\Application\chrome.exe";
    "C:\Program Files\BraveSoftware\Brave-Browser\Application\brave.exe";
    "C:\Program Files\Chromium\Application\chrome.exe";
    "/usr/bin/google-chrome";
    "/usr/bin/chromium-browser";
    "/Applications/Google Chrome.app/Contents/MacOS/Google Chrome";
    "/Applications/Microsoft Edge.app/Contents/MacOS/Microsoft Edge" ].

Fixpoint first_existing (paths : list string) : M (option string) :=
  match paths with
  | [] => ret None
  | p :: others =>
      present <- os_path_exists p ;;
      if present then ret (Some p) else first_existing others
  end.

Definition find_chrome_like : M (option string) := first_existing candidates.

Definition PROFILE_CLEANUP_RETRIES : nat := 3.

(** [shutil.rmtree(p)] *)
Definition shutil_rmtree (env : Env) (attempt : nat) (p : string) : M unit :=
  called (CRmtree p) ;;
  s <- get ;;
  match fs s !! p with
  | Some Dir =>
      if rmtree_fails env attempt then raise (os_error env)
      else modify (set_fs (delete p (fs s)))
  | _ => raise (os_error env)
  end.

(** The retry loop of [cleanup_profile]; [true] is its [return]. *)
Fixpoint cleanup_attempts (env : Env) (profile_dir : string) (attempt remaining : nat)
  : M bool :=
  match remaining with
  | O => ret false
  | S fewer =>
      removed <- try_except
                   (isdir <- os_path_isdir profile_dir ;;
                    when isdir (shutil_rmtree env attempt profile_dir) ;;
                    ret true)
                   is_Exception
                   (fun _ =>
                      when (attempt <? PROFILE_CLEANUP_RETRIES - 1)%nat (sleep 200) ;;
                      ret false) ;;
      if removed then ret true
      else cleanup_attempts env profile_dir (S attempt) fewer
  end.

Definition cleanup_profile (env : Env) (profile_dir : option string) : M unit :=
  if negb (truthy_str profile_dir) then ret tt
  else
    let dir := default EmptyString profile_dir in
    returned <- cleanup_attempts env dir 0 PROFILE_CLEANUP_RETRIES ;;
    if returned then ret tt
    else log ("Warning: could not remove profile directory " +:+ dir).

(** [webbrowser.open(url, new=2)] *)
Definition webbrowser_open (env : Env) (url : string) : M unit :=
  called (CWebbrowserOpen url) ;;
  if webbrowser_fails env then raise (os_error env) else ret tt.

(** [tempfile.mkdtemp(prefix=...)]: a new directory under the temporary
    root, named by the prefix and a random suffix. *)
Definition mkdtemp (env : Env) (prefix : string) : M string :=
  called (CMkdtemp prefix) ;;
  match mkdtemp_suffix env with
  | None => raise (os_error env)
  | Some suffix =>
      let dir := gettempdir env +:+ "/" +:+ prefix +:+ suffix in
      s <- get ;;
      match fs s !! dir with
      | None => modify (set_fs (<[dir := Dir]> (fs s))) ;; ret dir
      | Some _ => raise (os_error env)
      end
  end.

(** [subprocess.Popen(cmd)]; the result is the PID of the child. *)
Definition Popen (env : Env) (cmd : list string) (new_console : bool) : M Z :=
  called (CPopen cmd new_console) ;;
  match popen_result env with
  | Some pid => ret pid
  | None => raise (os_error env)
  end.

Definition launch_browser_in_new_terminal (env : Env) (url : string)
    (use_new_console : bool) : M (option Z * option string) :=
  exe <- find_chrome_like ;;
  if negb (truthy_str exe) then
    try_except
      (webbrowser_open env url ;;
       log "Opened in system default browser (fallback)." ;;
       ret (None, None))
      is_Exception
      (fun e =>
         log ("Fallback open failed: " +:+ str_exn e) ;;
         ret (None, None))
  else
    let exe := default EmptyString exe in
    profile <- mkdtemp env "viewer-profile-" ;;
    let cmd := [ exe;
                 "--app=" +:+ url;
                 "--user-data-dir=" +:+ profile;
                 "--no-first-run";
                 "--no-default-browser-check";
                 "--disable-extensions" ] in
    try_except
      (proc <- (if String.eqb (os_name env) "nt" && use_new_console
                then Popen env cmd true
                else Popen env cmd false) ;;
       log ("Launched browser: " +:+ exe +:+ " (pid=" +:+ str_int proc
            +:+ ") profile=" +:+ profile) ;;
       ret (Some proc, Some profile))
      is_Exception
      (fun e =>
         log ("Failed to launch browser executable: " +:+ str_exn e) ;;
         cleanup_profile env (Some profile) ;;
         ret (None, None)).

(** ** Main run logic *)

(** [while proc.poll() is None and not _shutdown_requested: time.sleep(0.1)].
    The loop has no deadline: when the browser never exits and no signal
    comes, it does not end. *)
Fixpoint wait_for_browser (ticks : list tick) : M unit :=
  match ticks with
  | [] => hang
  | t :: later =>
      deliver (tick_signal t) ;;
      called CPoll ;;
      if tick_ok t then ret tt
      else
        s <- get ;;
        if _shutdown_requested s then ret tt
        else sleep 100 ;; wait_for_browser later
  end.

Definition proc_terminate (env : Env) : M unit :=
  called CTerminate ;;
  if terminate_fails env then raise (os_error env) else ret tt.

Definition proc_wait (env : Env) : M unit :=
  called CWait ;;
  if wait_times_out env
  then raise (Exn TimeoutExpired "timed out after 5 seconds")
  else ret tt.

Definition proc_kill (env : Env) : M unit :=
  called CProcKill ;;
  if kill_fails env then raise (os_error env) else ret tt.

(** [urllib.request.urlopen(url, timeout=1.0)] *)
Definition urlopen (env : Env) (url : string) (ok : bool) : M unit :=
  called (CUrlopen url) ;;
  if ok then ret tt else raise (os_error env).

(** The fallback polling loop; [true] is its [break], [false] its [else]. *)
Fixpoint poll_health (env : Env) (port : Z) (ticks : list tick) : M bool :=
  match ticks with
  | [] => ret false
  | t :: later =>
      deliver (tick_signal t) ;;
      s <- get ;;
      if _shutdown_requested s then ret false
      else
        reachable <- try_except
                       (urlopen env ("http://" +:+ HOST +:+ ":" +:+ str_int port
                                     +:+ "/health") (tick_ok t) ;;
                        sleep 500 ;;
                        ret true)
                       is_Exception
                       (fun _ =>
                          log "Detected server unreachable; assuming browser/tab closed." ;;
                          ret false) ;;
        if reachable then poll_health env port later else ret true
  end.

(** The block guarded by the inner [finally]. *)
Definition wait_for_session (env : Env) (proc : option Z) (port : Z) : M unit :=
  if bool_decide (is_Some proc) then
    log "Waiting for browser process to exit..." ;;
    wait_for_browser (browser_ticks env) ;;
    s <- get ;;
    if _shutdown_requested s then
      log "Shutdown requested; terminating browser process..." ;;
      try_except
        (proc_terminate env ;; proc_wait env)
        is_Exception
        (fun _ => try_except (proc_kill env) is_Exception (fun _ => ret tt))
    else log "Browser process exited."
  else
    log "Fallback: polling /health until unreachable or timeout." ;;
    broke <- poll_health env port (health_ticks env) ;;
    if broke then ret tt
    else
      s <- get ;;
      if _shutdown_requested s
      then log "Shutdown requested during fallback polling."
      else log "Fallback poll timed out; continuing to shutdown.".

(** The inner [finally]. *)
Definition stop_and_clean (env : Env) (server : option unit) (profile : option string)
  : M unit :=
  log "Stopping HTTP server..." ;;
  when (bool_decide (is_Some server))
       (try_except stop is_Exception
          (fun e => log ("Error stopping server: " +:+ str_exn e))) ;;
  cleanup_profile env profile.

(** The outer [try] block.  [Some b] is a [return b] from inside it;
    [None] falls through to the statement after the [try]. *)
Definition run_body (env : Env) (serve_dir : string) (preferred_port : option Z)
    (use_new_console : bool) : M (option bool) :=
  log ("Starting HTTP server for directory: " +:+ serve_dir) ;;
  started <- start_server env serve_dir preferred_port ;;
  let server := Some (fst (fst started)) in
  let port := snd started in
  let url := "http://" +:+ HOST +:+ ":" +:+ str_int port +:+ "/timeline_viewer.html" in
  log ("VIEWER_URL=" +:+ url) ;;
  log ("Server started at " +:+ url) ;;
  deliver (signal_after_start env) ;;
  s <- get ;;
  if _shutdown_requested s then ret (Some false)
  else
    launched <- launch_browser_in_new_terminal env url use_new_console ;;
    let proc := fst launched in
    let profile := snd launched in
    try_finally
      (wait_for_session env proc port)
      (stop_and_clean env server profile) ;;
    ret None.

(** [try: m  except <c1>: h1  except <c2>: h2]: the first matching clause
    handles; what a handler raises is not handled here. *)
Definition try_except2 {A} (m : M A) (c1 : exn -> bool) (h1 : exn -> M A)
    (c2 : exn -> bool) (h2 : exn -> M A) : M A :=
  fun s =>
    match m s with
    | (Raise e, s1) =>
        if c1 e then h1 e s1
        else if c2 e then h2 e s1
        else (Raise e, s1)
    | other => other
    end.

Definition run_and_block (env : Env) (serve_dir : string) (lock_path : option string)
    (preferred_port : option Z) (use_new_console : bool) : M bool :=
  let path := default EmptyString lock_path in
  refused <- (if truthy_str lock_path
              then locked <- acquire_lock env path ;; ret (negb locked)
              else ret false) ;;
  if refused then ret false
  else
    early <- try_finally
               (try_except2
                  (run_body env serve_dir preferred_port use_new_console)
                  is_KeyboardInterrupt
                  (fun _ => log "Interrupted by user." ;; ret (Some false))
                  is_Exception
                  (fun e => log ("Error during execution: " +:+ str_exn e) ;;
                            ret (Some false)))
               (when (truthy_str lock_path) (release_lock env path)) ;;
    match early with
    | Some b => ret b
    | None => s <- get ;; ret (negb (_shutdown_requested s))
    end.

(** ** Vocabulary of the properties *)

(** The PID a marker names: the parse [acquire_lock] applies to its text. *)
Definition parse_marker (content : string) : option Z := int_of_str (strip content).

(** What the platform's liveness check answers for a PID. *)
Definition pid_alive (env : Env) (pid : Z) : bool :=
  if String.eqb (os_name env) "nt"
  then match open_process env pid with Some true => true | _ => false end
  else kill0_ok env pid.

(** A decimal digit, as [str] prints it. *)
Definition digit_char (c : ascii) : Prop :=
  exists d, (d < 10)%N /\ c = pretty_N_char d.

Fixpoint all_chars (P : ascii -> Prop) (s : string) : Prop :=
  match s with
  | EmptyString => True
  | String c rest => P c /\ all_chars P rest
  end.

(** The text [acquire_lock] writes: the caller's PID in decimal. *)
Definition own_pid_text (env : Env) : string := str_int (getpid env).

(** The marker can be written: [open] and the write both succeed. *)
Definition writable (env : Env) (p : string) : bool :=
  negb (open_fails env p) && negb (write_fails env p).

(** A port is free when a bind to it succeeds. *)
Definition port_free (env : Env) (port : Z) : bool :=
  (0 <=? port) && (port <=? 65535) && ((port =? 0) || negb (port_busy env port)).

(** [shutdown] finds what it waits for: a loop is running to see the
    request, or the event is set already. *)
Definition stoppable (srv : Server) : bool :=
  match srv_loop srv with
  | Serving => true
  | _ => srv_is_shut_down srv
  end.

(** The server object right after [start_server] has launched it. *)
Definition serving (port : Z) (serve_dir : string) : Server :=
  mkServer port serve_dir Serving false false true.

(** No accept loop is running and the socket is closed. *)
Definition stopped (srv : Server) : Prop :=
  srv_loop srv <> Serving /\ srv_socket_open srv = false.

(** The two candidate bodies of the health response: without and with the
    blank after the colon. *)
Definition health_body_compact : string :=
  "{" +:+ dquote +:+ "status" +:+ dquote +:+ ":" +:+ dquote +:+ "ok" +:+ dquote +:+ "}".

Definition health_body : string :=
  "{" +:+ dquote +:+ "status" +:+ dquote +:+ ": " +:+ dquote +:+ "ok" +:+ dquote +:+ "}".

(** ** Frames

    [steady R m]: whatever [m] does, it moves the state along [R] only.
    A frame is a relation that is closed under the steps every function
    of the launcher makes (calling out, logging, raising the flag); what
    else a function may do is asked of the relation where it matters.
    Opening the default browser is the one outside call that is asked
    separately. *)

Definition opens_browser (c : call) : bool :=
  match c with
  | CWebbrowserOpen _ => true
  | _ => false
  end.

Definition steady {A} (R : State -> State -> Prop) (m : M A) : Prop :=
  forall s r s', m s = (r, s') -> R s s'.

Record frame (R : State -> State -> Prop) : Prop := mkFrame {
  frame_refl : forall s, R s s;
  frame_trans : forall a b c, R a b -> R b c -> R a c;
  frame_call : forall c s, opens_browser c = false -> R s (add_call c s);
  frame_log : forall line s, R s (add_stdout line s);
  frame_flag : forall b s, R s (set_shutdown b s)
}.

Definition allows_browser (R : State -> State -> Prop) : Prop :=
  forall url s, R s (add_call (CWebbrowserOpen url) s).

Definition ignores_server (R : State -> State -> Prop) : Prop :=
  forall v s, R s (set_server v s).

Definition allows_mkdir (R : State -> State -> Prop) : Prop :=
  forall d s, fs s !! d = None -> R s (set_fs (<[d := Dir]> (fs s)) s).

Definition allows_rmdir (R : State -> State -> Prop) : Prop :=
  forall d s, fs s !! d = Some Dir -> R s (set_fs (delete d (fs s)) s).

Definition allows_unlink (R : State -> State -> Prop) (P : string) : Prop :=
  forall s, R s (set_fs (delete P (fs s)) s).

Definition allows_write (R : State -> State -> Prop) (P : string) : Prop :=
  forall text s, R s (set_fs (<[P := File text]> (fs s)) s).

Definition same_fs (s s' : State) : Prop := fs s' = fs s.

Definition same_server (s s' : State) : Prop := server s' = server s.

(** A file at [P] with this content stays. *)
Definition keeps_file (P content : string) (s s' : State) : Prop :=
  fs s !! P = Some (File content) -> fs s' !! P = Some (File content).

(** No call to open the default browser is added. *)
Definition no_new_open (s s' : State) : Prop :=
  forall url, In (CWebbrowserOpen url) (calls s') -> In (CWebbrowserOpen url) (calls s).

(** Nothing but [P] changes in the file system. *)
Definition only_touches (P : string) (s s' : State) : Prop :=
  forall d, d <> P -> fs s' !! d = fs s !! d.

(** ** The claims as the specification words them

    Each is a proposition about the model; those that the code does not
    satisfy are refuted below at a concrete input and then proved in an
    amended form. *)

(** A marker naming a live PID makes [acquire_lock] fail and stays as it
    is. *)
Definition live_owner_claim (env : Env) (P : string) (s : State) : Prop :=
  forall content pid,
    fs s !! P = Some (File content) ->
    read_fails env P = false ->
    parse_marker content = Some pid ->
    pid_alive env pid = true ->
    exists s', acquire_lock env P s = (Ret false, s')
               /\ fs s' !! P = Some (File content).

(** An absent marker, or one naming a dead PID, makes [acquire_lock]
    succeed and leaves the caller's PID in the marker. *)
Definition absent_or_dead (env : Env) (P : string) (s : State) : Prop :=
  fs s !! P = None
  \/ exists content pid,
       fs s !! P = Some (File content)
       /\ read_fails env P = false
       /\ parse_marker content = Some pid
       /\ pid_alive env pid = false.

Definition acquire_succeeds_claim (env : Env) (P : string) (s : State) : Prop :=
  absent_or_dead env P s ->
  exists s', acquire_lock env P s = (Ret true, s')
             /\ fs s' !! P = Some (File (own_pid_text env)).

(** A marker whose text parses as 0 is overwritten with no liveness check
    and no deletion, and [acquire_lock] succeeds. *)
Definition pid_zero_claim (env : Env) (P : string) (s : State) : Prop :=
  forall content,
    fs s !! P = Some (File content) ->
    read_fails env P = false ->
    parse_marker content = Some 0 ->
    exists s', acquire_lock env P s = (Ret true, s')
               /\ fs s' !! P = Some (File (own_pid_text env))
               /\ calls s' = (calls s ++ [CExists P; CRead P; CWrite P (own_pid_text env)])%list.

(** [GET /health] answers 200 with a JSON content type and the compact
    body. *)
Definition health_claim (version date : string)
    (static : string -> string -> response -> response) (directory : string) : Prop :=
  let r := do_GET version date static directory "/health" no_response in
  resp_status r = Some 200
  /\ In ("Content-Type", "application/json") (resp_headers r)
  /\ resp_body r = health_body_compact.

Definition port_unavailable (P : Z) : exn :=
  Exn RuntimeError ("Preferred port " +:+ str_int P +:+ " unavailable").

(** With a preferred port [P], the port step binds [P] and nothing else;
    it returns [P] when [P] is free and fails otherwise. *)
Definition preferred_port_claim (env : Env) (P : Z) (s : State) : Prop :=
  exists s',
    determine_port env (Some P) s
    = (if port_free env P then Ret P else Raise (port_unavailable P), s')
    /\ calls s' = (calls s ++ [CBind P])%list.

(** The handler does one thing: it sets the flag. *)
Definition handler_claim (signum : Z) (s : State) : Prop :=
  signal_handler signum s = (Ret tt, set_shutdown true s).


(** [stop] can be called twice in a row, without error, on the server a
    start leaves behind, whether the start succeeded or not. *)
Definition stop_total_claim (env : Env) (serve_dir : string) (preferred_port : option Z)
    (s0 : State) : Prop :=
  let s := snd (start_server env serve_dir preferred_port s0) in
  is_Some (server s) ->
  exists s1 s2, stop s = (Ret tt, s1) /\ stop s1 = (Ret tt, s2).

(** One of the three attempts of [cleanup_profile] gets through. *)
Definition rmtree_succeeds (env : Env) : bool :=
  negb (rmtree_fails env 0%nat && rmtree_fails env 1%nat && rmtree_fails env 2%nat).

(** ** Concrete inputs *)

(** A POSIX machine with no browser installed on which no signal arrives.
    PID 777 is alive, and [os.kill(0, 0)] answers, as it does for the
    caller's own process group.  What varies between the examples is
    given as arguments: which paths cannot be opened for writing, which
    removals fail, which ports are busy, what the startup probes see, and
    whether a browser can be spawned. *)
Definition machine (no_write no_remove : string -> bool) (busy : Z -> bool)
    (startup : list tick) (spawn : option Z) : Env :=
  {| os_name := "posix";
     getpid := 4242;
     open_process := fun _ => Some false;
     kill0_ok := fun pid => (pid =? 0) || (pid =? 777);
     read_fails := fun _ => false;
     open_fails := no_write;
     write_fails := fun _ => false;
     remove_fails := no_remove;
     rmtree_fails := fun _ => false;
     port_busy := busy;
     listen_fails := false;
     thread_start_fails := false;
     startup_ticks := startup;
     signal_after_start := None;
     webbrowser_fails := false;
     gettempdir := "/tmp";
     mkdtemp_suffix := Some "a1b2c3";
     popen_result := spawn;
     browser_ticks := [mkTick None false; mkTick None true];
     terminate_fails := false;
     wait_times_out := false;
     kill_fails := false;
     health_ticks := [mkTick None true; mkTick None false];
     has_SIGHUP := true;
     signal_fails := fun _ => false;
     oserror_text := "[Errno 13] Permission denied" |}.

Definition never {A} (_ : A) : bool := false.
Definition always {A} (_ : A) : bool := true.

(** Nothing fails, every port is free, the server answers the first
    probe. *)
Definition env_posix : Env :=
  machine never never never [mkTick None true] (Some 5151).

(** No path can be opened for writing. *)
Definition env_readonly : Env :=
  machine always never never [mkTick None true] (Some 5151).

(** Port 9000 is held by another process. *)
Definition busy_9000 (port : Z) : bool := port =? 9000.

(** Port 9000 is busy; nothing else goes wrong. *)
Definition env_taken : Env :=
  machine never never busy_9000 [mkTick None true] (Some 5151).

(** Port 9000 is busy and the marker, once written, cannot be removed. *)
Definition env_stuck : Env :=
  machine never always busy_9000 [mkTick None true] (Some 5151).

(** The server never answers the two probes that fit before the startup
    deadline. *)
Definition env_timeout : Env :=
  machine never never never [mkTick None false; mkTick None false] (Some 5151).

(** The browser binary cannot be spawned. *)
Definition env_nospawn : Env :=
  machine never never never [mkTick None true] None.

(** [env] where the write into a file that [open] has opened fails as
    [fails] says, with the error [text]. *)
Definition with_write_fails (fails : string -> bool) (text : string) (env : Env) : Env :=
  {| os_name := os_name env;
     getpid := getpid env;
     open_process := open_process env;
     kill0_ok := kill0_ok env;
     read_fails := read_fails env;
     open_fails := open_fails env;
     write_fails := fails;
     remove_fails := remove_fails env;
     rmtree_fails := rmtree_fails env;
     port_busy := port_busy env;
     listen_fails := listen_fails env;
     thread_start_fails := thread_start_fails env;
     startup_ticks := startup_ticks env;
     signal_after_start := signal_after_start env;
     webbrowser_fails := webbrowser_fails env;
     gettempdir := gettempdir env;
     mkdtemp_suffix := mkdtemp_suffix env;
     popen_result := popen_result env;
     browser_ticks := browser_ticks env;
     terminate_fails := terminate_fails env;
     wait_times_out := wait_times_out env;
     kill_fails := kill_fails env;
     health_ticks := health_ticks env;
     has_SIGHUP := has_SIGHUP env;
     signal_fails := signal_fails env;
     oserror_text := text |}.

(** The disk is full: files can be opened for writing, and nothing can be
    written into them. *)
Definition env_disk_full : Env :=
  with_write_fails always "[Errno 28] No space left on device" env_posix.

Definition with_thread_start_fails (fails : bool) (env : Env) : Env :=
  {| os_name := os_name env;
     getpid := getpid env;
     open_process := open_process env;
     kill0_ok := kill0_ok env;
     read_fails := read_fails env;
     open_fails := open_fails env;
     write_fails := write_fails env;
     remove_fails := remove_fails env;
     rmtree_fails := rmtree_fails env;
     port_busy := port_busy env;
     listen_fails := listen_fails env;
     thread_start_fails := fails;
     startup_ticks := startup_ticks env;
     signal_after_start := signal_after_start env;
     webbrowser_fails := webbrowser_fails env;
     gettempdir := gettempdir env;
     mkdtemp_suffix := mkdtemp_suffix env;
     popen_result := popen_result env;
     browser_ticks := browser_ticks env;
     terminate_fails := terminate_fails env;
     wait_times_out := wait_times_out env;
     kill_fails := kill_fails env;
     health_ticks := health_ticks env;
     has_SIGHUP := has_SIGHUP env;
     signal_fails := signal_fails env;
     oserror_text := oserror_text env |}.

(** No new thread can be started. *)
Definition env_no_thread : Env := with_thread_start_fails true env_posix.

Definition with_browser_ticks (ticks : list tick) (env : Env) : Env :=
  {| os_name := os_name env;
     getpid := getpid env;
     open_process := open_process env;
     kill0_ok := kill0_ok env;
     read_fails := read_fails env;
     open_fails := open_fails env;
     write_fails := write_fails env;
     remove_fails := remove_fails env;
     rmtree_fails := rmtree_fails env;
     port_busy := port_busy env;
     listen_fails := listen_fails env;
     thread_start_fails := thread_start_fails env;
     startup_ticks := startup_ticks env;
     signal_after_start := signal_after_start env;
     webbrowser_fails := webbrowser_fails env;
     gettempdir := gettempdir env;
     mkdtemp_suffix := mkdtemp_suffix env;
     popen_result := popen_result env;
     browser_ticks := ticks;
     terminate_fails := terminate_fails env;
     wait_times_out := wait_times_out env;
     kill_fails := kill_fails env;
     health_ticks := health_ticks env;
     has_SIGHUP := has_SIGHUP env;
     signal_fails := signal_fails env;
     oserror_text := oserror_text env |}.

(** The browser is still running at the second poll, when SIGINT
    arrives. *)
Definition env_interrupted : Env :=
  with_browser_ticks [mkTick None false; mkTick (Some SIGINT) false] env_posix.

Definition chrome : string := "/usr/bin/google-chrome".

(** A machine with Chrome installed. *)
Definition with_chrome : gmap string node := <[chrome := File "ELF"]> ∅.

(** A static file handler that finds nothing. *)
Definition not_found (directory path : string) (r : response) : response :=
  mkResponse (Some 404) (resp_headers r) true (resp_body r).

Definition lock : string := "viewer.lock".

Definition state_of (files : gmap string node) : State :=
  {| fs := files; server := None; _shutdown_requested := false;
     stdout := []; calls := []; handlers := [] |}.

Definition marker (text : string) : gmap string node := <[lock := File text]> ∅.

Definition profile_dir : string := "/tmp/viewer-profile-a1b2c3".

(** ** Further vocabulary *)

(** The state after a sequence of outside calls that change nothing
    else. *)
Definition add_calls (made : list call) (s : State) : State :=
  mkState (fs s) (server s) (_shutdown_requested s) (stdout s) (calls s ++ made)
          (handlers s).

(** The binds of a scan over [count] consecutive ports. *)
Definition binds (start count : Z) : list call := map CBind (seqZ start count).

Definition port_overflow : exn := Exn OverflowError "bind(): port must be 0-65535.".

Definition no_free_port (start_port max_attempts : Z) : exn :=
  Exn RuntimeError
    ("No free port found in range " +:+ str_int start_port +:+ "-"
     +:+ str_int (start_port + max_attempts - 1)).

(** The command line of the dedicated browser. *)
Definition browser_command (exe url profile : string) : list string :=
  [ exe;
    "--app=" +:+ url;
    "--user-data-dir=" +:+ profile;
    "--no-first-run";
    "--no-default-browser-check";
    "--disable-extensions" ].

(** ** Further concrete inputs *)

(** [env] with removals of a directory tree that fail as [fails] says. *)
Definition with_rmtree_fails (fails : nat -> bool) (env : Env) : Env :=
  {| os_name := os_name env;
     getpid := getpid env;
     open_process := open_process env;
     kill0_ok := kill0_ok env;
     read_fails := read_fails env;
     open_fails := open_fails env;
     write_fails := write_fails env;
     remove_fails := remove_fails env;
     rmtree_fails := fails;
     port_busy := port_busy env;
     listen_fails := listen_fails env;
     thread_start_fails := thread_start_fails env;
     startup_ticks := startup_ticks env;
     signal_after_start := signal_after_start env;
     webbrowser_fails := webbrowser_fails env;
     gettempdir := gettempdir env;
     mkdtemp_suffix := mkdtemp_suffix env;
     popen_result := popen_result env;
     browser_ticks := browser_ticks env;
     terminate_fails := terminate_fails env;
     wait_times_out := wait_times_out env;
     kill_fails := kill_fails env;
     health_ticks := health_ticks env;
     has_SIGHUP := has_SIGHUP env;
     signal_fails := signal_fails env;
     oserror_text := oserror_text env |}.

(** The last port, 65535, is held by another process. *)
Definition env_last_port_taken : Env :=
  machine never never (fun port => port =? 65535) [mkTick None true] (Some 5151).

(** A profile directory that cannot be removed. *)
Definition env_undeletable : Env := with_rmtree_fails always env_posix.

Definition with_profile : gmap string node := <[profile_dir := Dir]> ∅.

(** [env] as the process [pid] sees it, on a machine where [alive] says
    which processes run. *)
Definition with_pids (pid : Z) (alive : Z -> bool) (env : Env) : Env :=
  {| os_name := os_name env;
     getpid := pid;
     open_process := fun p => Some (alive p);
     kill0_ok := alive;
     read_fails := read_fails env;
     open_fails := open_fails env;
     write_fails := write_fails env;
     remove_fails := remove_fails env;
     rmtree_fails := rmtree_fails env;
     port_busy := port_busy env;
     listen_fails := listen_fails env;
     thread_start_fails := thread_start_fails env;
     startup_ticks := startup_ticks env;
     signal_after_start := signal_after_start env;
     webbrowser_fails := webbrowser_fails env;
     gettempdir := gettempdir env;
     mkdtemp_suffix := mkdtemp_suffix env;
     popen_result := popen_result env;
     browser_ticks := browser_ticks env;
     terminate_fails := terminate_fails env;
     wait_times_out := wait_times_out env;
     kill_fails := kill_fails env;
     health_ticks := health_ticks env;
     has_SIGHUP := has_SIGHUP env;
     signal_fails := signal_fails env;
     oserror_text := oserror_text env |}.

(** A second launcher, PID 4343, started while the first one (PID 4242)
    runs. *)
Definition env_second : Env :=
  with_pids 4343 (fun pid => (pid =? 4242) || (pid =? 4343)) env_posix.

(** The state of a launcher that has installed its handlers. *)
Definition armed (files : gmap string node) : State :=
  {| fs := files; server := None; _shutdown_requested := false;
     stdout := []; calls := []; handlers := [SIGINT; SIGTERM; SIGHUP] |}.

(** What is done to the browser process on a shutdown request:
    [terminate], then [wait] unless [terminate] raised, then [kill] if
    either of them raised. *)
Definition stop_browser_calls (env : Env) : list call :=
  CTerminate ::
    (if terminate_fails env then [CProcKill]
     else CWait :: (if wait_times_out env then [CProcKill] else [])).

Definition is_poll (c : call) : Prop := c = CPoll \/ c = CSleep 100.

Definition viewer_url (port : Z) : string :=
  "http://" +:+ HOST +:+ ":" +:+ str_int port +:+ "/timeline_viewer.html".

Definition with_signal_after_start (sig : option Z) (env : Env) : Env :=
  {| os_name := os_name env;
     getpid := getpid env;
     open_process := open_process env;
     kill0_ok := kill0_ok env;
     read_fails := read_fails env;
     open_fails := open_fails env;
     write_fails := write_fails env;
     remove_fails := remove_fails env;
     rmtree_fails := rmtree_fails env;
     port_busy := port_busy env;
     listen_fails := listen_fails env;
     thread_start_fails := thread_start_fails env;
     startup_ticks := startup_ticks env;
     signal_after_start := sig;
     webbrowser_fails := webbrowser_fails env;
     gettempdir := gettempdir env;
     mkdtemp_suffix := mkdtemp_suffix env;
     popen_result := popen_result env;
     browser_ticks := browser_ticks env;
     terminate_fails := terminate_fails env;
     wait_times_out := wait_times_out env;
     kill_fails := kill_fails env;
     health_ticks := health_ticks env;
     has_SIGHUP := has_SIGHUP env;
     signal_fails := signal_fails env;
     oserror_text := oserror_text env |}.

(** SIGTERM arrives right after the server has started. *)
Definition env_sigterm_early : Env := with_signal_after_start (Some SIGTERM) env_posix.

Definition with_mkdtemp_suffix (suffix : option string) (env : Env) : Env :=
  {| os_name := os_name env;
     getpid := getpid env;
     open_process := open_process env;
     kill0_ok := kill0_ok env;
     read_fails := read_fails env;
     open_fails := open_fails env;
     write_fails := write_fails env;
     remove_fails := remove_fails env;
     rmtree_fails := rmtree_fails env;
     port_busy := port_busy env;
     listen_fails := listen_fails env;
     thread_start_fails := thread_start_fails env;
     startup_ticks := startup_ticks env;
     signal_after_start := signal_after_start env;
     webbrowser_fails := webbrowser_fails env;
     gettempdir := gettempdir env;
     mkdtemp_suffix := suffix;
     popen_result := popen_result env;
     browser_ticks := browser_ticks env;
     terminate_fails := terminate_fails env;
     wait_times_out := wait_times_out env;
     kill_fails := kill_fails env;
     health_ticks := health_ticks env;
     has_SIGHUP := has_SIGHUP env;
     signal_fails := signal_fails env;
     oserror_text := oserror_text env |}.

(** No temporary directory can be made. *)
Definition env_no_tmp : Env := with_mkdtemp_suffix None env_posix.

(** ** Serve directory detection and the entry point

    [get_serve_dir] and [main] work on paths through [os.path], which is
    one of two modules according to the platform.  The functions they use
    form the class [OsPath]; [posixpath] is modelled in full and is the
    instance used where a property depends on what a path looks like.
    [parse_args] is [argparse] at work on three options: [main] is
    modelled from the parsed arguments on, a command line that [argparse]
    rejects having ended the process before. *)

Class OsPath : Type := mkOsPath {
  os_path_join : string -> list string -> string;
  os_path_normpath : string -> string;
  os_path_dirname : string -> string
}.

Module posixpath.

(** [s.split("/")] *)
Fixpoint split_sep (s : string) : list string :=
  match s with
  | EmptyString => [EmptyString]
  | String c rest =>
      if Ascii.eqb c "/" then EmptyString :: split_sep rest
      else match split_sep rest with
           | comp :: comps => String c comp :: comps
           | [] => [String c EmptyString]
           end
  end.

Definition is_nil {A} (l : list A) : bool :=
  match l with
  | [] => true
  | _ => false
  end.

(** One round of the loop of [normpath] over the components. *)
Definition norm_step (initial_slashes : nat) (new_comps : list string) (comp : string)
  : list string :=
  if String.eqb comp EmptyString || String.eqb comp "." then new_comps
  else if negb (String.eqb comp "..")
          || (Nat.eqb initial_slashes 0 && is_nil new_comps)
          || (negb (is_nil new_comps) && String.eqb (List.last new_comps EmptyString) "..")
  then (new_comps ++ [comp])%list
  else if negb (is_nil new_comps) then removelast new_comps
  else new_comps.

Definition normpath (path : string) : string :=
  if String.eqb path EmptyString then "."
  else
    let initial_slashes :=
      if String.prefix "/" path
      then if String.prefix "//" path && negb (String.prefix "///" path)
           then 2%nat else 1%nat
      else 0%nat in
    let comps := fold_left (norm_step initial_slashes) (split_sep path) [] in
    let path := String.concat EmptyString (repeat "/" initial_slashes) +:+ join "/" comps in
    if String.eqb path EmptyString then "." else path.

Fixpoint has_sep (s : string) : bool :=
  match s with
  | EmptyString => false
  | String c rest => Ascii.eqb c "/" || has_sep rest
  end.

(** [p[:p.rfind("/") + 1]] *)
Fixpoint head_to_last_sep (p : string) : string :=
  match p with
  | EmptyString => EmptyString
  | String c rest =>
      if Ascii.eqb c "/" || has_sep rest then String c (head_to_last_sep rest)
      else EmptyString
  end.

Fixpoint all_sep (s : string) : bool :=
  match s with
  | EmptyString => true
  | String c rest => Ascii.eqb c "/" && all_sep rest
  end.

(** [s.rstrip("/")] *)
Fixpoint rstrip_sep (s : string) : string :=
  match s with
  | EmptyString => EmptyString
  | String c rest =>
      match rstrip_sep rest with
      | EmptyString => if Ascii.eqb c "/" then EmptyString else String c EmptyString
      | kept => String c kept
      end
  end.

Definition dirname (p : string) : string :=
  let head := head_to_last_sep p in
  if negb (String.eqb head EmptyString) && negb (all_sep head) then rstrip_sep head else head.

Fixpoint endswith_sep (p : string) : bool :=
  match p with
  | EmptyString => false
  | String c EmptyString => Ascii.eqb c "/"
  | String _ rest => endswith_sep rest
  end.

(** One round of the loop of [join] over the later arguments. *)
Definition join_one (path b : string) : string :=
  if String.prefix "/" b then b
  else if String.eqb path EmptyString || endswith_sep path then path +:+ b
  else path +:+ "/" +:+ b.

Definition join (a : string) (p : list string) : string := fold_left join_one p a.

End posixpath.

#[export] Instance posix_path : OsPath :=
  {| os_path_join := posixpath.join;
     os_path_normpath := posixpath.normpath;
     os_path_dirname := posixpath.dirname |}.

Definition __version__ : string := "1.2.0".

(** What [sys] and [os] say about the running interpreter. *)
Record Interpreter : Type := mkInterpreter {
  sys_frozen : bool;              (* getattr(sys, "frozen", False) *)
  sys__MEIPASS : option string;   (* getattr(sys, "_MEIPASS", None) *)
  sys_executable : string;
  os_getcwd : string
}.

(** The result of [parse_args]. *)
Record Namespace : Type := mkNamespace {
  args_port : option Z;
  args_no_new_console : bool;
  args_version : bool
}.

Definition viewer_not_found (local_candidate : string) : exn :=
  Exn OSError ("Viewer directory not found at " +:+ local_candidate).

(** [FileNotFoundError] is an [OSError]. *)
Definition get_serve_dir `{OsPath} (py : Interpreter) : M string :=
  bundled <-
    (if sys_frozen py then
       let base := sys__MEIPASS py in
       if truthy_str base then
         let base := default EmptyString base in
         let candidate := os_path_join base ["viewer"] in
         isdir <- os_path_isdir candidate ;;
         if isdir then ret (Some candidate)
         else ret (Some base)
       else ret None
     else ret None) ;;
  match bundled with
  | Some dir => ret dir
  | None =>
      let local_candidate := os_path_join (os_getcwd py) ["viewer"] in
      isdir <- os_path_isdir local_candidate ;;
      if isdir then ret local_candidate
      else raise (viewer_not_found local_candidate)
  end.

(** [str(b)] for a [bool]. *)
Definition str_bool (b : bool) : string := if b then "True" else "False".

Definition main `{OsPath} (env : Env) (py : Interpreter) (args : Namespace) : M Z :=
  if args_version args then
    log __version__ ;;
    ret 0
  else
    setup_signal_handlers env ;;
    found <- try_except
               (dir <- get_serve_dir py ;; ret (Some dir))
               is_Exception
               (fun e => log ("Error locating serve_dir: " +:+ str_exn e) ;; ret None) ;;
    match found with
    | None => ret 2
    | Some serve_dir =>
        isdir <- os_path_isdir serve_dir ;;
        if negb isdir then
          log ("ERROR: viewer directory not found at " +:+ serve_dir) ;;
          ret 2
        else
          let lock_path := os_path_normpath (os_path_join serve_dir [".."; "viewer.lock"]) in
          let lock_path :=
            if sys_frozen py then
              let exe_dir := os_path_dirname (sys_executable py) in
              os_path_normpath (os_path_join exe_dir ["viewer.lock"])
            else lock_path in
          log ("Trace Timeline Viewer Launcher v" +:+ __version__) ;;
          log ("Serving from: " +:+ serve_dir) ;;
          log ("Lock path: " +:+ lock_path) ;;
          when (truthy_int (args_port args))
               (log ("Requested port: " +:+ str_int (default 0 (args_port args)))) ;;
          log ("Use new console for browser: "
               +:+ str_bool (negb (args_no_new_console args))) ;;
          ok <- run_and_block env serve_dir (Some lock_path) (args_port args)
                  (negb (args_no_new_console args)) ;;
          if ok then
            log "Viewer session finished successfully." ;;
            ret 0
          else
            log "Viewer session failed or was interrupted." ;;
            ret 1
    end.

(** An absolute path in normal form, by its components: none of them is
    empty, a dot or two dots, and none holds a slash. *)
Definition plain_component (comp : string) : Prop :=
  posixpath.has_sep comp = false
  /\ comp <> EmptyString /\ comp <> "." /\ comp <> "..".

Fixpoint absolute (comps : list string) : string :=
  match comps with
  | [] => EmptyString
  | comp :: later => "/" +:+ comp +:+ absolute later
  end.

(** A launcher run from source on a POSIX system, in [/home/dev/project]. *)
Definition py_source : Interpreter :=
  {| sys_frozen := false;
     sys__MEIPASS := None;
     sys_executable := "/usr/bin/python3";
     os_getcwd := "/home/dev/project" |}.

Definition project : gmap string node :=
  <["/home/dev/project/viewer" := Dir]> ∅.

Definition args_default : Namespace :=
  {| args_port := None; args_no_new_console := false; args_version := false |}.

(** The signals [setup_signal_handlers] asks for, in order, and those of
    them that get installed: the ones before the first failure. *)
Definition wanted_signals (env : Env) : list Z :=
  ([SIGINT; SIGTERM] ++ (if has_SIGHUP env then [SIGHUP] else []))%list.

Fixpoint installable (fails : Z -> bool) (signals : list Z) : list Z :=
  match signals with
  | [] => []
  | signum :: later => if fails signum then [] else signum :: installable fails later
  end.

Definition with_signal_fails (fails : Z -> bool) (env : Env) : Env :=
  {| os_name := os_name env;
     getpid := getpid env;
     open_process := open_process env;
     kill0_ok := kill0_ok env;
     read_fails := read_fails env;
     open_fails := open_fails env;
     write_fails := write_fails env;
     remove_fails := remove_fails env;
     rmtree_fails := rmtree_fails env;
     port_busy := port_busy env;
     listen_fails := listen_fails env;
     thread_start_fails := thread_start_fails env;
     startup_ticks := startup_ticks env;
     signal_after_start := signal_after_start env;
     webbrowser_fails := webbrowser_fails env;
     gettempdir := gettempdir env;
     mkdtemp_suffix := mkdtemp_suffix env;
     popen_result := popen_result env;
     browser_ticks := browser_ticks env;
     terminate_fails := terminate_fails env;
     wait_times_out := wait_times_out env;
     kill_fails := kill_fails env;
     health_ticks := health_ticks env;
     has_SIGHUP := has_SIGHUP env;
     signal_fails := fails;
     oserror_text := oserror_text env |}.

(** * [src/output_resolver.py]

    [resolve_latest_path] asks a server which output folder is the
    latest.  It does so through [requests]; what the two requests answer
    is given by a record.  An exception that is a
    [requests.RequestException] is told apart from any other, since only
    the former is caught. *)

Module output_resolver.



(** [Response.ok]: [raise_for_status] does not raise, which it does for
    the statuses from 400 to 599. *)
Definition ok (status_code : Z) : bool :=
  negb ((400 <=? status_code) && (status_code <? 600)).



End output_resolver.

(** A launcher finds the marker of PID 777, which is alive, beside the
    viewer directory. *)
Definition project_in_use : gmap string node :=
  <["/home/dev/project/viewer.lock" := File "777"]> project.

(** * [integration_test.py]

    The integration test starts the launcher, copies what it prints into
    a log file, and reads from that log the URL of the viewer and the PID
    of the browser.  The two readers are modelled here, with the part of
    [re] their patterns use: literal text, [\d+], [.*?] and one group,
    matched by backtracking in the order [re] tries the alternatives, so
    that [search] finds the match [re.search] finds. *)

Module re.

Inductive pattern : Type :=
  | Lit (text : string)
  | Digits                    (* \d+ *)
  | AnyLazy                   (* .*? *)
  | Seq (p q : pattern)
  | Group (p : pattern).

(** What is left of [s] after [text], if [s] starts with it. *)
Fixpoint after_prefix (text s : string) : option string :=
  match text, s with
  | EmptyString, _ => Some s
  | String a text', String b s' => if Ascii.eqb a b then after_prefix text' s' else None
  | String _ _, EmptyString => None
  end.

Definition is_digit (c : ascii) : bool := bool_decide (is_Some (digit_val c)).

Definition is_newline (c : ascii) : bool := Ascii.eqb c "010".

Section Matching.

Context {A : Type}.

(** After one digit: as many more as there are, and fewer only if the
    rest of the pattern fails. *)
Fixpoint more_digits (s : string) (k : string -> option A) : option A :=
  match s with
  | String c rest =>
      if is_digit c then
        match more_digits rest k with
        | Some found => Some found
        | None => k s
        end
      else k s
  | EmptyString => k s
  end.

Definition digits (s : string) (k : string -> option A) : option A :=
  match s with
  | String c rest => if is_digit c then more_digits rest k else None
  | EmptyString => None
  end.

(** As few characters as the rest of the pattern allows; a dot does not
    match a newline. *)
Fixpoint any_lazy (s : string) (k : string -> option A) : option A :=
  match k s with
  | Some found => Some found
  | None =>
      match s with
      | String c rest => if is_newline c then None else any_lazy rest k
      | EmptyString => None
      end
  end.

(** The text between the start [s] of a group and what is left when it
    ends. *)
Definition consumed (s rest : string) : string :=
  substring 0 (String.length s - String.length rest) s.

Fixpoint matches (p : pattern) (s : string) (group : option string)
    (k : string -> option string -> option A) : option A :=
  match p with
  | Lit text =>
      match after_prefix text s with
      | Some rest => k rest group
      | None => None
      end
  | Digits => digits s (fun rest => k rest group)
  | AnyLazy => any_lazy s (fun rest => k rest group)
  | Seq p q => matches p s group (fun rest group' => matches q rest group' k)
  | Group p => matches p s group (fun rest _ => k rest (Some (consumed s rest)))
  end.

End Matching.



End re.

Module integration_test.








(** How a round ends: by [return], by [continue], or at its end. *)
Inductive flow : Type :=
  | Returned (url : string)
  | Continued
  | Fell.









End integration_test.







(** * Proofs *)

(** ** Stepping through monadic code *)

Ltac mcbn :=
  unfold sleep, called, log, when;
  unfold bind, ret, raise, hang, get, modify, try_except, try_except2, try_finally;
  cbn [fs server _shutdown_requested stdout calls handlers
       set_fs set_server set_shutdown add_stdout add_call add_handler fst snd
       is_Exception is_OSError is_KeyboardInterrupt exn_cls exn_msg os_error
       str_exn negb andb orb default from_option id].

Ltac mcbn_in H :=
  unfold sleep, called, log, when in H;
  unfold bind, ret, raise, hang, get, modify, try_except, try_except2, try_finally in H;
  cbn [fs server _shutdown_requested stdout calls handlers
       set_fs set_server set_shutdown add_stdout add_call add_handler fst snd
       is_Exception is_OSError is_KeyboardInterrupt exn_cls exn_msg os_error
       str_exn negb andb orb default from_option id] in H.

(** ** The instance lock *)

Lemma liveness_check_eq env pid s :
  liveness_check env pid s =
  (Ret (pid_alive env pid),
   add_call (if String.eqb (os_name env) "nt" then COpenProcess pid else CKill0 pid) s).
Proof.
  unfold liveness_check, pid_alive, _windows_process_exists, _posix_pid_alive.
  destruct (String.eqb (os_name env) "nt"); mcbn.
  - destruct (open_process env pid) as [[|]|]; reflexivity.
  - destruct (kill0_ok env pid); reflexivity.
Qed.

(** Writing the marker over anything but a directory: the outcome is
    decided by the write alone.  A failing [open] leaves the path as it
    was; a write that fails after it leaves an empty file. *)
Lemma write_marker_eq env P s :
  fs s !! P <> Some Dir ->
  write_marker env P s =
  if open_fails env P
  then (Ret false,
        add_stdout ("Failed to create lock file: " +:+ oserror_text env)
                   (add_call (CWrite P (own_pid_text env)) s))
  else if write_fails env P
  then (Ret false,
        add_stdout ("Failed to create lock file: " +:+ oserror_text env)
                   (set_fs (<[P := File EmptyString]> (fs s))
                           (add_call (CWrite P (own_pid_text env)) s)))
  else (Ret true,
        set_fs (<[P := File (own_pid_text env)]> (fs s))
               (add_call (CWrite P (own_pid_text env)) s)).
Proof.
  intros Hnodir. unfold write_marker, write_text, own_pid_text. mcbn.
  destruct (fs s !! P) as [[c|]|] eqn:E; try congruence;
    destruct (open_fails env P); try reflexivity;
    mcbn; destruct (write_fails env P); reflexivity.
Qed.

(** The same by cases: what [write_marker] returns, what it leaves in
    the marker and what it logs. *)
Lemma write_marker_cases env P s :
  fs s !! P <> Some Dir ->
  exists s',
    write_marker env P s = (Ret (writable env P), s')
    /\ fs s' !! P
       = (if open_fails env P then fs s !! P
          else Some (File (if write_fails env P then EmptyString else own_pid_text env)))
    /\ (writable env P = false ->
          last (stdout s') = Some ("Failed to create lock file: " +:+ oserror_text env))
    /\ calls s' = (calls s ++ [CWrite P (own_pid_text env)])%list.
Proof.
  intros Hnodir. rewrite (write_marker_eq env P s Hnodir). unfold writable.
  destruct (open_fails env P); [|destruct (write_fails env P)];
    eexists; (split; [reflexivity|]); cbn;
    (split; [first [reflexivity | apply lookup_insert_eq]|]);
    (split; [|reflexivity]); intros Hw; try discriminate Hw; apply last_snoc.
Qed.

(** [os.remove] on a marker that is a file. *)
Lemma os_remove_file env P s content :
  fs s !! P = Some (File content) ->
  os_remove env P s =
  if remove_fails env P
  then (Raise (os_error env), add_call (CRemove P) s)
  else (Ret tt, set_fs (delete P (fs s)) (add_call (CRemove P) s)).
Proof.
  intros Hfile. unfold os_remove. mcbn. rewrite Hfile.
  destruct (remove_fails env P); reflexivity.
Qed.

(** C4, as amended.  For every lock path whose marker parses as a PID
    other than 0 that the platform liveness check reports live,
    [acquire_lock] returns failure and leaves the file system, the marker
    included, exactly as it was. *)
Theorem acquire_lock_live_owner env P s content pid :
  fs s !! P = Some (File content) ->
  read_fails env P = false ->
  parse_marker content = Some pid ->
  pid <> 0 ->
  pid_alive env pid = true ->
  exists s', acquire_lock env P s = (Ret false, s')
             /\ fs s' = fs s
             /\ fs s' !! P = Some (File content).
Proof.
  intros Hfile Hread Hparse Hnz Halive.
  unfold acquire_lock, os_path_exists, inspect_marker, read_text, int_,
    parse_marker in *.
  mcbn. rewrite Hfile. rewrite bool_decide_eq_true_2 by eauto.
  mcbn. rewrite Hfile, Hread. mcbn. rewrite Hparse. mcbn.
  unfold truthy_int. destruct (Z.eqb_spec pid 0) as [|_]; [contradiction|].
  mcbn. rewrite liveness_check_eq. mcbn. rewrite Halive. mcbn.
  eexists. split; [reflexivity|]. split; [reflexivity|exact Hfile].
Qed.

Lemma acquire_lock_live_owner_witness :
  exists s', acquire_lock env_posix lock (state_of (marker "777")) = (Ret false, s')
             /\ fs s' = fs (state_of (marker "777"))
             /\ fs s' !! lock = Some (File "777").
Proof.
  apply (acquire_lock_live_owner env_posix lock (state_of (marker "777")) "777" 777).
  - vm_compute. reflexivity.
  - reflexivity.
  - vm_compute. reflexivity.
  - discriminate.
  - reflexivity.
Defined.

(** C4 as worded fails for the marker text "0": on POSIX the liveness
    probe of PID 0 answers, yet [acquire_lock] never asks and takes the
    lock. *)
Lemma live_owner_claim_fails_for_pid_zero :
  ~ live_owner_claim env_posix lock (state_of (marker "0")).
Proof.
  intros Hclaim.
  destruct (Hclaim "0" 0) as (s' & Hrun & _).
  - vm_compute. reflexivity.
  - reflexivity.
  - vm_compute. reflexivity.
  - reflexivity.
  - vm_compute in Hrun. discriminate Hrun.
Qed.

(** C5, as amended.  For every lock path whose marker is absent or names
    a dead PID, [acquire_lock] returns success exactly when the marker can
    be written.  When it can, the marker then holds the caller's own PID
    in decimal text.  When it cannot, [acquire_lock] logs the failure as
    its last line and returns failure; a write that failed after the file
    had been opened leaves an empty marker behind. *)
Theorem acquire_lock_succeeds env P s :
  absent_or_dead env P s ->
  exists s',
    acquire_lock env P s = (Ret (writable env P), s')
    /\ (writable env P = true -> fs s' !! P = Some (File (own_pid_text env)))
    /\ (writable env P = false ->
          last (stdout s') = Some ("Failed to create lock file: " +:+ oserror_text env))
    /\ (open_fails env P = false -> write_fails env P = true ->
          fs s' !! P = Some (File EmptyString)).
Proof.
  intros Hmarker.
  assert (Hwrite : forall st, fs st !! P <> Some Dir ->
            exists s',
              write_marker env P st = (Ret (writable env P), s')
              /\ (writable env P = true -> fs s' !! P = Some (File (own_pid_text env)))
              /\ (writable env P = false ->
                    last (stdout s')
                    = Some ("Failed to create lock file: " +:+ oserror_text env))
              /\ (open_fails env P = false -> write_fails env P = true ->
                    fs s' !! P = Some (File EmptyString))).
  { intros st Hnodir.
    destruct (write_marker_cases env P st Hnodir) as (s' & Hrun & Hfs & Hlog & _).
    exists s'. split; [exact Hrun|]. split; [|split; [exact Hlog|]].
    - unfold writable. intros Hw. rewrite Hfs.
      destruct (open_fails env P); [discriminate Hw|].
      destruct (write_fails env P); [discriminate Hw|reflexivity].
    - intros Hopen Hfail. rewrite Hfs, Hopen, Hfail. reflexivity. }
  destruct Hmarker as [Habsent | (content & pid & Hfile & Hread & Hparse & Hdead)].
  - unfold acquire_lock, os_path_exists. mcbn. rewrite Habsent.
    rewrite bool_decide_eq_false_2 by (intros [? ?]; discriminate).
    mcbn. apply Hwrite. mcbn. congruence.
  - unfold acquire_lock, os_path_exists, inspect_marker, read_text, int_,
      parse_marker in *.
    mcbn. rewrite Hfile. rewrite bool_decide_eq_true_2 by eauto.
    mcbn. rewrite Hfile, Hread. mcbn. rewrite Hparse. mcbn.
    unfold truthy_int. destruct (Z.eqb_spec pid 0) as [Hz|Hnz]; mcbn.
    + apply Hwrite. mcbn. congruence.
    + rewrite liveness_check_eq. mcbn. rewrite Hdead. mcbn.
      rewrite (os_remove_file env P _ content) by (mcbn; exact Hfile).
      destruct (remove_fails env P); mcbn; apply Hwrite; mcbn.
      * congruence.
      * rewrite lookup_delete_eq. discriminate.
Qed.

Lemma acquire_lock_succeeds_witness :
  exists s',
    acquire_lock env_disk_full lock (state_of (marker "31337"))
    = (Ret (writable env_disk_full lock), s')
    /\ (writable env_disk_full lock = true ->
          fs s' !! lock = Some (File (own_pid_text env_disk_full)))
    /\ (writable env_disk_full lock = false ->
          last (stdout s')
          = Some ("Failed to create lock file: " +:+ oserror_text env_disk_full))
    /\ (open_fails env_disk_full lock = false -> write_fails env_disk_full lock = true ->
          fs s' !! lock = Some (File EmptyString)).
Proof.
  apply (acquire_lock_succeeds env_disk_full lock (state_of (marker "31337"))).
  right. exists "31337", 31337.
  repeat split; vm_compute; reflexivity.
Defined.

(** The two ends of C5 at a glance: a stale marker is replaced by the
    caller's PID, and on a full disk the same call fails and leaves the
    marker empty. *)
Example acquire_lock_stale_marker :
  let taken := acquire_lock env_posix lock (state_of (marker "31337")) in
  let full := acquire_lock env_disk_full lock (state_of (marker "31337")) in
  fst taken = Ret true
  /\ fs (snd taken) !! lock = Some (File "4242")
  /\ fst full = Ret false
  /\ fs (snd full) !! lock = Some (File EmptyString)
  /\ stdout (snd full)
     = [ "Removing stale lock file for PID 31337.";
         "Failed to create lock file: [Errno 28] No space left on device" ].
Proof. vm_compute. repeat split. Qed.

(** C5 as worded fails where the marker cannot be written: with no marker
    at all, [acquire_lock] reports failure. *)
Lemma acquire_succeeds_claim_fails_readonly :
  ~ acquire_succeeds_claim env_readonly lock (state_of ∅).
Proof.
  intros Hclaim.
  destruct Hclaim as (s' & Hrun & _).
  - left. reflexivity.
  - vm_compute in Hrun. discriminate Hrun.
Qed.

(** C10, as amended.  For every lock path whose marker parses as 0,
    [acquire_lock] reads the marker and goes straight to the write: no
    liveness probe, no deletion.  It returns success exactly when that
    write succeeds, and then the marker holds the caller's PID.  When the
    file cannot be opened for writing the marker stays as it was; when
    the write fails after the file has been opened, the marker is left
    empty.  Whether PID 0 would be reported live plays no part. *)
Theorem acquire_lock_pid_zero env P s content :
  fs s !! P = Some (File content) ->
  read_fails env P = false ->
  parse_marker content = Some 0 ->
  exists s', acquire_lock env P s = (Ret (writable env P), s')
             /\ fs s' !! P = Some (File (if open_fails env P then content
                                         else if write_fails env P then EmptyString
                                         else own_pid_text env))
             /\ calls s' = (calls s ++ [CExists P; CRead P;
                                        CWrite P (own_pid_text env)])%list.
Proof.
  intros Hfile Hread Hparse.
  unfold acquire_lock, os_path_exists, inspect_marker, read_text, int_,
    parse_marker in *.
  mcbn. rewrite Hfile. rewrite bool_decide_eq_true_2 by eauto.
  mcbn. rewrite Hfile, Hread. mcbn. rewrite Hparse. mcbn.
  cbn [truthy_int Z.eqb]. mcbn.
  match goal with
  | |- context [write_marker env P ?st] =>
      destruct (write_marker_cases env P st) as (s' & Hrun & Hfs & _ & Hcalls);
        [mcbn; congruence|]
  end.
  exists s'. split; [exact Hrun|]. split.
  - rewrite Hfs. mcbn. rewrite Hfile.
    destruct (open_fails env P); reflexivity.
  - rewrite Hcalls. mcbn. now rewrite <- !app_assoc.
Qed.

Lemma acquire_lock_pid_zero_witness :
  exists s', acquire_lock env_disk_full lock (state_of (marker "0"))
             = (Ret (writable env_disk_full lock), s')
             /\ fs s' !! lock
                = Some (File (if open_fails env_disk_full lock then "0"
                              else if write_fails env_disk_full lock then EmptyString
                              else own_pid_text env_disk_full))
             /\ calls s' = (calls (state_of (marker "0"))
                            ++ [CExists lock; CRead lock;
                                CWrite lock (own_pid_text env_disk_full)])%list.
Proof.
  apply (acquire_lock_pid_zero env_disk_full lock (state_of (marker "0")) "0").
  - vm_compute. reflexivity.
  - reflexivity.
  - vm_compute. reflexivity.
Defined.

(** The three ends of C10 at a glance, on a machine where [os.kill(0, 0)]
    answers: the marker "0" is overwritten when it can be, left alone
    when it cannot be opened, and left empty when the disk is full. *)
Example acquire_lock_marker_zero :
  let ok := acquire_lock env_posix lock (state_of (marker "0")) in
  let readonly := acquire_lock env_readonly lock (state_of (marker "0")) in
  let full := acquire_lock env_disk_full lock (state_of (marker "0")) in
  (fst ok = Ret true /\ fs (snd ok) !! lock = Some (File "4242"))
  /\ (fst readonly = Ret false /\ fs (snd readonly) !! lock = Some (File "0"))
  /\ (fst full = Ret false /\ fs (snd full) !! lock = Some (File EmptyString)).
Proof. vm_compute. repeat split. Qed.

(** C10 as worded fails where the marker cannot be overwritten:
    [acquire_lock] then reports failure. *)
Lemma pid_zero_claim_fails_readonly :
  ~ pid_zero_claim env_readonly lock (state_of (marker "0")).
Proof.
  intros Hclaim.
  destruct (Hclaim "0") as (s' & Hrun & _).
  - vm_compute. reflexivity.
  - reflexivity.
  - vm_compute. reflexivity.
  - vm_compute in Hrun. discriminate Hrun.
Qed.

(** ** The health endpoint *)

(** C3, as amended.  For every GET request with path "/health" the
    handler answers status 200, [Content-Type: application/json] and a body
    that is exactly the sixteen bytes of [json.dumps] of the payload, an
    object with one blank after the colon; the content root and the static
    file handler play no part. *)
Theorem health_response version date static directory :
  do_GET version date static directory "/health" no_response
  = {| resp_status := Some 200;
       resp_headers := [("Server", version); ("Date", date);
                        ("Content-Type", "application/json");
                        ("Content-Length", "16")];
       resp_headers_ended := true;
       resp_body := health_body |}.
Proof.
  unfold do_GET. rewrite String.eqb_refl.
  change (json_dumps [("status", "ok")]) with health_body.
  change (str_int (Z.of_nat (String.length health_body))) with "16".
  reflexivity.
Qed.

(** C3 as worded fails: the body is not the compact text. *)
Lemma health_claim_fails :
  ~ health_claim "BaseHTTP/0.6 Python/3.11" "Thu, 01 Jan 1970 00:00:00 GMT"
      not_found "viewer".
Proof.
  intros (_ & _ & Hbody). vm_compute in Hbody. discriminate Hbody.
Qed.

(** Any other path goes to the static file handler. *)
Lemma other_paths_are_static version date static directory path r :
  path <> "/health" ->
  do_GET version date static directory path r = static directory path r.
Proof.
  intros Hne. unfold do_GET.
  destruct (String.eqb_spec path "/health"); [contradiction|reflexivity].
Qed.

(** ** The signal handler *)

(** C8, as amended.  For every signal delivery the installed handler
    does two things: it writes one log line that names the signal to
    standard output, and it sets the shared shutdown flag.  It returns
    normally and touches nothing else: no file, no server, no outside
    call, no handler table.  Every signal for which the handler is
    installed is delivered to it, so this is all that such a delivery
    does to the process. *)
Theorem signal_handler_effect signum s :
  exists s',
    signal_handler signum s = (Ret tt, s')
    /\ stdout s'
       = (stdout s ++ ["Received signal " +:+ str_int signum +:+ "; requesting shutdown."])%list
    /\ _shutdown_requested s' = true
    /\ fs s' = fs s
    /\ server s' = server s
    /\ calls s' = calls s
    /\ handlers s' = handlers s
    /\ (handled signum s = true -> deliver (Some signum) s = (Ret tt, s')).
Proof.
  eexists. split; [reflexivity|].
  repeat (split; [reflexivity|]).
  intros Hin. unfold deliver, bind, get. rewrite Hin. reflexivity.
Qed.

Lemma signal_handler_effect_witness :
  let armed := snd (setup_signal_handlers env_posix (state_of ∅)) in
  handled SIGTERM armed = true
  /\ exists s',
       deliver (Some SIGTERM) armed = (Ret tt, s')
       /\ stdout s' = ["Received signal 15; requesting shutdown."]
       /\ _shutdown_requested s' = true
       /\ calls s' = calls armed.
Proof.
  intros armed.
  destruct (signal_handler_effect SIGTERM armed)
    as (s' & _ & Hout & Hflag & _ & _ & Hcalls & _ & Hdeliver).
  split; [reflexivity|].
  exists s'. split; [apply Hdeliver; reflexivity|].
  split; [exact Hout|]. split; [exact Hflag|exact Hcalls].
Defined.

(** C8 as worded fails: the handler also writes to standard output. *)
Lemma handler_claim_fails : ~ handler_claim SIGTERM (state_of ∅).
Proof.
  unfold handler_claim. intros Heq.
  apply (f_equal (fun x => stdout (snd x))) in Heq. vm_compute in Heq. discriminate Heq.
Qed.

(** The handlers [setup_signal_handlers] installs when nothing fails. *)
Lemma setup_signal_handlers_installs env s :
  (forall signum, signal_fails env signum = false) ->
  handlers (snd (setup_signal_handlers env s))
  = (handlers s ++ [SIGINT; SIGTERM] ++ (if has_SIGHUP env then [SIGHUP] else []))%list.
Proof.
  intros Hok. unfold setup_signal_handlers, signal_signal. mcbn.
  rewrite !Hok. mcbn. destruct (has_SIGHUP env); mcbn; now rewrite <- !app_assoc.
Qed.

(** ** The preferred port *)

Lemma probe_bind_eq env port s :
  probe_bind env port s
  = (if (port <? 0) || (65535 <? port)
     then Raise (Exn OverflowError "bind(): port must be 0-65535.")
     else if negb (port =? 0) && port_busy env port then Raise (os_error env) else Ret tt,
     add_call (CBind port) s).
Proof.
  unfold probe_bind. mcbn.
  destruct ((port <? 0) || (65535 <? port)); [reflexivity|].
  destruct (negb (port =? 0) && port_busy env port); reflexivity.
Qed.

Lemma determine_port_with_preference env P s :
  P <> 0 ->
  determine_port env (Some P) s
  = (if port_free env P then Ret P else Raise (port_unavailable P),
     add_call (CBind P) s).
Proof.
  intros Hnz. unfold determine_port, truthy_int.
  destruct (Z.eqb_spec P 0) as [|_]; [contradiction|].
  cbn [negb default from_option id].
  unfold find_free_port. change (Z.to_nat 1) with 1%nat.
  cbn [find_free_port_from]. mcbn. rewrite probe_bind_eq.
  unfold port_free.
  destruct (Z.ltb_spec P 0) as [Hneg|Hpos]; cbn [orb].
  - destruct (Z.leb_spec 0 P); [lia|]. reflexivity.
  - destruct (Z.leb_spec 0 P); [|lia].
    destruct (Z.ltb_spec 65535 P) as [Hbig|Hsmall].
    + destruct (Z.leb_spec P 65535); [lia|]. reflexivity.
    + destruct (Z.leb_spec P 65535); [|lia].
      destruct (Z.eqb_spec P 0) as [|_]; [contradiction|].
      destruct (port_busy env P); reflexivity.
Qed.

(** C6, as amended.  For every preferred port other than 0, the port step
    of [start_server] makes exactly one bind attempt, on that port: it
    returns the port if and only if the port is free and otherwise fails
    with the port-unavailable error, never trying another port. *)
Theorem determine_port_preferred env P s :
  P <> 0 ->
  preferred_port_claim env P s.
Proof.
  intros Hnz. unfold preferred_port_claim.
  rewrite (determine_port_with_preference env P s Hnz).
  eexists. split; reflexivity.
Qed.

Lemma determine_port_preferred_witness : preferred_port_claim env_stuck 9000 (state_of ∅).
Proof.
  apply (determine_port_preferred env_stuck 9000 (state_of ∅)). discriminate.
Defined.

(** C6 as worded fails for the preferred port 0: it counts as no
    preference, and the scan from the default port answers 8080. *)
Lemma preferred_port_claim_fails_for_zero :
  ~ preferred_port_claim env_posix 0 (state_of ∅).
Proof.
  intros (s' & Hrun & _). vm_compute in Hrun. discriminate Hrun.
Qed.

(** ** Frame rules *)

Lemma bind_inv {A B} (m : M A) (k : A -> M B) s r s' :
  bind m k s = (r, s') ->
  (exists a s1, m s = (Ret a, s1) /\ k a s1 = (r, s'))
  \/ (exists e, m s = (Raise e, s') /\ r = Raise e)
  \/ (m s = (Hang, s') /\ r = Hang).
Proof.
  unfold bind. destruct (m s) as [[a|e|] s1]; intros H.
  - left. eauto.
  - right. left. inversion H. eauto.
  - right. right. inversion H. eauto.
Qed.

Lemma try_finally_inv {A} (m : M A) (f : M unit) s r s' :
  try_finally m f s = (r, s') ->
  r <> Hang ->
  exists r1 s1, m s = (r1, s1) /\ r1 <> Hang
    /\ ((f s1 = (Ret tt, s') /\ r = r1) \/ (exists e, f s1 = (Raise e, s') /\ r = Raise e)).
Proof.
  unfold try_finally. destruct (m s) as [[a|e|] s1] eqn:Em; intros H Hr.
  - exists (Ret a), s1. repeat split; [discriminate|].
    destruct (f s1) as [[[]|e'|] s2]; inversion H; subst; eauto. contradiction.
  - exists (Raise e), s1. repeat split; [discriminate|].
    destruct (f s1) as [[[]|e'|] s2]; inversion H; subst; eauto. contradiction.
  - inversion H; subst. contradiction.
Qed.

Section FrameRules.

Context (R : State -> State -> Prop) (HR : frame R).

Lemma steady_ret {A} (a : A) : steady R (ret a).
Proof. intros s r s' H. inversion H; subst. apply (frame_refl R HR). Qed.

Lemma steady_raise {A} e : steady R (@raise A e).
Proof. intros s r s' H. inversion H; subst. apply (frame_refl R HR). Qed.

Lemma steady_hang {A} : steady R (@hang A).
Proof. intros s r s' H. inversion H; subst. apply (frame_refl R HR). Qed.

Lemma steady_get : steady R get.
Proof. intros s r s' H. inversion H; subst. apply (frame_refl R HR). Qed.

Lemma steady_modify f : (forall s, R s (f s)) -> steady R (modify f).
Proof. intros Hf s r s' H. inversion H; subst. apply Hf. Qed.

Lemma steady_bind {A B} (m : M A) (k : A -> M B) :
  steady R m -> (forall a, steady R (k a)) -> steady R (bind m k).
Proof.
  intros Hm Hk s r s' H.
  destruct (bind_inv _ _ _ _ _ H) as [(a & s1 & H1 & H2) | [(e & H1 & _) | (H1 & _)]].
  - eapply (frame_trans R HR); [eapply Hm, H1 | eapply Hk, H2].
  - eapply Hm, H1.
  - eapply Hm, H1.
Qed.

Lemma steady_try_except {A} (m : M A) c h :
  steady R m -> (forall e, steady R (h e)) -> steady R (try_except m c h).
Proof.
  intros Hm Hh s r s' H. unfold try_except in H.
  destruct (m s) as [[a|e|] s1] eqn:Em.
  - inversion H; subst. eapply Hm, Em.
  - destruct (c e).
    + eapply (frame_trans R HR); [eapply Hm, Em | eapply Hh, H].
    + inversion H; subst. eapply Hm, Em.
  - inversion H; subst. eapply Hm, Em.
Qed.

Lemma steady_try_except2 {A} (m : M A) c1 h1 c2 h2 :
  steady R m -> (forall e, steady R (h1 e)) -> (forall e, steady R (h2 e)) ->
  steady R (try_except2 m c1 h1 c2 h2).
Proof.
  intros Hm H1 H2 s r s' H. unfold try_except2 in H.
  destruct (m s) as [[a|e|] s1] eqn:Em.
  - inversion H; subst. eapply Hm, Em.
  - destruct (c1 e); [|destruct (c2 e)].
    + eapply (frame_trans R HR); [eapply Hm, Em | eapply H1, H].
    + eapply (frame_trans R HR); [eapply Hm, Em | eapply H2, H].
    + inversion H; subst. eapply Hm, Em.
  - inversion H; subst. eapply Hm, Em.
Qed.

Lemma steady_try_finally {A} (m : M A) f :
  steady R m -> steady R f -> steady R (try_finally m f).
Proof.
  intros Hm Hf s r s' H. unfold try_finally in H.
  destruct (m s) as [[a|e|] s1] eqn:Em.
  - destruct (f s1) as [[[]|e'|] s2] eqn:Ef; inversion H; subst;
      (eapply (frame_trans R HR); [eapply Hm, Em | eapply Hf, Ef]).
  - destruct (f s1) as [[[]|e'|] s2] eqn:Ef; inversion H; subst;
      (eapply (frame_trans R HR); [eapply Hm, Em | eapply Hf, Ef]).
  - inversion H; subst. eapply Hm, Em.
Qed.

Lemma steady_when b m : steady R m -> steady R (when b m).
Proof. intros Hm. destruct b; [exact Hm | apply steady_ret]. Qed.

Lemma steady_log line : steady R (log line).
Proof. apply steady_modify. intros s. apply (frame_log R HR). Qed.

Lemma steady_called c : opens_browser c = false -> steady R (called c).
Proof. intros Hc. apply steady_modify. intros s. apply (frame_call R HR), Hc. Qed.

Lemma steady_sleep ms : steady R (sleep ms).
Proof. apply steady_called. reflexivity. Qed.

End FrameRules.

(** Splits a [steady] goal along the structure of the code. *)
Ltac steady_step HR :=
  match goal with
  | |- steady _ (bind _ _) => apply (steady_bind _ HR); [|intro]
  | |- steady _ (ret _) => apply (steady_ret _ HR)
  | |- steady _ (raise _) => apply (steady_raise _ HR)
  | |- steady _ hang => apply (steady_hang _ HR)
  | |- steady _ get => apply (steady_get _ HR)
  | |- steady _ (log _) => apply (steady_log _ HR)
  | |- steady _ (called _) => apply (steady_called _ HR); reflexivity
  | |- steady _ (sleep _) => apply (steady_sleep _ HR)
  | |- steady _ (when _ _) => apply (steady_when _ HR)
  | |- steady _ (try_except _ _ _) => apply (steady_try_except _ HR); [|intro]
  | |- steady _ (try_except2 _ _ _ _ _) =>
      apply (steady_try_except2 _ HR); [|intro|intro]
  | |- steady _ (try_finally _ _) => apply (steady_try_finally _ HR)
  | |- steady _ (if ?b then _ else _) => destruct b
  | |- steady _ (match ?x with _ => _ end) => destruct x
  | |- steady _ (modify _) => apply steady_modify; intro
  end.

Ltac steady_auto HR := repeat (steady_step HR); eauto.

Section FrameOfFunctions.

Context (R : State -> State -> Prop) (HR : frame R).

Lemma steady_deliver sig : steady R (deliver sig).
Proof.
  unfold deliver, signal_handler. steady_auto HR. apply (frame_flag R HR).
Qed.

Lemma steady_os_path_exists p : steady R (os_path_exists p).
Proof. unfold os_path_exists. steady_auto HR. Qed.

Lemma steady_os_path_isdir p : steady R (os_path_isdir p).
Proof. unfold os_path_isdir. steady_auto HR. Qed.

Lemma steady_read_text env p : steady R (read_text env p).
Proof. unfold read_text. steady_auto HR. Qed.

Lemma steady_liveness_check env pid : steady R (liveness_check env pid).
Proof.
  unfold liveness_check, _windows_process_exists, _posix_pid_alive.
  steady_auto HR.
Qed.

(** The primitives that change the file system read the state they
    change, so they are taken apart by hand. *)
Lemma steady_os_remove env P : allows_unlink R P -> steady R (os_remove env P).
Proof.
  intros Hrm s r s' H. unfold os_remove in H. mcbn_in H.
  destruct (fs s !! P) as [[c|]|]; [destruct (remove_fails env P)| |];
    inversion H; subst; try (apply (frame_call R HR); reflexivity).
  (eapply (frame_trans R HR); [|apply (Hrm (add_call _ s))]; apply (frame_call R HR); reflexivity).
Qed.

Lemma steady_write_text env P text : allows_write R P -> steady R (write_text env P text).
Proof.
  intros Hw s r s' H. unfold write_text in H. mcbn_in H.
  destruct (fs s !! P) as [[c|]|]; try destruct (open_fails env P);
    try destruct (write_fails env P);
    inversion H; subst; try (apply (frame_call R HR); reflexivity);
    (eapply (frame_trans R HR); [|apply (Hw _ (add_call _ s))]; apply (frame_call R HR); reflexivity).
Qed.

Lemma steady_shutil_rmtree env attempt dir :
  allows_rmdir R -> steady R (shutil_rmtree env attempt dir).
Proof.
  intros Hrm s r s' H. unfold shutil_rmtree in H. mcbn_in H.
  destruct (fs s !! dir) as [[c|]|] eqn:E; try destruct (rmtree_fails env attempt);
    inversion H; subst; try (apply (frame_call R HR); reflexivity).
  (eapply (frame_trans R HR); [|apply (Hrm _ (add_call _ s)), E]; apply (frame_call R HR); reflexivity).
Qed.

Lemma steady_mkdtemp env prefix : allows_mkdir R -> steady R (mkdtemp env prefix).
Proof.
  intros Hmk s r s' H. unfold mkdtemp in H. mcbn_in H.
  destruct (mkdtemp_suffix env) as [suffix|]; mcbn_in H.
  - destruct (fs s !! _) eqn:E; inversion H; subst; try (apply (frame_call R HR); reflexivity).
    (eapply (frame_trans R HR); [|apply (Hmk _ (add_call _ s)), E]; apply (frame_call R HR); reflexivity).
  - inversion H; subst. apply (frame_call R HR). reflexivity.
Qed.

Lemma steady_inspect_marker env P : allows_unlink R P -> steady R (inspect_marker env P).
Proof.
  intros Hrm. pose proof (steady_os_remove env P Hrm).
  pose proof (steady_read_text env P). pose proof (steady_liveness_check env).
  unfold inspect_marker, int_. steady_auto HR.
Qed.

Lemma steady_write_marker env P : allows_write R P -> steady R (write_marker env P).
Proof.
  intros Hw. pose proof (fun t => steady_write_text env P t Hw).
  unfold write_marker. steady_auto HR.
Qed.

Lemma steady_acquire_lock env P :
  allows_unlink R P -> allows_write R P -> steady R (acquire_lock env P).
Proof.
  intros Hrm Hw. pose proof (steady_inspect_marker env P Hrm).
  pose proof (steady_write_marker env P Hw). pose proof (steady_os_path_exists P).
  unfold acquire_lock. steady_auto HR.
Qed.

Lemma steady_release_lock env P : allows_unlink R P -> steady R (release_lock env P).
Proof.
  intros Hrm. pose proof (steady_os_remove env P Hrm).
  pose proof (steady_os_path_exists P).
  unfold release_lock. steady_auto HR.
Qed.

Lemma steady_find_free_port_from env attempts :
  forall port, steady R (find_free_port_from env port attempts).
Proof.
  induction attempts as [|n IH]; intros port; cbn [find_free_port_from].
  - apply (steady_ret _ HR).
  - unfold probe_bind. steady_auto HR.
Qed.

Lemma steady_determine_port env preferred : steady R (determine_port env preferred).
Proof.
  pose proof (steady_find_free_port_from env).
  unfold determine_port, find_free_port. steady_auto HR.
Qed.

Lemma steady_startup_wait env port ticks : steady R (startup_wait env port ticks).
Proof.
  pose proof steady_deliver.
  induction ticks as [|t later IH]; cbn [startup_wait].
  - apply (steady_ret _ HR).
  - unfold create_connection. steady_auto HR.
Qed.

Lemma steady_on_server {A} (f : Server -> result A * Server) :
  ignores_server R -> steady R (on_server f).
Proof.
  intros Hsrv s r s' H. unfold on_server in H.
  destruct (server s) as [srv|].
  - destruct (f srv) as [r1 srv']. inversion H; subst. apply Hsrv.
  - inversion H; subst. apply (frame_refl R HR).
Qed.

Lemma steady_stop : ignores_server R -> steady R stop.
Proof.
  intros Hsrv. pose proof (fun A f => @steady_on_server A f Hsrv).
  unfold stop. steady_auto HR.
Qed.

Lemma steady_start_server env serve_dir preferred :
  ignores_server R -> steady R (start_server env serve_dir preferred).
Proof.
  intros Hsrv. pose proof (steady_determine_port env preferred).
  pose proof (steady_startup_wait env).
  pose proof (fun A f => @steady_on_server A f Hsrv).
  unfold start_server, new_server, thread_start, run. steady_auto HR.
Qed.

Lemma steady_first_existing paths : steady R (first_existing paths).
Proof.
  pose proof steady_os_path_exists.
  induction paths as [|p others IH]; cbn [first_existing]; steady_auto HR.
Qed.

Lemma steady_wait_for_browser ticks : steady R (wait_for_browser ticks).
Proof.
  pose proof steady_deliver.
  induction ticks as [|t later IH]; cbn [wait_for_browser]; steady_auto HR.
Qed.

Lemma steady_poll_health env port ticks : steady R (poll_health env port ticks).
Proof.
  pose proof steady_deliver.
  induction ticks as [|t later IH]; cbn [poll_health].
  - apply (steady_ret _ HR).
  - unfold urlopen. steady_auto HR.
Qed.

Lemma steady_wait_for_session env proc port : steady R (wait_for_session env proc port).
Proof.
  pose proof steady_wait_for_browser. pose proof (steady_poll_health env).
  unfold wait_for_session, proc_terminate, proc_wait, proc_kill. steady_auto HR.
Qed.

Lemma steady_cleanup_attempts env dir remaining :
  allows_rmdir R -> forall attempt, steady R (cleanup_attempts env dir attempt remaining).
Proof.
  intros Hrm. pose proof steady_os_path_isdir.
  pose proof (fun a d => steady_shutil_rmtree env a d Hrm).
  induction remaining as [|n IH]; intros attempt; cbn [cleanup_attempts].
  - apply (steady_ret _ HR).
  - steady_auto HR.
Qed.

Lemma steady_cleanup_profile env profile : allows_rmdir R -> steady R (cleanup_profile env profile).
Proof.
  intros Hrm. pose proof (fun d n => steady_cleanup_attempts env d n Hrm).
  unfold cleanup_profile. steady_auto HR.
Qed.

Lemma steady_webbrowser_open env url : allows_browser R -> steady R (webbrowser_open env url).
Proof.
  intros Hopen. unfold webbrowser_open. apply (steady_bind _ HR).
  - apply steady_modify. intros s. apply Hopen.
  - intro. steady_auto HR.
Qed.

(** The launch once a browser binary was found. *)
Lemma steady_launch_found env url console exe :
  allows_mkdir R -> allows_rmdir R ->
  steady R
    (profile <- mkdtemp env "viewer-profile-" ;;
     let cmd := [ exe;
                  "--app=" +:+ url;
                  "--user-data-dir=" +:+ profile;
                  "--no-first-run";
                  "--no-default-browser-check";
                  "--disable-extensions" ] in
     try_except
       (proc <- (if String.eqb (os_name env) "nt" && console
                 then Popen env cmd true
                 else Popen env cmd false) ;;
        log ("Launched browser: " +:+ exe +:+ " (pid=" +:+ str_int proc
             +:+ ") profile=" +:+ profile) ;;
        ret (Some proc, Some profile))
       is_Exception
       (fun e =>
          log ("Failed to launch browser executable: " +:+ str_exn e) ;;
          cleanup_profile env (Some profile) ;;
          ret (None, None))).
Proof.
  intros Hmk Hrm. pose proof (steady_mkdtemp env). pose proof (steady_cleanup_profile env).
  unfold Popen. steady_auto HR.
Qed.

Lemma steady_launch env url console :
  allows_browser R -> allows_mkdir R -> allows_rmdir R ->
  steady R (launch_browser_in_new_terminal env url console).
Proof.
  intros Hopen Hmk Hrm. pose proof (steady_webbrowser_open env url Hopen).
  pose proof (fun p => steady_mkdtemp env p Hmk).
  pose proof (fun p => steady_cleanup_profile env p Hrm).
  pose proof steady_first_existing.
  unfold launch_browser_in_new_terminal, find_chrome_like, Popen.
  steady_auto HR.
Qed.

Lemma steady_stop_and_clean env srv profile :
  ignores_server R -> allows_rmdir R -> steady R (stop_and_clean env srv profile).
Proof.
  intros Hsrv Hrm. pose proof (steady_stop Hsrv). pose proof (steady_cleanup_profile env).
  unfold stop_and_clean. steady_auto HR.
Qed.

Lemma steady_run_body env serve_dir preferred console :
  allows_browser R -> ignores_server R -> allows_mkdir R -> allows_rmdir R ->
  steady R (run_body env serve_dir preferred console).
Proof.
  intros Hopen Hsrv Hmk Hrm.
  pose proof (steady_start_server env serve_dir preferred Hsrv).
  pose proof (fun u c => steady_launch env u c Hopen Hmk Hrm).
  pose proof (steady_wait_for_session env).
  pose proof (fun v p => steady_stop_and_clean env v p Hsrv Hrm).
  pose proof steady_deliver.
  unfold run_body. steady_auto HR.
Qed.

End FrameOfFunctions.

(** ** The frames in use *)

Lemma frame_same_fs : frame same_fs.
Proof. split; unfold same_fs; intros; cbn; congruence. Qed.

Lemma same_fs_ignores_server : ignores_server same_fs.
Proof. intros v s. reflexivity. Qed.

Lemma frame_same_server : frame same_server.
Proof. split; unfold same_server; intros; cbn; congruence. Qed.

Lemma same_server_allows_unlink P : allows_unlink same_server P.
Proof. intros s. reflexivity. Qed.

Lemma same_server_allows_write P : allows_write same_server P.
Proof. intros t s. reflexivity. Qed.

Lemma frame_keeps_file P content : frame (keeps_file P content).
Proof. split; unfold keeps_file; intros; cbn; auto. Qed.

Lemma keeps_file_allows_browser P content : allows_browser (keeps_file P content).
Proof. intros url s H. exact H. Qed.

Lemma frame_no_new_open : frame no_new_open.
Proof.
  split; unfold no_new_open; intros; cbn in *; auto.
  apply in_app_or in H0 as [Hin | [Heq | []]]; [exact Hin|].
  subst c. discriminate.
Qed.

Lemma no_new_open_ignores_server : ignores_server no_new_open.
Proof. intros v s url H. exact H. Qed.

Lemma no_new_open_allows_mkdir : allows_mkdir no_new_open.
Proof. intros d s _ url H. exact H. Qed.

Lemma no_new_open_allows_rmdir : allows_rmdir no_new_open.
Proof. intros d s _ url H. exact H. Qed.

Lemma keeps_file_ignores_server P content : ignores_server (keeps_file P content).
Proof. intros v s H. exact H. Qed.

Lemma keeps_file_allows_mkdir P content : allows_mkdir (keeps_file P content).
Proof.
  intros d s Hfree Hfile. cbn. rewrite lookup_insert_ne; [exact Hfile|].
  intros ->. congruence.
Qed.

Lemma keeps_file_allows_rmdir P content : allows_rmdir (keeps_file P content).
Proof.
  intros d s Hdir Hfile. cbn. rewrite lookup_delete_ne; [exact Hfile|].
  intros ->. congruence.
Qed.

Lemma frame_only_touches P : frame (only_touches P).
Proof.
  split; unfold only_touches; intros; cbn; auto.
  rewrite H0 by assumption. auto.
Qed.

Lemma only_touches_allows_unlink P : allows_unlink (only_touches P) P.
Proof. intros s d Hne. cbn. apply lookup_delete_ne. congruence. Qed.

Lemma only_touches_allows_write P : allows_write (only_touches P) P.
Proof. intros t s d Hne. cbn. apply lookup_insert_ne. congruence. Qed.


(** ** Stopping the server *)

(** On a server whose [shutdown] finds what it waits for, [stop] returns
    and leaves no loop running and the socket closed; only the server
    object changes, and a further [stop] finds the event set. *)
Lemma stop_stoppable s srv :
  server s = Some srv ->
  stoppable srv = true ->
  exists srv', stop s = (Ret tt, set_server (Some srv') s)
               /\ stopped srv' /\ stoppable srv' = true.
Proof.
  intros Hsrv Hl. unfold stop, on_server, try_finally, try_except.
  rewrite Hsrv. unfold shutdown, stoppable in *.
  destruct srv as [port dir loop req ev sock]. cbn in *.
  destruct loop; cbn; try rewrite Hl; cbn;
    eexists; (split; [reflexivity|]); (split; [split|]);
    cbn; try discriminate; try reflexivity; assumption.
Qed.

(** On any other server [stop] does not return: [shutdown] waits for an
    event that only [serve_forever] sets, and [server_close] is never
    reached. *)
Lemma stop_blocks s srv :
  server s = Some srv ->
  stoppable srv = false ->
  exists srv', stop s = (Hang, set_server (Some srv') s)
               /\ srv_socket_open srv' = srv_socket_open srv.
Proof.
  intros Hsrv Hl. unfold stop, on_server, try_finally, try_except.
  rewrite Hsrv. unfold shutdown, stoppable in *.
  destruct srv as [port dir loop req ev sock]. cbn in *.
  destruct loop; try discriminate Hl; rewrite Hl; cbn;
    eexists; (split; [reflexivity|reflexivity]).
Qed.

(** For contrast with what follows: on a server object as the
    constructor leaves it, [stop] does not return. *)
Remark stop_never_launched_blocks s port dir :
  server s = Some (mkServer port dir NotStarted false false true) ->
  fst (stop s) = Hang.
Proof.
  intros Hsrv. unfold stop, on_server, try_finally. rewrite Hsrv. reflexivity.
Qed.

(** What follows [thread.start()] in [start_server] leaves the server
    object alone. *)
Lemma steady_after_thread_start env port :
  steady same_server
    (connected <- startup_wait env port (startup_ticks env) ;;
     if connected then ret (tt, tt, port)
     else
       s <- get ;;
       if _shutdown_requested s
       then raise startup_interrupted
       else raise startup_timeout).
Proof.
  pose proof (steady_startup_wait _ frame_same_server env port (startup_ticks env)).
  steady_auto frame_same_server.
Qed.

(** What [start_server] leaves behind: no server object when the port
    step or the bind fails; the server object as constructed when the
    thread cannot be started; and otherwise a server whose loop is
    running, whether or not the wait for the first connection
    succeeded. *)
Lemma start_server_outcome env serve_dir preferred s0 r s :
  server s0 = None ->
  start_server env serve_dir preferred s0 = (r, s) ->
  (server s = None /\ forall x, r <> Ret x)
  \/ (thread_start_fails env = true
      /\ r = Raise (Exn RuntimeError "can't start new thread")
      /\ exists port, server s = Some (mkServer port serve_dir NotStarted false false true))
  \/ (thread_start_fails env = false
      /\ exists port, server s = Some (serving port serve_dir)).
Proof.
  intros Hnone Hrun. unfold start_server in Hrun.
  apply bind_inv in Hrun as [(port & s1 & Hport & Hrest) | [(e & Hport & ->) | (Hport & ->)]].
  - assert (Hs1 : server s1 = None).
    { rewrite <- Hnone. exact (steady_determine_port _ frame_same_server _ _ _ _ _ Hport). }
    unfold new_server in Hrest.
    apply bind_inv in Hrest as [([] & s2 & Hnew & Hrest) | [(e & Hnew & ->) | (Hnew & ->)]].
    + mcbn_in Hnew.
      destruct (port_busy env port || listen_fails env); inversion Hnew; subst; clear Hnew.
      unfold thread_start, run, on_server in Hrest.
      destruct (thread_start_fails env) eqn:Ethread.
      * right. left. split; [reflexivity|].
        cbn in Hrest. inversion Hrest; subst. split; [reflexivity|].
        exists port. reflexivity.
      * right. right. split; [reflexivity|].
        apply bind_inv in Hrest
            as [([] & s3 & Hthread & Hrest) | [(e & Hthread & ->) | (Hthread & ->)]];
          cbn in Hthread; inversion Hthread; subst; clear Hthread.
        exists port.
        rewrite (steady_after_thread_start env port _ _ _ Hrest). reflexivity.
    + left. mcbn_in Hnew.
      destruct (port_busy env port || listen_fails env); inversion Hnew; subst.
      split; [exact Hs1 | discriminate].
    + left. mcbn_in Hnew.
      destruct (port_busy env port || listen_fails env); inversion Hnew.
  - left. split; [|discriminate].
    rewrite <- Hnone. exact (steady_determine_port _ frame_same_server _ _ _ _ _ Hport).
  - left. split; [|discriminate].
    rewrite <- Hnone. exact (steady_determine_port _ frame_same_server _ _ _ _ _ Hport).
Qed.

(** C9, as amended.  On a server object, [stop] never raises.  It is
    total and idempotent exactly on a server whose accept loop is running
    or whose event is set already: there it returns, a second call in a
    row returns as well, and after either call no loop is running and
    the socket is closed.  On any other server it does not return at all.
    Every server that [start_server] leaves behind once [thread.start()]
    has succeeded is of the first kind, whether the start then returned,
    timed out or was interrupted; the server it leaves behind when
    [thread.start()] fails is of the second. *)
Theorem stop_idempotent_total s srv :
  server s = Some srv ->
  (forall e, fst (stop s) <> Raise e)
  /\ (stoppable srv = true ->
        exists srv1 srv2,
          stop s = (Ret tt, set_server (Some srv1) s)
          /\ stopped srv1
          /\ stop (set_server (Some srv1) s) = (Ret tt, set_server (Some srv2) s)
          /\ stopped srv2)
  /\ (stoppable srv = false -> fst (stop s) = Hang)
  /\ (forall env serve_dir preferred s0,
        server s0 = None ->
        snd (start_server env serve_dir preferred s0) = s ->
        stoppable srv = negb (thread_start_fails env)).
Proof.
  intros Hsrv.
  assert (Hreturns : stoppable srv = true ->
            exists srv1 srv2,
              stop s = (Ret tt, set_server (Some srv1) s)
              /\ stopped srv1
              /\ stop (set_server (Some srv1) s) = (Ret tt, set_server (Some srv2) s)
              /\ stopped srv2).
  { intros Hl.
    destruct (stop_stoppable s srv Hsrv Hl) as (srv1 & Hstop1 & Hstopped1 & Hl1).
    destruct (stop_stoppable (set_server (Some srv1) s) srv1 eq_refl Hl1)
      as (srv2 & Hstop2 & Hstopped2 & _).
    exists srv1, srv2. repeat split; try assumption; apply Hstopped1 || apply Hstopped2. }
  assert (Hblocks : stoppable srv = false -> fst (stop s) = Hang).
  { intros Hl. destruct (stop_blocks s srv Hsrv Hl) as (srv' & Hstop & _).
    rewrite Hstop. reflexivity. }
  split; [|split; [exact Hreturns|split; [exact Hblocks|]]].
  - intros e. destruct (stoppable srv) eqn:Hl.
    + destruct (Hreturns eq_refl) as (srv1 & _ & Hstop & _). rewrite Hstop. discriminate.
    + rewrite (Hblocks eq_refl). discriminate.
  - intros env serve_dir preferred s0 Hnone Hstart.
    destruct (start_server_outcome env serve_dir preferred s0
                (fst (start_server env serve_dir preferred s0)) s Hnone)
      as [[Hno _] | [(Hfails & _ & port & Hleft) | (Hfails & port & Hleft)]].
    + rewrite <- Hstart. apply surjective_pairing.
    + congruence.
    + rewrite Hleft in Hsrv. inversion Hsrv. rewrite Hfails. reflexivity.
    + rewrite Hleft in Hsrv. inversion Hsrv. rewrite Hfails. reflexivity.
Qed.

Lemma stop_idempotent_total_witness :
  let s := snd (start_server env_timeout "viewer" None (state_of ∅)) in
  server s = Some (serving 8080 "viewer")
  /\ exists srv1 srv2,
       stop s = (Ret tt, set_server (Some srv1) s)
       /\ stopped srv1
       /\ stop (set_server (Some srv1) s) = (Ret tt, set_server (Some srv2) s)
       /\ stopped srv2.
Proof.
  intros s.
  assert (Hsrv : server s = Some (serving 8080 "viewer")) by (vm_compute; reflexivity).
  split; [exact Hsrv|].
  destruct (stop_idempotent_total s (serving 8080 "viewer") Hsrv) as (_ & Hreturns & _).
  apply Hreturns. reflexivity.
Defined.

(** C9 as worded fails for a start that fails at [thread.start()]: the
    server object exists, its accept loop was never launched, and [stop]
    on it does not return. *)
Lemma stop_total_claim_fails :
  ~ stop_total_claim env_no_thread "viewer" None (state_of ∅).
Proof.
  intros Hclaim.
  destruct Hclaim as (s1 & s2 & Hstop & _).
  - vm_compute. eauto.
  - vm_compute in Hstop. discriminate Hstop.
Qed.

(** ** Acquire and release around a run *)

Lemma truthy_str_nonempty P : P <> EmptyString -> truthy_str (Some P) = true.
Proof. destruct P; [contradiction|reflexivity]. Qed.

(** An early return of the marker inspection is always a refusal. *)
Lemma inspect_marker_early env P s b s' :
  inspect_marker env P s = (Ret (Some b), s') -> b = false.
Proof.
  unfold inspect_marker. intros H.
  apply bind_inv in H as [(old & s1 & _ & H) | [(e & _ & He) | (_ & He)]];
    try discriminate He.
  destruct (truthy_int old); [|inversion H].
  apply bind_inv in H as [(alive & s2 & _ & H) | [(e & _ & He) | (_ & He)]];
    try discriminate He.
  destruct alive.
  - mcbn_in H. inversion H. reflexivity.
  - apply bind_inv in H as [(u & s3 & _ & H) | [(e & _ & He) | (_ & He)]];
      try discriminate He.
    apply bind_inv in H as [(u' & s4 & _ & H) | [(e & _ & He) | (_ & He)]];
      try discriminate He.
    inversion H.
Qed.

Lemma write_marker_true env P s s' :
  write_marker env P s = (Ret true, s') ->
  fs s' !! P = Some (File (own_pid_text env)).
Proof.
  unfold write_marker, write_text, own_pid_text. mcbn. intros H.
  destruct (fs s !! P) as [[c|]|]; try destruct (open_fails env P);
    try destruct (write_fails env P);
    inversion H; subst; cbn; apply lookup_insert_eq.
Qed.

(** A successful [acquire_lock] leaves the caller's PID in the marker and
    touches nothing else: no other path, no server. *)
Lemma acquire_lock_true env P s s1 :
  acquire_lock env P s = (Ret true, s1) ->
  fs s1 !! P = Some (File (own_pid_text env))
  /\ only_touches P s s1
  /\ server s1 = server s.
Proof.
  intros H. split; [|split].
  - unfold acquire_lock in H.
    apply bind_inv in H as [(present & s2 & _ & H) | [(e & _ & He) | (_ & He)]];
      try discriminate He.
    apply bind_inv in H as [(early & s3 & Hearly & H) | [(e & _ & He) | (_ & He)]];
      try discriminate He.
    destruct early as [b|].
    + inversion H; subst. destruct present; [|inversion Hearly].
      apply inspect_marker_early in Hearly. discriminate.
    + eapply write_marker_true, H.
  - exact (steady_acquire_lock _ (frame_only_touches P) env P
             (only_touches_allows_unlink P) (only_touches_allows_write P) _ _ _ H).
  - exact (steady_acquire_lock _ frame_same_server env P
             (same_server_allows_unlink P) (same_server_allows_write P) _ _ _ H).
Qed.

(** [release_lock] on a marker that is a file. *)
Lemma release_lock_file env P s content :
  fs s !! P = Some (File content) ->
  release_lock env P s =
  (Ret tt,
   if remove_fails env P
   then add_stdout ("Warning: failed to remove lock file: " +:+ oserror_text env)
          (add_call (CRemove P) (add_call (CExists P) s))
   else set_fs (delete P (fs s)) (add_call (CRemove P) (add_call (CExists P) s))).
Proof.
  intros Hfile. unfold release_lock, os_path_exists. mcbn. rewrite Hfile.
  rewrite bool_decide_eq_true_2 by eauto.
  rewrite (os_remove_file env P _ content) by (mcbn; exact Hfile).
  destruct (remove_fails env P); reflexivity.
Qed.


(** ** The marker a run writes is the marker the next run reads *)

Lemma digit_char_cases c :
  digit_char c ->
  is_space c = false /\ Ascii.eqb c "_" = false
  /\ (exists d, digit_val c = Some d /\ forall q, c = pretty_N_char q -> (q < 10)%N -> d = Z.of_N q)
  /\ c <> "+"%char /\ c <> "-"%char.
Proof.
  intros (d & Hd & ->).
  assert (Hcases : (d = 0 \/ d = 1 \/ d = 2 \/ d = 3 \/ d = 4 \/ d = 5 \/ d = 6 \/ d = 7
                    \/ d = 8 \/ d = 9)%N) by lia.
  repeat (destruct Hcases as [-> | Hcases]); try subst d;
    (split; [reflexivity|]; split; [reflexivity|]; split; [|split; discriminate]);
    eexists; (split; [reflexivity|]); intros q Hq Hlt;
    apply pretty_N_char_inj in Hq; try lia; subst q; reflexivity.
Qed.

Lemma pretty_go_digits x :
  forall s, all_chars digit_char s -> all_chars digit_char (pretty_N_go x s).
Proof.
  induction (N.lt_wf_0 x) as [x _ IH]; intros s Hs.
  destruct (N.eq_dec x 0%N) as [-> | Hpos].
  - rewrite pretty_N_go_0. exact Hs.
  - rewrite pretty_N_go_step by (apply N.neq_0_lt_0, Hpos). apply IH.
    + apply N.div_lt; [apply N.neq_0_lt_0, Hpos|reflexivity].
    + split; [|exact Hs]. exists (x mod 10)%N. split; [|reflexivity].
      apply N.mod_lt. discriminate.
Qed.

Lemma pretty_go_nonempty x s : (0 < x)%N -> pretty_N_go x s <> EmptyString.
Proof.
  revert s. induction (N.lt_wf_0 x) as [x _ IH]; intros s Hpos.
  rewrite pretty_N_go_step by exact Hpos.
  destruct (N.eq_dec (x / 10)%N 0%N) as [Hq | Hq].
  - rewrite Hq, pretty_N_go_0. discriminate.
  - apply IH; [apply N.div_lt; [exact Hpos|reflexivity]|].
    apply N.neq_0_lt_0, Hq.
Qed.

Lemma rstrip_digits s : all_chars digit_char s -> rstrip s = s.
Proof.
  induction s as [|c rest IH]; [reflexivity|]. intros [Hc Hrest]. cbn [rstrip].
  rewrite (IH Hrest). destruct rest; [|reflexivity].
  destruct (digit_char_cases c Hc) as (-> & _). reflexivity.
Qed.

Lemma strip_digits s : all_chars digit_char s -> strip s = s.
Proof.
  intros Hs. unfold strip.
  assert (Hl : lstrip s = s).
  { destruct s as [|c rest]; [reflexivity|]. cbn [lstrip].
    destruct Hs as [Hc _]. destruct (digit_char_cases c Hc) as (-> & _). reflexivity. }
  rewrite Hl. apply rstrip_digits, Hs.
Qed.

(** Reading back the digits that [pretty_N_go] prints. *)
Lemma int_digits_pretty_go x :
  (0 < x)%N ->
  forall s acc b, exists m,
    int_digits (pretty_N_go x s) acc b = int_digits s (acc * m + Z.of_N x) true.
Proof.
  induction (N.lt_wf_0 x) as [x _ IH]; intros Hpos s acc b.
  rewrite pretty_N_go_step by exact Hpos.
  assert (Hd : digit_char (pretty_N_char (x mod 10)%N)).
  { eexists. split; [|reflexivity]. apply N.mod_lt. discriminate. }
  destruct (digit_char_cases _ Hd) as (_ & Hus & (d & Hval & Hd') & _).
  assert (Hdv : d = Z.of_N (x mod 10)%N).
  { apply Hd'; [reflexivity|]. apply N.mod_lt. discriminate. }
  pose proof (N.div_mod x 10%N ltac:(discriminate)) as Hdm.
  destruct (N.eq_dec (x / 10)%N 0%N) as [Hq | Hq].
  - rewrite Hq, pretty_N_go_0. cbn [int_digits]. rewrite Hus, Hval.
    exists 10. f_equal. lia.
  - destruct (IH (x / 10)%N (N.div_lt x 10 Hpos eq_refl) (proj1 (N.neq_0_lt_0 _) Hq)
                (String (pretty_N_char (x mod 10)%N) s) acc b) as [m Hm].
    rewrite Hm. cbn [int_digits]. rewrite Hus, Hval.
    exists (10 * m). f_equal. lia.
Qed.

(** [int(str(n))] is [n] for a positive [n]: the text a run writes into
    the marker parses back to its PID. *)
Lemma parse_marker_own_pid env :
  0 < getpid env -> parse_marker (own_pid_text env) = Some (getpid env).
Proof.
  intros Hpos. unfold parse_marker, own_pid_text, str_int.
  destruct (getpid env) as [|p|p] eqn:Epid; try lia.
  change (pretty (Z.pos p)) with (pretty_N_go (N.pos p) EmptyString).
  assert (Hdigits : all_chars digit_char (pretty_N_go (N.pos p) EmptyString))
    by (apply pretty_go_digits; exact I).
  unfold int_of_str. rewrite !(strip_digits _ Hdigits).
  destruct (int_digits_pretty_go (N.pos p) ltac:(lia) EmptyString 0 false) as [m Hm].
  destruct (pretty_N_go (N.pos p) EmptyString) as [|c rest] eqn:Etext.
  - exfalso. eapply pretty_go_nonempty; [|exact Etext]. lia.
  - destruct Hdigits as [Hc _].
    destruct (digit_char_cases c Hc) as (_ & _ & _ & Hplus & Hminus).
    assert (Hbody : match String c rest with
                    | String "+"%char r => int_digits r 0 false
                    | String "-"%char r => Z.opp <$> int_digits r 0 false
                    | body => int_digits body 0 false
                    end = int_digits (String c rest) 0 false).
    { destruct c as [[] [] [] [] [] [] [] []]; try reflexivity; congruence. }
    rewrite Hbody, Hm. cbn [int_digits]. f_equal.
Qed.

(** X27.  Mutual exclusion between two runs: once a run has taken the lock,
    a second run on a machine where the first one's PID is alive is
    refused and leaves the marker to its owner. *)
Theorem second_acquire_refused env env' P s s1 :
  0 < getpid env ->
  acquire_lock env P s = (Ret true, s1) ->
  read_fails env' P = false ->
  pid_alive env' (getpid env) = true ->
  exists s2, acquire_lock env' P s1 = (Ret false, s2)
             /\ fs s2 !! P = Some (File (own_pid_text env)).
Proof.
  intros Hpos Hfirst Hread Halive.
  destruct (acquire_lock_true _ _ _ _ Hfirst) as (Hfile & _ & _).
  pose proof (parse_marker_own_pid env Hpos) as Hparse.
  unfold acquire_lock, os_path_exists, inspect_marker, read_text, int_,
    parse_marker in *.
  mcbn. rewrite Hfile. rewrite bool_decide_eq_true_2 by eauto.
  mcbn. rewrite Hfile, Hread. mcbn. rewrite Hparse. mcbn.
  unfold truthy_int. destruct (Z.eqb_spec (getpid env) 0) as [|_]; [lia|].
  mcbn. rewrite liveness_check_eq. mcbn. rewrite Halive. mcbn.
  eexists. split; [reflexivity|exact Hfile].
Qed.

(** ** The profile directory *)

(** [cleanup_profile] on a directory that exists: when one of the three
    attempts gets through, the directory is gone and nothing else has
    changed in the file system. *)
Lemma cleanup_profile_dir env dir s :
  fs s !! dir = Some Dir ->
  dir <> EmptyString ->
  rmtree_succeeds env = true ->
  exists s', cleanup_profile env (Some dir) s = (Ret tt, s')
             /\ fs s' = delete dir (fs s)
             /\ server s' = server s.
Proof.
  intros Hdir Hne Hok. unfold cleanup_profile.
  rewrite (truthy_str_nonempty dir Hne). cbn [negb default from_option id].
  unfold PROFILE_CLEANUP_RETRIES, rmtree_succeeds in *.
  cbn [cleanup_attempts]. unfold os_path_isdir, shutil_rmtree.
  repeat (first [rewrite Hdir | progress mcbn | progress cbn [Nat.ltb Nat.leb Nat.sub PROFILE_CLEANUP_RETRIES]]).
  destruct (rmtree_fails env 0); repeat (first [rewrite Hdir | progress mcbn | progress cbn [Nat.ltb Nat.leb Nat.sub PROFILE_CLEANUP_RETRIES]]);
    [|eexists; split; [reflexivity|split; reflexivity]].
  destruct (rmtree_fails env 1); repeat (first [rewrite Hdir | progress mcbn | progress cbn [Nat.ltb Nat.leb Nat.sub PROFILE_CLEANUP_RETRIES]]);
    [|eexists; split; [reflexivity|split; reflexivity]].
  destruct (rmtree_fails env 2); repeat (first [rewrite Hdir | progress mcbn | progress cbn [Nat.ltb Nat.leb Nat.sub PROFILE_CLEANUP_RETRIES]]);
    [discriminate Hok|].
  eexists; split; [reflexivity|split; reflexivity].
Qed.

Lemma append_nonempty a c b : a +:+ String c b <> EmptyString.
Proof. destruct a; discriminate. Qed.

Lemma first_existing_returns paths s r s' :
  first_existing paths s = (r, s') -> exists exe, r = Ret exe.
Proof.
  revert s. induction paths as [|p others IH]; intros s; cbn [first_existing].
  - intros H. inversion H. eauto.
  - unfold os_path_exists. mcbn.
    destruct (bool_decide (is_Some (fs s !! p))); [|apply IH].
    intros H. inversion H. eauto.
Qed.

(** What [launch_browser_in_new_terminal] hands back, when a profile
    directory can be removed again: either no profile and the file system
    as before, or a profile directory that it has just created. *)
Lemma launch_cases env url console s r s' :
  rmtree_succeeds env = true ->
  launch_browser_in_new_terminal env url console s = (r, s') ->
  r <> Hang
  /\ (forall e, r = Raise e -> fs s' = fs s)
  /\ (forall proc profile, r = Ret (proc, profile) ->
        (profile = None /\ fs s' = fs s)
        \/ (exists dir, profile = Some dir /\ dir <> EmptyString
                        /\ fs s !! dir = None /\ fs s' = <[dir := Dir]> (fs s))).
Proof.
  intros Hok H. unfold launch_browser_in_new_terminal in H.
  apply bind_inv in H as [(exe & s1 & Hfind & H) | [(e & Hfind & ->) | (Hfind & ->)]].
  2, 3: apply first_existing_returns in Hfind; destruct Hfind; discriminate.
  assert (Hfs1 : fs s1 = fs s)
    by exact (steady_first_existing _ frame_same_fs _ _ _ _ Hfind).
  rewrite <- Hfs1. clear Hfind Hfs1 s.
  destruct (negb (truthy_str exe)).
  - unfold webbrowser_open in H. mcbn_in H.
    destruct (webbrowser_fails env); inversion H; subst; cbn;
      (split; [discriminate|split; [discriminate|]]);
      intros proc profile Heq; inversion Heq; subst; left; split; reflexivity.
  - unfold mkdtemp in H. mcbn_in H.
    destruct (mkdtemp_suffix env) as [suffix|]; mcbn_in H.
    2: { inversion H; subst. split; [discriminate|]. split; [reflexivity|discriminate]. }
    set (dir := gettempdir env +:+ "/" +:+ "viewer-profile-" +:+ suffix) in *.
    destruct (fs s1 !! dir) as [n|] eqn:Edir; mcbn_in H.
    { inversion H; subst. split; [discriminate|]. split; [reflexivity|discriminate]. }
    assert (Hne : dir <> EmptyString) by apply append_nonempty.
    unfold Popen in H. mcbn_in H.
    destruct (popen_result env) as [pid|].
    + assert (Hres : r = Ret (Some pid, Some dir) /\ fs s' = <[dir := Dir]> (fs s1)).
      { destruct ((os_name env =? "nt")%string && console); mcbn_in H;
          inversion H; subst; split; reflexivity. }
      destruct Hres as [-> Hfs]. split; [discriminate|]. split; [discriminate|].
      intros proc profile Heq. inversion Heq; subst. right. exists dir.
      split; [reflexivity|]. split; [exact Hne|]. split; [exact Edir|exact Hfs].
    + assert (Hclean : forall st, fs st = <[dir := Dir]> (fs s1) ->
                exists st', cleanup_profile env (Some dir) st = (Ret tt, st')
                            /\ fs st' = fs s1).
      { intros st Hst.
        destruct (cleanup_profile_dir env dir st) as (st' & Hc & Hfs & _);
          [rewrite Hst; apply lookup_insert_eq | exact Hne | exact Hok |].
        exists st'. split; [exact Hc|].
        rewrite Hfs, Hst. apply delete_insert_id, Edir. }
      assert (Hres : r = Ret (None, None) /\ fs s' = fs s1).
      { destruct ((os_name env =? "nt")%string && console); mcbn_in H;
          match type of H with
          | context [cleanup_profile env (Some dir) ?st] =>
              destruct (Hclean st eq_refl) as (st' & Hc & Hfs); rewrite Hc in H
          end;
          inversion H; subst; (split; [reflexivity|exact Hfs]). }
      destruct Hres as [-> Hfs]. split; [discriminate|]. split; [discriminate|].
      intros proc profile Heq. inversion Heq; subst. left. split; [reflexivity|exact Hfs].
Qed.

Lemma bind_steady_inv {A B} R (m : M A) (k : A -> M B) s r s' :
  steady R m ->
  bind m k s = (r, s') ->
  (exists a s1, R s s1 /\ k a s1 = (r, s'))
  \/ (R s s' /\ forall b, r <> Ret b).
Proof.
  intros Hm H.
  apply bind_inv in H as [(a & s1 & H1 & H2) | [(e & H1 & ->) | (H1 & ->)]].
  - left. exists a, s1. split; [eapply Hm, H1 | exact H2].
  - right. split; [eapply Hm, H1 | discriminate].
  - right. split; [eapply Hm, H1 | discriminate].
Qed.

(** Whatever [stop] raises is caught by [except Exception]. *)
Lemma stop_raises_exception s e s' : stop s = (Raise e, s') -> is_Exception e = true.
Proof.
  unfold stop, on_server, try_finally, try_except.
  destruct (server s) as [srv|] eqn:Esrv; cbn.
  - unfold shutdown. destruct (srv_loop srv); cbn; try discriminate;
      destruct (srv_is_shut_down srv); cbn; discriminate.
  - rewrite Esrv. cbn. intros H. inversion H. reflexivity.
Qed.

(** The inner [finally], once it returns, has removed the profile
    directory it was given. *)
Lemma stop_and_clean_fs env srv profile s r s' :
  rmtree_succeeds env = true ->
  stop_and_clean env srv profile s = (r, s') ->
  r <> Hang ->
  match profile with
  | None => fs s' = fs s
  | Some dir => dir <> EmptyString -> fs s !! dir = Some Dir -> fs s' = delete dir (fs s)
  end.
Proof.
  intros Hok H Hr. unfold stop_and_clean in H.
  assert (Hstop : exists s1, fs s1 = fs s /\ cleanup_profile env profile s1 = (r, s')).
  { apply bind_inv in H as [([] & s1 & Hlog & H) | [(e & Hlog & ->) | (Hlog & ->)]];
      [|inversion Hlog|inversion Hlog].
    assert (Hfs1 : fs s1 = fs s) by (inversion Hlog; reflexivity).
    apply bind_inv in H as [([] & s2 & Hst & H) | [(e & Hst & ->) | (Hst & ->)]].
    - exists s2. split; [|exact H]. rewrite <- Hfs1.
      refine (steady_when _ frame_same_fs _ _ _ _ _ _ Hst).
      pose proof (steady_stop _ frame_same_fs same_fs_ignores_server).
      steady_auto frame_same_fs.
    - exfalso. destruct (bool_decide (is_Some srv)); cbn in Hst; [|inversion Hst].
      unfold try_except in Hst. destruct (stop s1) as [[[]|e'|] s3] eqn:Es;
        try (inversion Hst; fail).
      rewrite (stop_raises_exception _ _ _ Es) in Hst. inversion Hst.
    - contradiction. }
  destruct Hstop as (s1 & Hfs1 & Hclean).
  destruct profile as [dir|].
  - intros Hne Hdir. rewrite <- Hfs1 in Hdir.
    destruct (cleanup_profile_dir env dir s1 Hdir Hne Hok) as (s2 & Hc & Hfs2 & _).
    rewrite Hc in Hclean. inversion Hclean; subst. rewrite Hfs2, Hfs1. reflexivity.
  - inversion Hclean; subst. exact Hfs1.
Qed.

(** The guarded block of [run_and_block], once it returns, leaves the
    file system as it found it: a profile directory that was created has
    been removed again. *)
Lemma run_body_restores_fs env serve_dir preferred console s r s' :
  rmtree_succeeds env = true ->
  run_body env serve_dir preferred console s = (r, s') ->
  r <> Hang ->
  fs s' = fs s.
Proof.
  intros Hok H Hr. unfold run_body in H.
  apply (bind_steady_inv same_fs) in H as [([] & s1 & Hfs1 & H) | [Hfs _]];
    [|exact Hfs|apply (steady_log _ frame_same_fs)].
  apply (bind_steady_inv same_fs) in H as [(started & s2 & Hfs2 & H) | [Hfs _]];
    [|unfold same_fs in *; congruence
     |apply (steady_start_server _ frame_same_fs), same_fs_ignores_server].
  apply (bind_steady_inv same_fs) in H as [([] & s3 & Hfs3 & H) | [Hfs _]];
    [|unfold same_fs in *; congruence|apply (steady_log _ frame_same_fs)].
  apply (bind_steady_inv same_fs) in H as [([] & s4 & Hfs4 & H) | [Hfs _]];
    [|unfold same_fs in *; congruence|apply (steady_log _ frame_same_fs)].
  apply (bind_steady_inv same_fs) in H as [([] & s5 & Hfs5 & H) | [Hfs _]];
    [|unfold same_fs in *; congruence|apply (steady_deliver _ frame_same_fs)].
  assert (Hpre : fs s5 = fs s) by (unfold same_fs in *; congruence).
  rewrite <- Hpre. clear Hfs1 Hfs2 Hfs3 Hfs4 Hfs5 Hpre s s1 s2 s3 s4.
  apply bind_inv in H as [(st & s5' & Hget & H) | [(e & Hget & _) | (Hget & _)]];
    [|inversion Hget|inversion Hget].
  inversion Hget; subst st s5'; clear Hget.
  destruct (_shutdown_requested s5); [inversion H; reflexivity|].
  apply bind_inv in H as [([proc profile] & s6 & El & H) | [(e & El & ->) | (El & ->)]].
  2: { destruct (launch_cases _ _ _ _ _ _ Hok El) as (_ & Hraise & _). eauto. }
  2: { destruct (launch_cases _ _ _ _ _ _ Hok El) as (Hnh & _ & _). contradiction. }
  destruct (launch_cases _ _ _ _ _ _ Hok El) as (_ & _ & Hret).
  cbn [fst snd] in H.
  apply bind_inv in H as [([] & s7 & Et & H) | [(e & Et & ->) | (Et & ->)]];
    [inversion H; subst s7 | | contradiction].
  all: apply try_finally_inv in Et as (r1 & s8 & Hwait & _ & Hfin); [|discriminate].
  all: assert (Hclean : exists rc, stop_and_clean env (Some (fst (fst started))) profile s8
                                   = (rc, s') /\ rc <> Hang)
         by (destruct Hfin as [[Hf _] | (e' & Hf & _)]; eexists;
             (split; [exact Hf|discriminate])).
  all: destruct Hclean as (rc & Hclean & Hrc).
  all: pose proof (stop_and_clean_fs _ _ _ _ _ _ Hok Hclean Hrc) as Hfs.
  all: assert (Hfs8 : fs s8 = fs s6)
         by exact (steady_wait_for_session _ frame_same_fs _ _ _ _ _ _ Hwait).
  all: destruct (Hret proc profile eq_refl) as [[-> Hsame] | (dir & -> & Hne & Hfree & Hins)];
         [ congruence
         | rewrite Hfs; [|exact Hne|rewrite Hfs8, Hins; apply lookup_insert_eq];
           rewrite Hfs8, Hins; apply delete_insert_id, Hfree ].
Qed.

(** ** Every way out of a run *)





(** Two fatal paths at a glance.  First an interrupt while the browser
    runs, on a machine with Chrome installed and no handler for SIGINT:
    [KeyboardInterrupt] is raised in the wait, the inner [finally] stops
    the server and removes the profile directory, the outer [except]
    logs, and the outer [finally] removes the marker. *)
Example interrupted_run :
  let out := run_and_block env_interrupted "viewer" (Some lock) None false
               (state_of with_chrome) in
  fst out = Ret false
  /\ fs (snd out) !! lock = None
  /\ fs (snd out) !! profile_dir = None
  /\ In (CRmtree profile_dir) (calls (snd out))
  /\ server (snd out) = Some (mkServer 8080 "viewer" Exited false true false)
  /\ stdout (snd out)
     = [ "Starting HTTP server for directory: viewer";
         "VIEWER_URL=http://127.0.0.1:8080/timeline_viewer.html";
         "Server started at http://127.0.0.1:8080/timeline_viewer.html";
         "Launched browser: /usr/bin/google-chrome (pid=5151) profile=/tmp/viewer-profile-a1b2c3";
         "Waiting for browser process to exit...";
         "Stopping HTTP server...";
         "Interrupted by user." ].
Proof.
  vm_compute. repeat split. repeat (first [left; reflexivity | right]).
Qed.

(** Second, Scenario D: the preferred port is held by another process. *)
Example port_taken_run :
  let out := run_and_block env_taken "viewer" (Some lock) (Some 9000) false (state_of ∅) in
  fst out = Ret false
  /\ fs (snd out) !! lock = None
  /\ server (snd out) = None
  /\ calls (snd out) = [CExists lock; CWrite lock "4242"; CBind 9000;
                        CExists lock; CRemove lock]
  /\ stdout (snd out)
     = [ "Starting HTTP server for directory: viewer";
         "Error during execution: Preferred port 9000 unavailable" ].
Proof. vm_compute. repeat split. Qed.


(** ** A start that fails after the listener exists *)

Lemma find_free_port_from_raises env attempts :
  forall port s e s',
    find_free_port_from env port attempts s = (Raise e, s') ->
    exn_cls e = OverflowError.
Proof.
  induction attempts as [|n IH]; intros port s e s' H; cbn [find_free_port_from] in H.
  - inversion H.
  - unfold bind at 1 in H. unfold try_except, bind in H. rewrite probe_bind_eq in H.
    destruct ((port <? 0) || (65535 <? port)); cbn in H.
    + inversion H. reflexivity.
    + destruct (negb (port =? 0) && port_busy env port); cbn in H;
        [eapply IH, H | inversion H].
Qed.

(** The port step never fails with the startup timeout. *)
Lemma determine_port_raises env preferred s e s' :
  determine_port env preferred s = (Raise e, s') -> e <> startup_timeout.
Proof.
  unfold determine_port, find_free_port. intros H.
  destruct (truthy_int preferred).
  - unfold try_except in H.
    match type of H with
    | context [bind ?m ?k s] => destruct (bind m k s) as [[a|e'|] s1]
    end; try (inversion H; fail).
    destruct (is_Exception e') eqn:Ecls; inversion H; subst.
    + intros Heq. unfold startup_timeout in Heq. cbn in Heq. discriminate Heq.
    + intros ->. discriminate Ecls.
  - apply bind_inv in H as [(found & s1 & _ & H) | [(e' & Hloop & He) | (_ & He)]];
      [|inversion He; subst e'|discriminate He].
    + destruct found; inversion H.
      intros Heq. unfold startup_timeout in Heq. cbn in Heq. discriminate Heq.
    + apply find_free_port_from_raises in Hloop. intros ->. discriminate.
Qed.

(** When [start_server] fails with the startup timeout, the server it
    created is in the state, its loop running and its socket open. *)
Lemma start_server_timeout env serve_dir preferred s0 s :
  server s0 = None ->
  start_server env serve_dir preferred s0 = (Raise startup_timeout, s) ->
  exists port, server s = Some (serving port serve_dir).
Proof.
  intros Hnone Hrun.
  destruct (start_server_outcome _ _ _ _ _ _ Hnone Hrun)
    as [[Hno _] | [(_ & Heq & _) | (_ & Hserving)]];
    [exfalso | discriminate Heq | exact Hserving].
  unfold start_server in Hrun.
  apply bind_inv in Hrun as [(port & s1 & Hport & Hrest) | [(e & Hport & He) | (_ & He)]];
    [| inversion He; subst e; exact (determine_port_raises _ _ _ _ _ Hport eq_refl)
     | discriminate He].
  assert (Hs1 : server s1 = None).
  { rewrite <- Hnone. exact (steady_determine_port _ frame_same_server _ _ _ _ _ Hport). }
  unfold new_server in Hrest.
  apply bind_inv in Hrest as [([] & s2 & Hnew & Hrest) | [(e & Hnew & He) | (_ & He)]];
    [| |discriminate He].
  - mcbn_in Hnew.
    destruct (port_busy env port || listen_fails env); inversion Hnew; subst; clear Hnew.
    unfold thread_start, run, on_server in Hrest.
    destruct (thread_start_fails env); [cbn in Hrest; discriminate Hrest|].
    apply bind_inv in Hrest as [([] & s3 & Hthread & Hrest) | [(e & Hthread & _) | (Hthread & _)]];
      cbn in Hthread; inversion Hthread; subst; clear Hthread.
    rewrite (steady_after_thread_start env port _ _ _ Hrest) in Hno. discriminate Hno.
  - mcbn_in Hnew.
    destruct (port_busy env port || listen_fails env); inversion Hnew; subst.
    inversion He.
Qed.

(** C2, in the code.  Whenever [start_server] fails with the startup
    timeout in a run that holds the lock, [run_and_block] returns [False]
    and releases the lock, but the server that was started is never
    stopped: when the run returns, its accept loop is still running and
    its socket still open. *)
Theorem startup_timeout_leaves_server_running env serve_dir P preferred console s s1 s2 :
  P <> EmptyString ->
  server s = None ->
  acquire_lock env P s = (Ret true, s1) ->
  start_server env serve_dir preferred
    (add_stdout ("Starting HTTP server for directory: " +:+ serve_dir) s1)
  = (Raise startup_timeout, s2) ->
  exists s' port,
    run_and_block env serve_dir (Some P) preferred console s = (Ret false, s')
    /\ server s' = Some (serving port serve_dir)
    /\ calls s' = (calls s2 ++ [CExists P; CRemove P])%list
    /\ (remove_fails env P = false -> fs s' !! P = None).
Proof.
  intros HP Hnone Ha Hstart.
  destruct (acquire_lock_true _ _ _ _ Ha) as (Hfile & _ & Hsrv).
  destruct (start_server_timeout env serve_dir preferred
              (add_stdout ("Starting HTTP server for directory: " +:+ serve_dir) s1) s2)
    as [port Hserving]; [cbn; congruence | exact Hstart |].
  assert (Hfile2 : fs s2 !! P = Some (File (own_pid_text env))).
  { refine (steady_start_server _ (frame_keeps_file P (own_pid_text env)) env serve_dir
              preferred (keeps_file_ignores_server _ _) _ _ _ Hstart _).
    exact Hfile. }
  unfold run_and_block. rewrite (truthy_str_nonempty P HP).
  cbn [default from_option id].
  unfold bind at 1 2. rewrite Ha. cbn [negb ret].
  unfold run_body.
  unfold bind at 1. unfold try_finally, try_except2.
  unfold bind at 1. unfold log at 1, modify. unfold bind at 1.
  rewrite Hstart.
  cbn [is_KeyboardInterrupt is_Exception startup_timeout exn_cls exn_msg str_exn].
  unfold bind at 1. unfold log at 1, modify. cbn [ret when].
  rewrite (release_lock_file env P _ (own_pid_text env)) by exact Hfile2.
  exists (if remove_fails env P
          then add_stdout ("Warning: failed to remove lock file: " +:+ oserror_text env)
                 (add_call (CRemove P) (add_call (CExists P)
                    (add_stdout "Error during execution: Server failed to start within timeout" s2)))
          else set_fs (delete P (fs s2))
                 (add_call (CRemove P) (add_call (CExists P)
                    (add_stdout "Error during execution: Server failed to start within timeout" s2)))),
         port.
  split; [reflexivity|].
  destruct (remove_fails env P); cbn; (split; [exact Hserving|split]);
    try (now rewrite <- !app_assoc); intros Hrm; try discriminate.
  apply lookup_delete_eq.
Qed.

Lemma startup_timeout_leaves_server_running_witness :
  exists s' port,
    run_and_block env_timeout "viewer" (Some lock) (Some 9001) false (state_of ∅)
    = (Ret false, s')
    /\ server s' = Some (serving port "viewer")
    /\ calls s' = (calls (snd (start_server env_timeout "viewer" (Some 9001)
                                 (add_stdout "Starting HTTP server for directory: viewer"
                                    (snd (acquire_lock env_timeout lock (state_of ∅))))))
                   ++ [CExists lock; CRemove lock])%list
    /\ (remove_fails env_timeout lock = false -> fs s' !! lock = None).
Proof.
  apply (startup_timeout_leaves_server_running env_timeout "viewer" lock (Some 9001) false
           (state_of ∅) (snd (acquire_lock env_timeout lock (state_of ∅)))).
  - discriminate.
  - reflexivity.
  - vm_compute. reflexivity.
  - vm_compute. reflexivity.
Defined.

(** The same at a glance, on the machine whose server never answers the
    startup probes: the run fails and releases the lock; the server it
    started is still serving on its open socket. *)
Example startup_timeout_run :
  let out := run_and_block env_timeout "viewer" (Some lock) (Some 9001) false (state_of ∅) in
  fst out = Ret false
  /\ fs (snd out) !! lock = None
  /\ server (snd out) = Some (serving 9001 "viewer")
  /\ stdout (snd out)
     = [ "Starting HTTP server for directory: viewer";
         "Error during execution: Server failed to start within timeout" ].
Proof. vm_compute. repeat split. Qed.

(** ** A browser that cannot be spawned *)

Lemma first_existing_in paths :
  forall s exe s1, first_existing paths s = (Ret (Some exe), s1) -> In exe paths.
Proof.
  induction paths as [|p others IH]; intros s exe s1 H; cbn [first_existing] in H.
  - inversion H.
  - unfold os_path_exists in H. mcbn_in H.
    destruct (bool_decide (is_Some (fs s !! p))).
    + inversion H. left. reflexivity.
    + right. eapply IH, H.
Qed.

Lemma candidates_nonempty exe : In exe candidates -> truthy_str (Some exe) = true.
Proof.
  unfold candidates. cbn [In].
  intros H. repeat (destruct H as [<- | H]; [reflexivity|]). contradiction.
Qed.

(** Whenever a browser binary is found and spawning it raises, the launch
    hands back [(None, None)] without ever asking for the default
    browser, and the profile directory it made is gone again. *)
Lemma launch_spawn_failure env url console s exe s1 r s' :
  find_chrome_like s = (Ret (Some exe), s1) ->
  popen_result env = None ->
  launch_browser_in_new_terminal env url console s = (r, s') ->
  no_new_open s s'
  /\ (forall x, r = Ret x -> x = (None, None))
  /\ (rmtree_succeeds env = true -> fs s' = fs s).
Proof.
  intros Hfind Hspawn H. split; [|split].
  - unfold launch_browser_in_new_terminal in H. unfold bind at 1 in H.
    rewrite Hfind in H.
    rewrite (candidates_nonempty exe (first_existing_in _ _ _ _ Hfind)) in H.
    cbn [negb default from_option id] in H.
    eapply (frame_trans _ frame_no_new_open).
    + exact (steady_first_existing _ frame_no_new_open _ _ _ _ Hfind).
    + exact (steady_launch_found _ frame_no_new_open env url console exe
               no_new_open_allows_mkdir no_new_open_allows_rmdir _ _ _ H).
  - unfold launch_browser_in_new_terminal in H. unfold bind at 1 in H.
    rewrite Hfind in H.
    rewrite (candidates_nonempty exe (first_existing_in _ _ _ _ Hfind)) in H.
    cbn [negb default from_option id] in H.
    apply bind_inv in H as [(profile & s2 & _ & H) | [(e & _ & ->) | (_ & ->)]];
      [|discriminate|discriminate].
    unfold Popen in H. rewrite Hspawn in H.
    assert (Hh : (log ("Failed to launch browser executable: " +:+ oserror_text env) ;;
                  cleanup_profile env (Some profile) ;;
                  ret (None, None))
                   (add_call (CPopen [exe; "--app=" +:+ url; "--user-data-dir=" +:+ profile;
                                      "--no-first-run"; "--no-default-browser-check";
                                      "--disable-extensions"]
                                ((os_name env =? "nt")%string && console)) s2)
                 = (r, s')).
    { destruct ((os_name env =? "nt")%string && console); exact H. }
    clear H. intros x ->.
    apply bind_inv in Hh as [([] & s3 & _ & Hh) | [(e & _ & He) | (_ & He)]];
      try discriminate He.
    apply bind_inv in Hh as [([] & s4 & _ & Hh) | [(e & _ & He) | (_ & He)]];
      try discriminate He.
    inversion Hh. reflexivity.
  - intros Hok. destruct (launch_cases _ _ _ _ _ _ Hok H) as (Hnh & Hraise & Hret).
    destruct r as [[proc profile]|e|]; [|eauto|contradiction].
    destruct (Hret proc profile eq_refl) as [[_ Hfs] | (dir & -> & _)]; [exact Hfs|].
    exfalso.
    assert (Hshape : forall x, Ret (proc, Some dir) = Ret x -> x = (@None Z, @None string)).
    { unfold launch_browser_in_new_terminal in H. unfold bind at 1 in H.
      rewrite Hfind in H.
      rewrite (candidates_nonempty exe (first_existing_in _ _ _ _ Hfind)) in H.
      cbn [negb default from_option id] in H.
      apply bind_inv in H as [(profile & s2 & _ & H) | [(e & _ & He) | (_ & He)]];
        [|discriminate He|discriminate He].
      unfold Popen in H. rewrite Hspawn in H.
      intros x Hx.
      destruct ((os_name env =? "nt")%string && console); mcbn_in H;
        destruct (cleanup_profile env (Some profile) _) as [[[]|e|] s5];
        inversion H; subst; inversion Hx; reflexivity. }
    specialize (Hshape _ eq_refl). discriminate Hshape.
Qed.

(** C7, in the code.  On a machine with Chrome installed whose spawn
    fails, the run removes the profile directory it created and goes on
    to poll the health endpoint, but it never asks for the default
    browser: no browser is opened at all, and the run still ends as a
    success. *)
Theorem spawn_failure_opens_no_browser :
  let out := run_and_block env_nospawn "viewer" (Some lock) None false
               (state_of with_chrome) in
  fst out = Ret true
  /\ existsb opens_browser (calls (snd out)) = false
  /\ In (CUrlopen "http://127.0.0.1:8080/health") (calls (snd out))
  /\ fs (snd out) !! "/tmp/viewer-profile-a1b2c3" = None
  /\ stdout (snd out)
     = [ "Starting HTTP server for directory: viewer";
         "VIEWER_URL=http://127.0.0.1:8080/timeline_viewer.html";
         "Server started at http://127.0.0.1:8080/timeline_viewer.html";
         "Failed to launch browser executable: [Errno 13] Permission denied";
         "Fallback: polling /health until unreachable or timeout.";
         "Detected server unreachable; assuming browser/tab closed.";
         "Stopping HTTP server..." ].
Proof.
  vm_compute. repeat split. repeat (first [left; reflexivity | right]).
Qed.

(** What the sibling path does: with no browser binary on the machine,
    the launch asks for the default browser before the same polling. *)
Example no_binary_opens_default_browser :
  existsb opens_browser
    (calls (snd (run_and_block env_posix "viewer" (Some lock) None false (state_of ∅))))
  = true.
Proof. vm_compute. reflexivity. Qed.

(** * Further properties of the launcher *)

(** ** The port scan *)

Lemma add_calls_nil s : add_calls [] s = s.
Proof. destruct s. unfold add_calls. cbn. rewrite app_nil_r. reflexivity. Qed.

Lemma add_calls_cons c made s : add_calls made (add_call c s) = add_calls (c :: made) s.
Proof. unfold add_calls, add_call. cbn. rewrite <- app_assoc. reflexivity. Qed.

Lemma add_calls_inj made made' s : add_calls made s = add_calls made' s -> made = made'.
Proof.
  unfold add_calls. intros H. inversion H as [Hc]. eapply app_inv_head, Hc.
Qed.

Lemma binds_nil start count : count <= 0 -> binds start count = [].
Proof. intros. unfold binds. rewrite seqZ_nil by lia. reflexivity. Qed.

Lemma binds_cons start count :
  0 < count -> binds start count = CBind start :: binds (start + 1) (count - 1).
Proof.
  intros. unfold binds. rewrite seqZ_cons by lia. cbn.
  replace (Z.succ start) with (start + 1) by lia.
  replace (Z.pred count) with (count - 1) by lia. reflexivity.
Qed.

(** One round of the scan: a port out of range raises, a free port is
    returned, a busy port sends the scan on. *)
Lemma find_free_port_from_step env port fewer s :
  find_free_port_from env port (S fewer) s =
  if (port <? 0) || (65535 <? port) then (Raise port_overflow, add_call (CBind port) s)
  else if port_free env port then (Ret (Some port), add_call (CBind port) s)
  else find_free_port_from env (port + 1) fewer (add_call (CBind port) s).
Proof.
  cbn [find_free_port_from]. unfold bind at 1, try_except, bind at 1.
  rewrite probe_bind_eq. unfold port_free.
  destruct (Z.ltb_spec port 0); cbn [orb].
  - reflexivity.
  - destruct (Z.ltb_spec 65535 port); cbn [orb].
    + reflexivity.
    + destruct (Z.leb_spec 0 port); [|lia]. destruct (Z.leb_spec port 65535); [|lia].
      cbn [andb]. destruct (port =? 0); cbn [negb andb orb]; [reflexivity|].
      destruct (port_busy env port); reflexivity.
Qed.

(** The scan, outcome by outcome. *)
Lemma find_free_port_from_cases env attempts :
  forall port s,
    match find_free_port_from env port attempts s with
    | (Ret (Some p), s') =>
        0 <= port /\ port <= p < port + Z.of_nat attempts
        /\ port_free env p = true
        /\ (forall q, port <= q < p -> port_free env q = false)
        /\ s' = add_calls (binds port (p - port + 1)) s
    | (Ret None, s') =>
        (forall q, port <= q < port + Z.of_nat attempts ->
                   0 <= q <= 65535 /\ port_free env q = false)
        /\ s' = add_calls (binds port (Z.of_nat attempts)) s
    | (Raise e, s') =>
        e = port_overflow
        /\ exists q, port <= q < port + Z.of_nat attempts
                     /\ (q < 0 \/ 65535 < q)
                     /\ (forall q', port <= q' < q ->
                                     0 <= q' <= 65535 /\ port_free env q' = false)
                     /\ s' = add_calls (binds port (q - port + 1)) s
    | (Hang, _) => False
    end.
Proof.
  induction attempts as [|fewer IH]; intros port s.
  - cbn. split; [intros; lia|]. symmetry. apply add_calls_nil.
  - rewrite find_free_port_from_step.
    destruct (Z.ltb_spec port 0) as [Hneg|Hpos]; cbn [orb].
    { split; [reflexivity|]. exists port. repeat split; try lia.
      replace (port - port + 1) with 1 by lia. rewrite binds_cons, binds_nil by lia.
      reflexivity. }
    destruct (Z.ltb_spec 65535 port) as [Hbig|Hsmall]; cbn [orb].
    { split; [reflexivity|]. exists port. repeat split; try lia.
      replace (port - port + 1) with 1 by lia. rewrite binds_cons, binds_nil by lia.
      reflexivity. }
    destruct (port_free env port) eqn:Hfree.
    { repeat split; try lia; [exact Hfree|].
      replace (port - port + 1) with 1 by lia. rewrite binds_cons, binds_nil by lia.
      reflexivity. }
    specialize (IH (port + 1) (add_call (CBind port) s)).
    destruct (find_free_port_from env (port + 1) fewer (add_call (CBind port) s))
      as [[[p|]|e|] s'].
    + destruct IH as (H0 & Hp & Hpf & Hbefore & ->).
      repeat split; try lia; [exact Hpf| |].
      * intros q Hq. destruct (Z.eq_dec q port) as [->|]; [exact Hfree|].
        apply Hbefore. lia.
      * rewrite add_calls_cons. f_equal. rewrite (binds_cons port) by lia.
        do 2 f_equal. lia.
    + destruct IH as (Hall & ->). split.
      * intros q Hq. destruct (Z.eq_dec q port) as [->|]; [split; [lia|exact Hfree]|].
        apply Hall. lia.
      * rewrite add_calls_cons. f_equal. rewrite (binds_cons port) by lia.
        do 2 f_equal. lia.
    + destruct IH as (-> & q & Hq & Hout & Hbefore & ->). split; [reflexivity|].
      exists q. split; [lia|]. split; [exact Hout|]. split.
      * intros q' Hq'. destruct (Z.eq_dec q' port) as [->|]; [split; [lia|exact Hfree]|].
        apply Hbefore. lia.
      * rewrite add_calls_cons. f_equal. rewrite (binds_cons port) by lia.
        do 2 f_equal. lia.
    + exact IH.
Qed.

(** X1.  [find_free_port] returns [p] exactly when [p] is the first port
    of the range [start_port .. start_port + max_attempts - 1] that can be
    bound: every port before it was tried, in order, and found taken, and
    [p] is the last bind made.  Nothing but these binds happens. *)
Theorem find_free_port_first_free env start_port max_attempts p s s' :
  find_free_port env start_port max_attempts s = (Ret p, s')
  <-> (0 <= start_port
       /\ start_port <= p < start_port + max_attempts
       /\ port_free env p = true
       /\ (forall q, start_port <= q < p -> port_free env q = false)
       /\ s' = add_calls (binds start_port (p - start_port + 1)) s).
Proof.
  unfold find_free_port, bind.
  pose proof (find_free_port_from_cases env (Z.to_nat max_attempts) start_port s) as Hc.
  destruct (find_free_port_from env start_port (Z.to_nat max_attempts) s)
    as [[[p'|]|e|] s1].
  - destruct Hc as (H0 & Hp & Hfree & Hbefore & ->). unfold ret. split.
    + intros H. inversion H; subst p' s'. repeat split; try lia; assumption.
    + intros (_ & Hq & Hfree' & Hbefore' & ->).
      assert (p' = p) as ->.
      { destruct (Z.lt_trichotomy p' p) as [Hlt|[Heq|Hgt]]; [|exact Heq|].
        - rewrite Hbefore' in Hfree by lia. discriminate.
        - rewrite Hbefore in Hfree' by lia. discriminate. }
      reflexivity.
  - destruct Hc as (Hall & ->). unfold raise. split; [discriminate|].
    intros (_ & Hq & Hfree & _). destruct (Hall p) as [_ Hno]; [lia|].
    rewrite Hno in Hfree. discriminate.
  - destruct Hc as (-> & q & Hq & Hout & Hbefore & ->). split; [discriminate|].
    intros (H0 & Hp & Hfree & Hbefore' & _). exfalso.
    assert (Hp' : 0 <= p <= 65535).
    { unfold port_free in Hfree. apply andb_prop in Hfree as [Hfree _].
      apply andb_prop in Hfree as [? ?]. lia. }
    destruct (Hbefore p) as [_ Hno]; [lia|]. rewrite Hno in Hfree. discriminate.
  - destruct Hc.
Qed.

(** X2.  When every port of a range that lies within 0..65535 is taken,
    [find_free_port] has tried each of them once, in order, and raises
    [RuntimeError] naming the range; an empty range ([max_attempts <= 0])
    raises at once without a bind. *)
Theorem find_free_port_exhausted env start_port max_attempts s :
  0 <= start_port ->
  start_port + max_attempts <= 65536 ->
  (forall q, start_port <= q < start_port + max_attempts -> port_free env q = false) ->
  find_free_port env start_port max_attempts s
  = (Raise (no_free_port start_port max_attempts),
     add_calls (binds start_port max_attempts) s).
Proof.
  intros H0 Hend Hall. unfold find_free_port, bind.
  pose proof (find_free_port_from_cases env (Z.to_nat max_attempts) start_port s) as Hc.
  destruct (find_free_port_from env start_port (Z.to_nat max_attempts) s)
    as [[[p'|]|e|] s1].
  - destruct Hc as (_ & Hp & Hfree & _). rewrite Hall in Hfree by lia. discriminate.
  - destruct Hc as (_ & ->). unfold raise, no_free_port. do 2 f_equal.
    destruct (Z.le_gt_cases max_attempts 0).
    + rewrite !binds_nil by lia. reflexivity.
    + rewrite Z2Nat.id by lia. reflexivity.
  - destruct Hc as (_ & q & Hq & Hout & _). lia.
  - destruct Hc.
Qed.

Lemma find_free_port_exhausted_witness :
  find_free_port env_taken 9000 1 (state_of ∅)
  = (Raise (no_free_port 9000 1), add_calls (binds 9000 1) (state_of ∅)).
Proof.
  apply find_free_port_exhausted; [lia | lia |].
  intros q Hq. replace q with 9000 by lia. reflexivity.
Defined.

(** X3.  A scan that runs past port 65535 does not end in "no free
    port": when the ports up to 65535 are all taken and the range goes
    on, the bind to 65536 raises [OverflowError], which the scan does not
    catch. *)
Theorem find_free_port_past_last_port env start_port max_attempts s :
  0 <= start_port <= 65536 ->
  65536 < start_port + max_attempts ->
  (forall q, start_port <= q <= 65535 -> port_free env q = false) ->
  find_free_port env start_port max_attempts s
  = (Raise port_overflow,
     add_calls (binds start_port (65536 - start_port + 1)) s).
Proof.
  intros H0 Hend Hall. unfold find_free_port, bind.
  pose proof (find_free_port_from_cases env (Z.to_nat max_attempts) start_port s) as Hc.
  destruct (find_free_port_from env start_port (Z.to_nat max_attempts) s)
    as [[[p'|]|e|] s1].
  - destruct Hc as (_ & Hp & Hfree & _). exfalso.
    assert (Hp' : 0 <= p' <= 65535).
    { unfold port_free in Hfree. apply andb_prop in Hfree as [Hfree _].
      apply andb_prop in Hfree as [? ?]. lia. }
    rewrite Hall in Hfree by lia. discriminate.
  - destruct Hc as (Hin & _). destruct (Hin 65536); lia.
  - destruct Hc as (-> & q & Hq & Hout & Hbefore & ->).
    assert (q = 65536) as ->.
    { destruct (Z.lt_trichotomy q 65536) as [Hlt|[Heq|Hgt]]; [lia|exact Heq|].
      destruct (Hbefore 65536); lia. }
    reflexivity.
  - destruct Hc.
Qed.

Lemma find_free_port_past_last_port_witness :
  find_free_port env_last_port_taken 65535 2 (state_of ∅)
  = (Raise port_overflow, add_calls (binds 65535 (65536 - 65535 + 1)) (state_of ∅)).
Proof.
  apply find_free_port_past_last_port; [lia | lia |].
  intros q Hq. replace q with 65535 by lia. reflexivity.
Defined.

(** ** Server start *)

(** What the arrival of a signal does, outcome by outcome. *)
Lemma deliver_cases sig s r s' :
  deliver sig s = (r, s') ->
  match r with
  | Ret _ =>
      (sig = None /\ s' = s)
      \/ (exists signum, sig = Some signum /\ handled signum s = true
                         /\ signal_handler signum s = (Ret tt, s'))
  | Raise e => e = interrupt /\ s' = s /\ sig = Some SIGINT /\ handled SIGINT s = false
  | Hang => s' = s /\ exists signum, sig = Some signum /\ signum <> SIGINT
                                     /\ handled signum s = false
  end.
Proof.
  unfold deliver. destruct sig as [signum|].
  - unfold bind, get. destruct (handled signum s) eqn:Hh.
    + intros H. cbn in H. inversion H; subst. right. exists signum. repeat split. exact Hh.
    + destruct (Z.eqb_spec signum SIGINT) as [->|Hne]; intros H; inversion H; subst.
      * repeat split. exact Hh.
      * split; [reflexivity|]. exists signum. repeat split; assumption.
  - intros H. inversion H; subst. left. split; reflexivity.
Qed.

(** Whatever a signal does, it makes no outside call. *)
Lemma deliver_calls sig s r s' : deliver sig s = (r, s') -> calls s' = calls s.
Proof.
  intros H. apply deliver_cases in H. destruct r as [[]|e|].
  - destruct H as [[_ ->] | (signum & _ & _ & H)]; [reflexivity|].
    inversion H. reflexivity.
  - destruct H as (_ & -> & _). reflexivity.
  - destruct H as (-> & _). reflexivity.
Qed.

(** A delivery that raises raises [KeyboardInterrupt]. *)
Lemma deliver_raises sig s e s' : deliver sig s = (Raise e, s') -> e = interrupt.
Proof. intros H. apply deliver_cases in H as (-> & _). reflexivity. Qed.

(** The wait for the first connection: it ends by a connection made while
    no shutdown was requested, or without one, or by an unhandled
    signal. *)
Lemma startup_wait_cases env port ticks :
  forall s r s',
    startup_wait env port ticks s = (r, s') ->
    (r = Ret true /\ _shutdown_requested s' = false
     /\ exists before, calls s' = (before ++ [CConnect port])%list)
    \/ r = Ret false
    \/ r = Raise interrupt
    \/ r = Hang.
Proof.
  induction ticks as [|t later IH]; intros s r s' H.
  - cbn in H. inversion H. right. left. reflexivity.
  - cbn [startup_wait] in H.
    apply bind_inv in H as [([] & s1 & Hsig & H) | [(e & Hsig & ->) | (Hsig & ->)]].
    + mcbn_in H. destruct (_shutdown_requested s1) eqn:Hflag.
      * inversion H. right. left. reflexivity.
      * unfold create_connection in H. mcbn_in H. destruct (tick_ok t).
        -- inversion H; subst. left. split; [reflexivity|]. split; [exact Hflag|].
           exists (calls s1). reflexivity.
        -- eapply IH, H.
    + right. right. left. rewrite (deliver_raises _ _ _ _ Hsig). reflexivity.
    + right. right. right. reflexivity.
Qed.

Lemma find_free_port_returns env start_port max_attempts s port s' :
  find_free_port env start_port max_attempts s = (Ret port, s') ->
  start_port <= port < start_port + max_attempts /\ port_free env port = true.
Proof.
  unfold find_free_port, bind.
  pose proof (find_free_port_from_cases env (Z.to_nat max_attempts) start_port s) as Hc.
  destruct (find_free_port_from env start_port (Z.to_nat max_attempts) s)
    as [[[p'|]|e|] s1]; intros H; inversion H; subst.
  destruct Hc as (_ & Hp & Hfree & _). split; [lia|exact Hfree].
Qed.

Lemma determine_port_returns env preferred s port s' :
  determine_port env preferred s = (Ret port, s') ->
  port_free env port = true
  /\ (if truthy_int preferred then preferred = Some port
      else DEFAULT_PORT <= port < DEFAULT_PORT + PORT_SEARCH_RANGE).
Proof.
  intros H. destruct (truthy_int preferred) eqn:Ht.
  - destruct preferred as [P|]; [|discriminate]. cbn in Ht.
    destruct (Z.eqb_spec P 0); [discriminate|].
    rewrite determine_port_with_preference in H by assumption.
    destruct (port_free env P) eqn:Hfree; inversion H; subst. split; [exact Hfree|reflexivity].
  - unfold determine_port in H. rewrite Ht in H.
    apply find_free_port_returns in H as [Hp Hfree]. split; [exact Hfree|exact Hp].
Qed.

Lemma find_free_port_outcome env start_port max_attempts s r s' :
  find_free_port env start_port max_attempts s = (r, s') ->
  r <> Hang /\ forall e, r = Raise e -> is_Exception e = true.
Proof.
  unfold find_free_port, bind.
  pose proof (find_free_port_from_cases env (Z.to_nat max_attempts) start_port s) as Hc.
  destruct (find_free_port_from env start_port (Z.to_nat max_attempts) s)
    as [[[p'|]|e'|] s1]; intros H; inversion H; subst.
  - split; [discriminate|]. intros e He. discriminate.
  - split; [discriminate|]. intros e He. inversion He. reflexivity.
  - destruct Hc as (-> & _). split; [discriminate|].
    intros e He. inversion He. reflexivity.
  - destruct Hc.
Qed.

Lemma determine_port_outcome env preferred s r s' :
  determine_port env preferred s = (r, s') ->
  r <> Hang /\ forall e, r = Raise e -> is_Exception e = true.
Proof.
  unfold determine_port. destruct (truthy_int preferred).
  - unfold try_except.
    destruct (find_free_port env (default 0 preferred) 1 s) as [[a|e'|] s1] eqn:E;
      apply find_free_port_outcome in E as [Hh He].
    + intros H. inversion H. split; [discriminate|]. intros e ?. discriminate.
    + rewrite (He e' eq_refl). intros H. inversion H. split; [discriminate|].
      intros e Heq. inversion Heq. reflexivity.
    + contradiction.
  - apply find_free_port_outcome.
Qed.

(** The steps of [start_server] up to the wait: the port step, the bind
    and the launch of the accept loop. *)
Lemma start_server_inv env serve_dir preferred s r s' :
  start_server env serve_dir preferred s = (r, s') ->
  (exists port s1 s0 rw,
      determine_port env preferred s = (Ret port, s1)
      /\ port_busy env port || listen_fails env = false
      /\ thread_start_fails env = false
      /\ startup_wait env port (startup_ticks env) s0 = (rw, s')
      /\ server s' = Some (serving port serve_dir)
      /\ r = match rw with
             | Ret true => Ret (tt, tt, port)
             | Ret false => if _shutdown_requested s' then Raise startup_interrupted
                            else Raise startup_timeout
             | Raise e => Raise e
             | Hang => Hang
             end)
  \/ (thread_start_fails env = true
      /\ r = Raise (Exn RuntimeError "can't start new thread")
      /\ fs s' = fs s
      /\ exists port, server s' = Some (mkServer port serve_dir NotStarted false false true))
  \/ (server s' = server s
      /\ exists e, r = Raise e /\ is_Exception e = true /\ e <> startup_timeout).
Proof.
  intros Hrun.
  assert (Hfs : fs s' = fs s)
    by exact (steady_start_server _ frame_same_fs _ _ _ same_fs_ignores_server _ _ _ Hrun).
  unfold start_server in Hrun.
  apply bind_inv in Hrun as [(port & s1 & Hport & Hrest) | [(e & Hport & ->) | (Hport & ->)]].
  - assert (Hs1 : server s1 = server s)
      by exact (steady_determine_port _ frame_same_server _ _ _ _ _ Hport).
    unfold new_server in Hrest.
    apply bind_inv in Hrest as [([] & s2 & Hnew & Hrest) | [(e & Hnew & ->) | (Hnew & ->)]].
    + mcbn_in Hnew.
      destruct (port_busy env port || listen_fails env) eqn:Hbusy;
        inversion Hnew; subst; clear Hnew.
      unfold thread_start, run, on_server in Hrest.
      destruct (thread_start_fails env) eqn:Hthread_ok.
      { right. left. cbn in Hrest. inversion Hrest; subst.
        split; [reflexivity|]. split; [reflexivity|]. split; [exact Hfs|].
        exists port. reflexivity. }
      apply bind_inv in Hrest
        as [([] & s3 & Hthread & Hrest) | [(e & Hthread & ->) | (Hthread & ->)]];
        cbn in Hthread; inversion Hthread; subst; clear Hthread.
      left.
      apply bind_inv in Hrest
        as [(connected & s4 & Hwait & Hrest) | [(e & Hwait & ->) | (Hwait & ->)]].
      * assert (Hsrv : server s4 = Some (serving port serve_dir)).
        { rewrite (steady_startup_wait _ frame_same_server _ _ _ _ _ _ Hwait). reflexivity. }
        destruct connected; mcbn_in Hrest.
        -- inversion Hrest; subst. eexists port, s1, _, (Ret true).
           repeat split; try eassumption.
        -- assert (Hs' : s' = s4)
             by (destruct (_shutdown_requested s4); inversion Hrest; reflexivity).
           subst s4. eexists port, s1, _, (Ret false).
           split; [exact Hport|]. split; [exact Hbusy|]. split; [reflexivity|].
           split; [exact Hwait|]. split; [exact Hsrv|].
           destruct (_shutdown_requested s'); inversion Hrest; reflexivity.
      * eexists port, s1, _, (Raise e).
        split; [exact Hport|]. split; [exact Hbusy|]. split; [reflexivity|].
        split; [exact Hwait|]. split; [|reflexivity].
        rewrite (steady_startup_wait _ frame_same_server _ _ _ _ _ _ Hwait). reflexivity.
      * eexists port, s1, _, Hang.
        split; [exact Hport|]. split; [exact Hbusy|]. split; [reflexivity|].
        split; [exact Hwait|]. split; [|reflexivity].
        rewrite (steady_startup_wait _ frame_same_server _ _ _ _ _ _ Hwait). reflexivity.
    + right. right. mcbn_in Hnew.
      destruct (port_busy env port || listen_fails env); inversion Hnew; subst.
      split; [exact Hs1|]. eexists. split; [reflexivity|]. split; [reflexivity|discriminate].
    + exfalso. mcbn_in Hnew.
      destruct (port_busy env port || listen_fails env); inversion Hnew.
  - right. right. split.
    + exact (steady_determine_port _ frame_same_server _ _ _ _ _ Hport).
    + exists e. split; [reflexivity|]. split.
      * apply determine_port_outcome in Hport as [_ He]. apply He. reflexivity.
      * eapply determine_port_raises, Hport.
  - exfalso. apply determine_port_outcome in Hport as [Hh _]. contradiction.
Qed.

Lemma start_server_value env serve_dir preferred s port s' :
  start_server env serve_dir preferred s = (Ret (tt, tt, port), s') ->
  server s' = Some (serving port serve_dir) /\ _shutdown_requested s' = false
  /\ port_free env port = true.
Proof.
  intros Hrun.
  apply start_server_inv in Hrun
    as [(p & s1 & s0 & rw & Hport & Hbusy & Hthread & Hwait & Hsrv & Hr)
       | [(_ & He & _) | (_ & e & He & _)]]; [|discriminate..].
  apply startup_wait_cases in Hwait as [(-> & Hflag & _) | [-> | [-> | ->]]].
  - inversion Hr; subst p. apply determine_port_returns in Hport as [Hfree _].
    repeat split; assumption.
  - destruct (_shutdown_requested s'); discriminate.
  - discriminate.
  - discriminate.
Qed.

(** X4.  When [start_server] returns a port, a server for [serve_dir] is
    accepting connections on it: the port could be bound, it is the
    preferred port when one was asked for (and the first free one from
    [DEFAULT_PORT] otherwise), the last thing done was a successful
    connection to it, and no shutdown had been requested by then. *)
Theorem start_server_returns env serve_dir preferred s port s' :
  start_server env serve_dir preferred s = (Ret (tt, tt, port), s') ->
  server s' = Some (serving port serve_dir)
  /\ port_free env port = true
  /\ (if truthy_int preferred then preferred = Some port
      else DEFAULT_PORT <= port < DEFAULT_PORT + PORT_SEARCH_RANGE)
  /\ _shutdown_requested s' = false
  /\ fs s' = fs s
  /\ exists before, calls s' = (before ++ [CConnect port])%list.
Proof.
  intros Hrun.
  assert (Hfs : fs s' = fs s).
  { exact (steady_start_server _ frame_same_fs _ _ _ same_fs_ignores_server _ _ _ Hrun). }
  apply start_server_inv in Hrun
    as [(p & s1 & s0 & rw & Hport & Hbusy & Hthread & Hwait & Hsrv & Hr)
       | [(_ & He & _) | (_ & e & He & _)]]; [|discriminate..].
  apply startup_wait_cases in Hwait as [(-> & Hflag & Hcalls) | [-> | [-> | ->]]].
  - inversion Hr; subst p. clear Hr.
    apply determine_port_returns in Hport as [Hfree Hpref].
    repeat split; assumption.
  - destruct (_shutdown_requested s'); discriminate.
  - discriminate.
  - discriminate.
Qed.

Lemma start_server_returns_witness :
  let s' := snd (start_server env_taken "viewer" None (state_of ∅)) in
  server s' = Some (serving 8080 "viewer")
  /\ port_free env_taken 8080 = true
  /\ (if truthy_int None then None = Some 8080
      else DEFAULT_PORT <= 8080 < DEFAULT_PORT + PORT_SEARCH_RANGE)
  /\ _shutdown_requested s' = false
  /\ fs s' = fs (state_of ∅)
  /\ exists before, calls s' = (before ++ [CConnect 8080])%list.
Proof.
  apply (start_server_returns env_taken "viewer" None (state_of ∅) 8080).
  reflexivity.
Defined.

(** X5.  The ways [start_server] fails.  Either nothing was started (the
    port step or the bind raised) and no server object exists; or the
    thread could not be started, and the server object is left as it was
    constructed, bound and never launched; or the server is already
    serving and is left so.  In the last case the failure is
    [KeyboardInterrupt], when a shutdown was requested during the wait or
    an unhandled SIGINT arrived there, and the startup timeout
    otherwise. *)
Theorem start_server_failure env serve_dir preferred s e s' :
  server s = None ->
  start_server env serve_dir preferred s = (Raise e, s') ->
  (server s' = None /\ is_Exception e = true /\ e <> startup_timeout)
  \/ (exists port,
        server s' = Some (mkServer port serve_dir NotStarted false false true)
        /\ thread_start_fails env = true
        /\ e = Exn RuntimeError "can't start new thread")
  \/ (exists port,
        server s' = Some (serving port serve_dir)
        /\ thread_start_fails env = false
        /\ (e = interrupt
            \/ e = (if _shutdown_requested s' then startup_interrupted
                    else startup_timeout))).
Proof.
  intros Hnone Hrun.
  apply start_server_inv in Hrun
    as [(p & s1 & s0 & rw & Hport & Hbusy & Hthread & Hwait & Hsrv & Hr)
       | [(Hthread & He & _ & port & Hsrv) | (Hsame & e' & He & Hexc & Hne)]].
  - right. right. exists p. split; [exact Hsrv|]. split; [exact Hthread|].
    apply startup_wait_cases in Hwait as [(-> & _) | [-> | [-> | ->]]].
    + discriminate.
    + right. destruct (_shutdown_requested s'); inversion Hr; reflexivity.
    + left. inversion Hr. reflexivity.
    + discriminate.
  - right. left. exists port. inversion He. repeat split; assumption.
  - left. inversion He; subst e'. rewrite Hsame. repeat split; assumption.
Qed.

Lemma start_server_failure_witness :
  let out := start_server env_no_thread "viewer" None (state_of ∅) in
  fst out = Raise (Exn RuntimeError "can't start new thread")
  /\ server (snd out) = Some (mkServer 8080 "viewer" NotStarted false false true).
Proof.
  destruct (start_server_failure env_no_thread "viewer" None (state_of ∅)
              (Exn RuntimeError "can't start new thread")
              (snd (start_server env_no_thread "viewer" None (state_of ∅))) eq_refl eq_refl)
    as [(Hnone & _) | [(port & Hsrv & _) | (port & _ & Hthread & _)]].
  - discriminate Hnone.
  - split; [reflexivity|]. rewrite Hsrv. vm_compute in Hsrv. inversion Hsrv. reflexivity.
  - discriminate Hthread.
Defined.

(** ** Profile cleanup and browser launch *)

(** Two states with the same components are the same state. *)
Lemma state_eq (s1 s2 : State) :
  fs s1 = fs s2 -> server s1 = server s2 ->
  _shutdown_requested s1 = _shutdown_requested s2 ->
  stdout s1 = stdout s2 -> calls s1 = calls s2 -> handlers s1 = handlers s2 ->
  s1 = s2.
Proof. destruct s1, s2. cbn. intros. subst. reflexivity. Qed.

Ltac run_cleanup Hdir :=
  repeat (first [ rewrite Hdir
                | progress mcbn
                | progress cbn [Nat.ltb Nat.leb Nat.sub PROFILE_CLEANUP_RETRIES] ]).

(** [cleanup_profile], case by case: the path is not a directory, or one
    of the three removals gets through, or none does. *)
Lemma cleanup_profile_cases env profile s :
  exists s',
    cleanup_profile env profile s = (Ret tt, s')
    /\ server s' = server s
    /\ (forall d, profile <> Some d -> fs s' !! d = fs s !! d)
    /\ (forall dir, profile = Some dir ->
          (fs s !! dir <> Some Dir -> fs s' = fs s)
          /\ (dir <> EmptyString -> rmtree_succeeds env = true ->
              fs s' !! dir <> Some Dir)).
Proof.
  unfold cleanup_profile. destruct (truthy_str profile) eqn:Ht; cbn [negb].
  2: { exists s. split; [reflexivity|]. split; [reflexivity|]. split; [reflexivity|].
       intros dir ->. split; [reflexivity|].
       intros Hne. destruct dir; [contradiction|discriminate]. }
  destruct profile as [dir|]; [|discriminate]. cbn [default from_option id].
  unfold PROFILE_CLEANUP_RETRIES, rmtree_succeeds.
  cbn [cleanup_attempts]. unfold os_path_isdir, shutil_rmtree.
  assert (Hother : forall d : string, Some dir <> Some d -> d <> dir) by congruence.
  destruct (fs s !! dir) as [[content|]|] eqn:Hdir.
  - run_cleanup Hdir. eexists. split; [reflexivity|]. split; [reflexivity|].
    split; [reflexivity|]. intros d Hd. inversion Hd; subst d.
    split; [reflexivity|]. cbn. rewrite Hdir. discriminate.
  - run_cleanup Hdir.
    destruct (rmtree_fails env 0); run_cleanup Hdir.
    2: { eexists. split; [reflexivity|]. split; [reflexivity|]. cbn. split.
         - intros d Hd. apply lookup_delete_ne. intros ->. contradiction.
         - intros d Hd. inversion Hd; subst d. split; [contradiction|].
           rewrite lookup_delete_eq. discriminate. }
    destruct (rmtree_fails env 1); run_cleanup Hdir.
    2: { eexists. split; [reflexivity|]. split; [reflexivity|]. cbn. split.
         - intros d Hd. apply lookup_delete_ne. intros ->. contradiction.
         - intros d Hd. inversion Hd; subst d. split; [contradiction|].
           rewrite lookup_delete_eq. discriminate. }
    destruct (rmtree_fails env 2); run_cleanup Hdir.
    2: { eexists. split; [reflexivity|]. split; [reflexivity|]. cbn. split.
         - intros d Hd. apply lookup_delete_ne. intros ->. contradiction.
         - intros d Hd. inversion Hd; subst d. split; [contradiction|].
           rewrite lookup_delete_eq. discriminate. }
    eexists. split; [reflexivity|]. split; [reflexivity|]. cbn. split; [reflexivity|].
    intros d Hd. inversion Hd; subst d. split; [contradiction|]. discriminate.
  - run_cleanup Hdir. eexists. split; [reflexivity|]. split; [reflexivity|].
    split; [reflexivity|]. intros d Hd. inversion Hd; subst d.
    split; [reflexivity|]. cbn. rewrite Hdir. discriminate.
Qed.

(** X6.  [cleanup_profile] always returns: no failure of the removal gets
    out of it.  It leaves the server and every other path alone; a path
    that is not a directory is left as it is; and when one of the three
    attempts gets through, no directory is left at the profile path. *)
Theorem cleanup_profile_returns env profile s :
  exists s',
    cleanup_profile env profile s = (Ret tt, s')
    /\ server s' = server s
    /\ (forall d, profile <> Some d -> fs s' !! d = fs s !! d)
    /\ (forall dir, profile = Some dir ->
          (fs s !! dir <> Some Dir -> fs s' = fs s)
          /\ (dir <> EmptyString -> rmtree_succeeds env = true ->
              fs s' !! dir <> Some Dir)).
Proof.
  destruct (cleanup_profile_cases env profile s) as (s' & Hrun & Hsrv & Hother & Hdir).
  exists s'. split; [exact Hrun|]. split; [exact Hsrv|]. split; [exact Hother|].
  intros dir Hp. destruct (Hdir dir Hp) as [Hkept Hgone]. split; assumption.
Qed.

(** X7.  When all three removals fail, [cleanup_profile] has tried three
    times, has waited twice (after the first and the second failure, not
    after the last), leaves the directory, and logs one warning. *)
Theorem cleanup_profile_gives_up env dir s :
  dir <> EmptyString ->
  fs s !! dir = Some Dir ->
  rmtree_succeeds env = false ->
  cleanup_profile env (Some dir) s
  = (Ret tt,
     add_stdout ("Warning: could not remove profile directory " +:+ dir)
       (add_calls [CIsdir dir; CRmtree dir; CSleep 200;
                   CIsdir dir; CRmtree dir; CSleep 200;
                   CIsdir dir; CRmtree dir] s)).
Proof.
  intros Hne Hdir Hfail. unfold cleanup_profile.
  rewrite (truthy_str_nonempty dir Hne). cbn [negb default from_option id].
  unfold PROFILE_CLEANUP_RETRIES, rmtree_succeeds in *.
  cbn [cleanup_attempts]. unfold os_path_isdir, shutil_rmtree.
  run_cleanup Hdir.
  destruct (rmtree_fails env 0); [|discriminate Hfail]. run_cleanup Hdir.
  destruct (rmtree_fails env 1); [|discriminate Hfail]. run_cleanup Hdir.
  destruct (rmtree_fails env 2); [|discriminate Hfail]. run_cleanup Hdir.
  f_equal. apply state_eq; cbn [fs server _shutdown_requested stdout calls handlers
                                add_calls add_stdout add_call set_fs];
    try reflexivity.
  rewrite <- !app_assoc. reflexivity.
Qed.

Lemma cleanup_profile_gives_up_witness :
  cleanup_profile env_undeletable (Some profile_dir) (state_of with_profile)
  = (Ret tt,
     add_stdout ("Warning: could not remove profile directory " +:+ profile_dir)
       (add_calls [CIsdir profile_dir; CRmtree profile_dir; CSleep 200;
                   CIsdir profile_dir; CRmtree profile_dir; CSleep 200;
                   CIsdir profile_dir; CRmtree profile_dir] (state_of with_profile))).
Proof.
  apply cleanup_profile_gives_up.
  - discriminate.
  - reflexivity.
  - reflexivity.
Defined.

Lemma first_existing_none paths :
  forall s,
    (forall p, In p paths -> fs s !! p = None) ->
    first_existing paths s = (Ret None, add_calls (map CExists paths) s).
Proof.
  induction paths as [|p others IH]; intros s Hnone; cbn [first_existing map].
  - rewrite add_calls_nil. reflexivity.
  - unfold os_path_exists. mcbn. rewrite (Hnone p) by (left; reflexivity).
    rewrite bool_decide_false by (intros [x Hx]; discriminate).
    rewrite IH by (intros q Hq; apply Hnone; right; exact Hq).
    rewrite add_calls_cons. reflexivity.
Qed.

(** X8.  With none of the known browser binaries installed,
    [launch_browser_in_new_terminal] looks for each of them once, opens
    the URL in the default browser, and returns no process and no
    profile, also when that open fails: no directory is created and
    nothing is spawned. *)
Theorem launch_without_binary env url console s :
  (forall p, In p candidates -> fs s !! p = None) ->
  exists s',
    launch_browser_in_new_terminal env url console s = (Ret (None, None), s')
    /\ calls s' = (calls s ++ map CExists candidates ++ [CWebbrowserOpen url])%list
    /\ fs s' = fs s
    /\ stdout s'
       = (stdout s
          ++ [if webbrowser_fails env
              then "Fallback open failed: " +:+ oserror_text env
              else "Opened in system default browser (fallback)."])%list.
Proof.
  intros Hnone. unfold launch_browser_in_new_terminal, find_chrome_like.
  unfold bind at 1. rewrite (first_existing_none _ _ Hnone).
  cbn [truthy_str negb]. unfold webbrowser_open. mcbn.
  destruct (webbrowser_fails env); mcbn;
    (eexists; split; [reflexivity|]; cbn; split; [|split; reflexivity]);
    rewrite <- app_assoc; reflexivity.
Qed.

Lemma launch_without_binary_witness :
  exists s',
    launch_browser_in_new_terminal env_posix "http://127.0.0.1:8080/timeline_viewer.html"
      false (state_of ∅)
    = (Ret (None, None), s')
    /\ calls s' = (calls (state_of ∅) ++ map CExists candidates
                   ++ [CWebbrowserOpen "http://127.0.0.1:8080/timeline_viewer.html"])%list
    /\ fs s' = fs (state_of ∅)
    /\ stdout s'
       = (stdout (state_of ∅)
          ++ [if webbrowser_fails env_posix
              then "Fallback open failed: " +:+ oserror_text env_posix
              else "Opened in system default browser (fallback)."])%list.
Proof.
  apply launch_without_binary. intros p Hp. apply lookup_empty.
Defined.

Lemma first_existing_found paths :
  forall s exe s',
    first_existing paths s = (Ret (Some exe), s') ->
    In exe paths /\ is_Some (fs s !! exe)
    /\ exists k, s' = add_calls (map CExists (firstn k paths)) s.
Proof.
  induction paths as [|p others IH]; intros s exe s'; cbn [first_existing].
  - intros H. inversion H.
  - unfold os_path_exists. mcbn.
    destruct (bool_decide (is_Some (fs s !! p))) eqn:Hp.
    + intros H. inversion H; subst. split; [left; reflexivity|].
      split; [apply bool_decide_eq_true in Hp; exact Hp|].
      exists 1%nat. reflexivity.
    + intros H. apply IH in H as (Hin & Hex & k & ->).
      split; [right; exact Hin|]. split; [exact Hex|].
      exists (S k). cbn [firstn map]. rewrite add_calls_cons. reflexivity.
Qed.

(** X9.  What [launch_browser_in_new_terminal] returns is all or
    nothing: a process together with its profile directory, or neither.
    A process means that one of the known binaries exists, that a fresh
    profile directory was made for it, and that the binary was spawned,
    as the last step, in app mode on the URL with that directory as its
    user data directory; a new console is asked for on Windows only. *)
Theorem launch_all_or_nothing env url console s proc profile s' :
  launch_browser_in_new_terminal env url console s = (Ret (proc, profile), s') ->
  match proc with
  | None => profile = None
  | Some pid =>
      exists exe dir before,
        profile = Some dir
        /\ In exe candidates /\ is_Some (fs s !! exe)
        /\ fs s !! dir = None
        /\ fs s' = <[dir := Dir]> (fs s)
        /\ popen_result env = Some pid
        /\ calls s' = (before ++ [CMkdtemp "viewer-profile-";
                                  CPopen (browser_command exe url dir)
                                         ((os_name env =? "nt")%string && console)])%list
  end.
Proof.
  intros H. unfold launch_browser_in_new_terminal in H.
  apply bind_inv in H as [(exe & s1 & Hfind & H) | [(e & Hfind & Hr) | (Hfind & Hr)]];
    [|discriminate Hr|discriminate Hr].
  destruct exe as [exe|].
  2: { cbn [truthy_str negb] in H. unfold webbrowser_open in H. mcbn_in H.
       destruct (webbrowser_fails env); inversion H; reflexivity. }
  unfold find_chrome_like in Hfind.
  apply first_existing_found in Hfind as (Hin & Hex & k & ->).
  rewrite (candidates_nonempty exe Hin) in H. cbn [negb default from_option id] in H.
  unfold mkdtemp in H. mcbn_in H.
  destruct (mkdtemp_suffix env) as [suffix|]; mcbn_in H; [|discriminate H].
  set (dir := gettempdir env +:+ "/" +:+ "viewer-profile-" +:+ suffix) in *.
  change (fs (add_calls (map CExists (take k candidates)) s)) with (fs s) in H.
  destruct (fs s !! dir) as [n|] eqn:Edir; mcbn_in H; [discriminate H|].
  unfold Popen in H. mcbn_in H.
  destruct (popen_result env) as [pid|] eqn:Hpopen.
  - assert (Hres : proc = Some pid /\ profile = Some dir
                   /\ fs s' = <[dir := Dir]> (fs s)
                   /\ calls s' = ((calls s ++ map CExists (firstn k candidates))
                                  ++ [CMkdtemp "viewer-profile-";
                                      CPopen (browser_command exe url dir)
                                        ((os_name env =? "nt")%string && console)])%list).
    { destruct ((os_name env =? "nt")%string && console); mcbn_in H;
        inversion H; subst; cbn; rewrite <- !app_assoc; repeat split; reflexivity. }
    destruct Hres as (-> & -> & Hfs & Hcalls).
    exists exe, dir, (calls s ++ map CExists (firstn k candidates))%list.
    repeat split; assumption.
  - assert (Hres : proc = None /\ profile = None).
    { destruct ((os_name env =? "nt")%string && console); mcbn_in H;
        match type of H with
        | context [cleanup_profile env (Some dir) ?st] =>
            destruct (cleanup_profile_cases env (Some dir) st) as (st' & Hc & _);
            rewrite Hc in H
        end; inversion H; split; reflexivity. }
    destruct Hres as [-> ->]. reflexivity.
Qed.

Lemma launch_all_or_nothing_witness :
  let url := "http://127.0.0.1:8080/timeline_viewer.html" in
  let s' := snd (launch_browser_in_new_terminal env_posix url false (state_of with_chrome)) in
  exists exe dir before,
    Some profile_dir = Some dir
    /\ In exe candidates /\ is_Some (fs (state_of with_chrome) !! exe)
    /\ fs (state_of with_chrome) !! dir = None
    /\ fs s' = <[dir := Dir]> (fs (state_of with_chrome))
    /\ popen_result env_posix = Some 5151
    /\ calls s' = (before ++ [CMkdtemp "viewer-profile-";
                              CPopen (browser_command exe url dir)
                                     ((os_name env_posix =? "nt")%string && false)])%list.
Proof.
  intros url s'.
  assert (Hrun : launch_browser_in_new_terminal env_posix url false (state_of with_chrome)
                 = (Ret (Some 5151, Some profile_dir), s'))
    by (vm_compute; reflexivity).
  exact (launch_all_or_nothing env_posix url false (state_of with_chrome)
           (Some 5151) (Some profile_dir) s' Hrun).
Defined.

(** ** The instance lock, continued *)

(** The inspection of a marker never raises: it ends in a refusal or
    falls through to the write. *)
Lemma inspect_marker_returns env P s :
  exists early s', inspect_marker env P s = (Ret early, s').
Proof.
  unfold inspect_marker, read_text, int_, os_remove. mcbn.
  destruct (fs s !! P) as [[content|]|] eqn:Hfile; mcbn.
  - destruct (read_fails env P); mcbn.
    + rewrite Hfile. destruct (remove_fails env P); mcbn; eauto.
    + destruct (int_of_str (strip content)) as [pid|]; mcbn.
      * destruct (truthy_int (Some pid)); [|eauto].
        rewrite liveness_check_eq. mcbn.
        destruct (pid_alive env pid); mcbn; [eauto|].
        rewrite Hfile. destruct (remove_fails env P); mcbn; eauto.
      * rewrite Hfile. destruct (remove_fails env P); mcbn; eauto.
  - rewrite Hfile. mcbn. eauto.
  - rewrite Hfile. mcbn. eauto.
Qed.

Lemma write_marker_returns env P s :
  exists b s', write_marker env P s = (Ret b, s').
Proof.
  unfold write_marker, write_text. mcbn.
  destruct (fs s !! P) as [[content|]|]; mcbn;
    try destruct (open_fails env P); mcbn;
    try destruct (write_fails env P); mcbn; eauto.
Qed.

Lemma acquire_lock_total env P s :
  exists b s', acquire_lock env P s = (Ret b, s').
Proof.
  unfold acquire_lock, os_path_exists. mcbn.
  destruct (bool_decide (is_Some (fs s !! P))).
  - destruct (inspect_marker_returns env P (add_call (CExists P) s)) as (early & s1 & ->).
    destruct early as [b|]; [eauto|]. apply write_marker_returns.
  - apply write_marker_returns.
Qed.

(** X10.  [acquire_lock] always answers: whatever the marker holds and
    whatever the file system refuses, it returns [True] or [False] and
    raises nothing.  It touches no path but the marker and leaves the
    server alone; and [True] means that the marker now holds the caller's
    PID. *)
Theorem acquire_lock_returns env P s :
  exists b s',
    acquire_lock env P s = (Ret b, s')
    /\ only_touches P s s'
    /\ server s' = server s
    /\ (b = true -> fs s' !! P = Some (File (own_pid_text env))).
Proof.
  destruct (acquire_lock_total env P s) as (b & s' & Hrun).
  exists b, s'. split; [exact Hrun|]. split; [|split].
  - exact (steady_acquire_lock _ (frame_only_touches P) env P
             (only_touches_allows_unlink P) (only_touches_allows_write P) _ _ _ Hrun).
  - exact (steady_acquire_lock _ frame_same_server env P
             (same_server_allows_unlink P) (same_server_allows_write P) _ _ _ Hrun).
  - intros ->. apply acquire_lock_true in Hrun as [Hfile _]. exact Hfile.
Qed.

(** [release_lock], by what is at the path. *)
Lemma release_lock_cases env P s :
  exists s',
    release_lock env P s = (Ret tt, s')
    /\ match fs s !! P with
       | None => s' = add_call (CExists P) s
       | Some (File _) =>
           if remove_fails env P then fs s' = fs s else fs s' = delete P (fs s)
       | Some Dir => fs s' = fs s
       end.
Proof.
  unfold release_lock, os_path_exists, os_remove. mcbn.
  destruct (fs s !! P) as [[content|]|] eqn:Hfile.
  - rewrite bool_decide_eq_true_2 by eauto. mcbn. rewrite Hfile.
    destruct (remove_fails env P); mcbn; eauto.
  - rewrite bool_decide_eq_true_2 by eauto. mcbn. rewrite Hfile. mcbn. eauto.
  - rewrite bool_decide_eq_false_2 by (intros [x Hx]; discriminate). mcbn. eauto.
Qed.

(** X11.  [release_lock] always returns and raises nothing.  It removes
    a marker file unless [os.remove] fails; with no marker it only looks;
    a directory at the path stays; no other path is touched. *)
Theorem release_lock_returns env P s :
  exists s',
    release_lock env P s = (Ret tt, s')
    /\ only_touches P s s'
    /\ server s' = server s
    /\ match fs s !! P with
       | None => s' = add_call (CExists P) s
       | Some (File _) =>
           if remove_fails env P then fs s' = fs s else fs s' = delete P (fs s)
       | Some Dir => fs s' = fs s
       end.
Proof.
  destruct (release_lock_cases env P s) as (s' & Hrun & Hcases).
  exists s'. split; [exact Hrun|]. split; [|split].
  - exact (steady_release_lock _ (frame_only_touches P) env P
             (only_touches_allows_unlink P) _ _ _ Hrun).
  - exact (steady_release_lock _ frame_same_server env P
             (same_server_allows_unlink P) _ _ _ Hrun).
  - exact Hcases.
Qed.

(** X12.  Acquire, then release: on a path with no marker, when the
    write and the removal work, the two calls in a row leave the file
    system exactly as it was, after one look and one write, one look and
    one removal. *)
Theorem acquire_release_round_trip env P s :
  fs s !! P = None ->
  writable env P = true ->
  remove_fails env P = false ->
  exists s1 s2,
    acquire_lock env P s = (Ret true, s1)
    /\ release_lock env P s1 = (Ret tt, s2)
    /\ fs s2 = fs s
    /\ calls s2 = (calls s ++ [CExists P; CWrite P (own_pid_text env);
                               CExists P; CRemove P])%list.
Proof.
  intros Habsent Hwrite Hremove.
  unfold writable in Hwrite. apply andb_prop in Hwrite as [Hopen Hwrite].
  apply negb_true_iff in Hopen, Hwrite.
  assert (Hacq : acquire_lock env P s
                 = (Ret true,
                    set_fs (<[P := File (own_pid_text env)]> (fs s))
                      (add_call (CWrite P (own_pid_text env)) (add_call (CExists P) s)))).
  { unfold acquire_lock, os_path_exists. mcbn. rewrite Habsent.
    rewrite bool_decide_eq_false_2 by (intros [x Hx]; discriminate). mcbn.
    rewrite write_marker_eq by (cbn; rewrite Habsent; discriminate).
    rewrite Hopen, Hwrite. reflexivity. }
  eexists _, _. split; [exact Hacq|].
  rewrite (release_lock_file env P _ (own_pid_text env)) by (cbn; apply lookup_insert_eq).
  rewrite Hremove. split; [reflexivity|]. cbn. split.
  - apply delete_insert_id. exact Habsent.
  - rewrite <- !app_assoc. reflexivity.
Qed.

Lemma acquire_release_round_trip_witness :
  exists s1 s2,
    acquire_lock env_posix lock (state_of ∅) = (Ret true, s1)
    /\ release_lock env_posix lock s1 = (Ret tt, s2)
    /\ fs s2 = fs (state_of ∅)
    /\ calls s2 = (calls (state_of ∅)
                   ++ [CExists lock; CWrite lock (own_pid_text env_posix);
                       CExists lock; CRemove lock])%list.
Proof.
  apply acquire_release_round_trip; reflexivity.
Defined.

(** X13.  A marker that cannot be read, or whose text is not a number,
    never blocks a start.  [acquire_lock] asks for no process, tries to
    remove the marker, and writes its own: it succeeds exactly when that
    write does, also when the removal failed.  When the file cannot be
    opened for writing, the marker is as the removal left it; when the
    write fails after that, an empty marker is left. *)
Theorem acquire_lock_corrupted_marker env P s content :
  fs s !! P = Some (File content) ->
  read_fails env P = true \/ parse_marker content = None ->
  exists s',
    acquire_lock env P s = (Ret (writable env P), s')
    /\ calls s' = (calls s ++ [CExists P; CRead P; CRemove P;
                               CWrite P (own_pid_text env)])%list
    /\ fs s' !! P
       = (if open_fails env P
          then if remove_fails env P then Some (File content) else None
          else Some (File (if write_fails env P then EmptyString else own_pid_text env))).
Proof.
  intros Hfile Hbad.
  assert (Hinspect : inspect_marker env P (add_call (CExists P) s)
            = (Ret None,
               if remove_fails env P
               then add_call (CRemove P) (add_call (CRead P) (add_call (CExists P) s))
               else add_stdout "Removed corrupted lock file."
                      (set_fs (delete P (fs s))
                         (add_call (CRemove P) (add_call (CRead P) (add_call (CExists P) s)))))).
  { unfold inspect_marker, read_text, int_, os_remove, parse_marker in *. mcbn.
    rewrite Hfile. destruct (read_fails env P) eqn:Hread; mcbn.
    - rewrite Hfile. destruct (remove_fails env P); reflexivity.
    - destruct Hbad as [Hbad|Hbad]; [discriminate|]. rewrite Hbad. mcbn.
      rewrite Hfile. destruct (remove_fails env P); reflexivity. }
  unfold acquire_lock, os_path_exists. mcbn. rewrite Hfile.
  rewrite bool_decide_eq_true_2 by eauto. mcbn. rewrite Hinspect.
  destruct (remove_fails env P);
    match goal with
    | |- context [write_marker env P ?st] =>
        destruct (write_marker_cases env P st) as (s' & Hrun & Hfs & _ & Hcalls)
    end.
  - cbn. rewrite Hfile. discriminate.
  - exists s'. split; [exact Hrun|]. split.
    + rewrite Hcalls. cbn. rewrite <- !app_assoc. reflexivity.
    + rewrite Hfs. cbn. rewrite Hfile. reflexivity.
  - cbn. rewrite lookup_delete_eq. discriminate.
  - exists s'. split; [exact Hrun|]. split.
    + rewrite Hcalls. cbn. rewrite <- !app_assoc. reflexivity.
    + rewrite Hfs. cbn. rewrite lookup_delete_eq. reflexivity.
Qed.

Lemma acquire_lock_corrupted_marker_witness :
  exists s',
    acquire_lock env_disk_full lock (state_of (marker "not a pid"))
    = (Ret (writable env_disk_full lock), s')
    /\ calls s' = (calls (state_of (marker "not a pid"))
                   ++ [CExists lock; CRead lock; CRemove lock;
                       CWrite lock (own_pid_text env_disk_full)])%list
    /\ fs s' !! lock
       = (if open_fails env_disk_full lock
          then if remove_fails env_disk_full lock then Some (File "not a pid") else None
          else Some (File (if write_fails env_disk_full lock then EmptyString
                           else own_pid_text env_disk_full))).
Proof.
  apply acquire_lock_corrupted_marker.
  - reflexivity.
  - right. reflexivity.
Defined.

Lemma second_acquire_refused_witness :
  exists s2,
    acquire_lock env_second lock (snd (acquire_lock env_posix lock (state_of ∅)))
    = (Ret false, s2)
    /\ fs s2 !! lock = Some (File (own_pid_text env_posix)).
Proof.
  apply (second_acquire_refused env_posix env_second lock (state_of ∅)).
  - reflexivity.
  - reflexivity.
  - reflexivity.
  - reflexivity.
Defined.

(** ** A run, path by path *)

(** The guarded part of [run_and_block]: the outer [try] with its two
    handlers and the release of the lock. *)
Lemma guarded_run_inv env serve_dir lock_path preferred console s1 r s3 :
  try_finally
    (try_except2
       (run_body env serve_dir preferred console)
       is_KeyboardInterrupt
       (fun _ => log "Interrupted by user." ;; ret (Some false))
       is_Exception
       (fun e => log ("Error during execution: " +:+ str_exn e) ;; ret (Some false)))
    (when (truthy_str lock_path) (release_lock env (default EmptyString lock_path))) s1
  = (r, s3) ->
  exists rb s2,
    run_body env serve_dir preferred console s1 = (rb, s2)
    /\ match rb with
       | Hang => r = Hang /\ s3 = s2
       | Ret early =>
           r = Ret early
           /\ when (truthy_str lock_path) (release_lock env (default EmptyString lock_path)) s2
              = (Ret tt, s3)
       | Raise e =>
           r = Ret (Some false)
           /\ when (truthy_str lock_path) (release_lock env (default EmptyString lock_path))
                (add_stdout
                   (if is_KeyboardInterrupt e then "Interrupted by user."
                    else "Error during execution: " +:+ str_exn e) s2)
              = (Ret tt, s3)
       end.
Proof.
  unfold try_finally, try_except2.
  destruct (run_body env serve_dir preferred console s1) as [rb s2].
  intros H. exists rb, s2. split; [reflexivity|].
  assert (Hrel : forall st, exists st',
             when (truthy_str lock_path) (release_lock env (default EmptyString lock_path)) st
             = (Ret tt, st')).
  { intros st. destruct (truthy_str lock_path); cbn [when].
    - destruct (release_lock_cases env (default EmptyString lock_path) st) as (st' & Hr & _).
      eauto.
    - eexists. reflexivity. }
  destruct rb as [early|e|].
  - destruct (Hrel s2) as (st' & Hst). rewrite Hst in H. inversion H; subst.
    split; [reflexivity|exact Hst].
  - destruct (is_KeyboardInterrupt e) eqn:Hk.
    + unfold bind, log, modify, ret in H. cbv beta iota in H.
      destruct (Hrel (add_stdout "Interrupted by user." s2)) as (st' & Hst).
      rewrite Hst in H. inversion H; subst. split; [reflexivity|exact Hst].
    + assert (Hexc : is_Exception e = true)
        by (destruct e as [[] msg]; cbn in *; congruence).
      rewrite Hexc in H. unfold bind, log, modify, ret in H. cbv beta iota in H.
      destruct (Hrel (add_stdout ("Error during execution: " +:+ str_exn e) s2)) as (st' & Hst).
      rewrite Hst in H. inversion H; subst. split; [reflexivity|exact Hst].
  - inversion H. split; reflexivity.
Qed.

(** [run_and_block] in three steps: the lock, the guarded part, the
    result. *)
Lemma run_and_block_inv env serve_dir lock_path preferred console s r s' :
  run_and_block env serve_dir lock_path preferred console s = (r, s') ->
  (truthy_str lock_path = true
   /\ acquire_lock env (default EmptyString lock_path) s = (Ret false, s')
   /\ r = Ret false)
  \/ (exists s1 rg,
        (if truthy_str lock_path
         then acquire_lock env (default EmptyString lock_path) s = (Ret true, s1)
         else s1 = s)
        /\ try_finally
             (try_except2
                (run_body env serve_dir preferred console)
                is_KeyboardInterrupt
                (fun _ => log "Interrupted by user." ;; ret (Some false))
                is_Exception
                (fun e => log ("Error during execution: " +:+ str_exn e) ;; ret (Some false)))
             (when (truthy_str lock_path)
                   (release_lock env (default EmptyString lock_path))) s1
           = (rg, s')
        /\ r = match rg with
               | Ret (Some b) => Ret b
               | Ret None => Ret (negb (_shutdown_requested s'))
               | Raise e => Raise e
               | Hang => Hang
               end).
Proof.
  unfold run_and_block. intros H.
  apply bind_inv in H as [(refused & s1 & Hlock & H) | [(e & Hlock & ->) | (Hlock & ->)]].
  - assert (Hstep : if truthy_str lock_path
                    then acquire_lock env (default EmptyString lock_path) s
                         = (Ret (negb refused), s1)
                    else refused = false /\ s1 = s).
    { destruct (truthy_str lock_path).
      - apply bind_inv in Hlock
          as [(locked & s0 & Ha & Hk) | [(e & Ha & He) | (Ha & He)]]; try discriminate.
        inversion Hk; subst. rewrite negb_involutive. exact Ha.
      - inversion Hlock. split; reflexivity. }
    destruct refused.
    + left. inversion H; subst. destruct (truthy_str lock_path).
      * repeat split. exact Hstep.
      * destruct Hstep. discriminate.
    + right.
      apply bind_inv in H as [(early & s3 & Htf & Hk) | [(e & Htf & ->) | (Htf & ->)]].
      * exists s1, (Ret early). split.
        { destruct (truthy_str lock_path); [exact Hstep|apply Hstep]. }
        destruct early as [b|]; mcbn_in Hk; inversion Hk; subst; split; auto.
      * exists s1, (Raise e). split; [|split; [exact Htf|reflexivity]].
        destruct (truthy_str lock_path); [exact Hstep|apply Hstep].
      * exists s1, Hang. split; [|split; [exact Htf|reflexivity]].
        destruct (truthy_str lock_path); [exact Hstep|apply Hstep].
  - exfalso. destruct (truthy_str lock_path); [|discriminate Hlock].
    destruct (acquire_lock_total env (default EmptyString lock_path) s) as (b & s0 & Ha).
    unfold bind in Hlock. rewrite Ha in Hlock. discriminate.
  - exfalso. destruct (truthy_str lock_path); [|discriminate Hlock].
    destruct (acquire_lock_total env (default EmptyString lock_path) s) as (b & s0 & Ha).
    unfold bind in Hlock. rewrite Ha in Hlock. discriminate.
Qed.

(** What [run_body] returns from inside is [False]. *)
Lemma run_body_early env serve_dir preferred console s b s' :
  run_body env serve_dir preferred console s = (Ret (Some b), s') -> b = false.
Proof.
  unfold run_body. intros H.
  repeat (apply bind_inv in H as [(? & ? & _ & H) | [(? & _ & He) | (_ & He)]];
          try discriminate He).
  match type of H with
  | (if ?c then _ else _) _ = _ => destruct c
  end.
  - inversion H. reflexivity.
  - repeat (apply bind_inv in H as [(? & ? & _ & H) | [(? & _ & He) | (_ & He)]];
            try discriminate He).
    inversion H.
Qed.

(** The outcomes of [run_and_block]. *)
Lemma run_and_block_outcome env serve_dir lock_path preferred console s r s' :
  run_and_block env serve_dir lock_path preferred console s = (r, s') ->
  r = Ret true \/ r = Ret false \/ r = Hang.
Proof.
  intros H.
  apply run_and_block_inv in H as [(_ & _ & ->) | (s1 & rg & _ & Hg & ->)].
  - right. left. reflexivity.
  - apply guarded_run_inv in Hg as (rb & s2 & Hb & Hcases).
    destruct rb as [early|e|].
    + destruct Hcases as [-> _]. destruct early as [b|].
      * apply run_body_early in Hb as ->. right. left. reflexivity.
      * destruct (_shutdown_requested s'); cbn; auto.
    + destruct Hcases as [-> _]. right. left. reflexivity.
    + destruct Hcases as [-> _]. right. right. reflexivity.
Qed.


Lemma same_server_allows_browser : allows_browser same_server.
Proof. intros url s. reflexivity. Qed.

Lemma same_server_allows_mkdir : allows_mkdir same_server.
Proof. intros d s _. reflexivity. Qed.

Lemma same_server_allows_rmdir : allows_rmdir same_server.
Proof. intros d s _. reflexivity. Qed.

(** The inner [finally] on a server that is serving: the server is
    stopped, whatever the profile cleanup does. *)
Lemma stop_and_clean_stops env profile s port serve_dir :
  server s = Some (serving port serve_dir) ->
  exists s' srv,
    stop_and_clean env (Some tt) profile s = (Ret tt, s')
    /\ server s' = Some srv /\ stopped srv
    /\ srv_port srv = port /\ srv_directory srv = serve_dir.
Proof.
  intros Hsrv. unfold stop_and_clean.
  unfold bind at 1. unfold log at 1, modify.
  rewrite bool_decide_eq_true_2 by eauto. cbn [when].
  unfold bind at 1. unfold try_except.
  assert (Hstop : stop (add_stdout "Stopping HTTP server..." s)
                  = (Ret tt,
                     set_server (Some (mkServer port serve_dir Exited false true false))
                       (add_stdout "Stopping HTTP server..." s))).
  { unfold stop, on_server, try_finally, try_except. cbn [server add_stdout].
    rewrite Hsrv. reflexivity. }
  rewrite Hstop.
  match goal with
  | |- context [cleanup_profile env profile ?st] =>
      destruct (cleanup_profile_cases env profile st) as (s' & Hc & Hsame & _);
      rewrite Hc
  end.
  exists s', (mkServer port serve_dir Exited false true false).
  split; [reflexivity|]. split; [rewrite Hsame; reflexivity|].
  split; [split; [discriminate|reflexivity]|]. split; reflexivity.
Qed.

(** A guarded block that runs to its end has stopped the server it
    started. *)
Lemma run_body_completed env serve_dir preferred console s s' :
  run_body env serve_dir preferred console s = (Ret None, s') ->
  exists srv,
    server s' = Some srv /\ stopped srv /\ srv_directory srv = serve_dir
    /\ port_free env (srv_port srv) = true.
Proof.
  unfold run_body. intros H.
  apply bind_inv in H as [([] & s1 & _ & H) | [(e & _ & He) | (_ & He)]];
    try discriminate He.
  apply bind_inv in H as [([[[] []] port] & s2 & Hstart & H) | [(e & _ & He) | (_ & He)]];
    try discriminate He.
  apply start_server_value in Hstart as (Hsrv & _ & Hfree).
  cbn [fst snd] in H.
  apply (bind_steady_inv same_server) in H as [([] & s3 & Hs3 & H) | [_ Hno]];
    [|exfalso; eapply Hno; reflexivity|apply (steady_log _ frame_same_server)].
  apply (bind_steady_inv same_server) in H as [([] & s4 & Hs4 & H) | [_ Hno]];
    [|exfalso; eapply Hno; reflexivity|apply (steady_log _ frame_same_server)].
  apply (bind_steady_inv same_server) in H as [([] & s5 & Hs5 & H) | [_ Hno]];
    [|exfalso; eapply Hno; reflexivity|apply (steady_deliver _ frame_same_server)].
  apply bind_inv in H as [(st & s5' & Hget & H) | [(e & Hget & _) | (Hget & _)]];
    [|inversion Hget|inversion Hget].
  inversion Hget; subst st s5'; clear Hget.
  destruct (_shutdown_requested s5); [inversion H|].
  apply (bind_steady_inv same_server) in H as [([proc profile] & s6 & Hs6 & H) | [_ Hno]];
    [|exfalso; eapply Hno; reflexivity
     |apply (steady_launch _ frame_same_server);
      [ apply same_server_allows_browser
      | apply same_server_allows_mkdir
      | apply same_server_allows_rmdir ]].
  cbn [fst snd] in H.
  apply bind_inv in H as [([] & s7 & Et & H) | [(e & _ & He) | (_ & He)]];
    try discriminate He.
  inversion H; subst s7. clear H.
  apply try_finally_inv in Et as (r1 & s8 & Hwait & _ & Hfin); [|discriminate].
  assert (Hs8 : server s8 = Some (serving port serve_dir)).
  { rewrite (steady_wait_for_session _ frame_same_server _ _ _ _ _ _ Hwait).
    unfold same_server in *. congruence. }
  destruct (stop_and_clean_stops env profile s8 port serve_dir Hs8)
    as (s9 & srv & Hclean & Hsrv9 & Hstopped & Hport9 & Hdir9).
  rewrite Hclean in Hfin.
  destruct Hfin as [[Hf _] | (e' & Hf & _)]; [|discriminate Hf].
  inversion Hf; subst s9.
  exists srv. rewrite Hport9. repeat split; try assumption; apply Hstopped.
Qed.

(** X15.  A run that returns [True] has cleaned up after itself: the
    server it started on a bindable port is stopped, its socket closed;
    no shutdown was requested; the lock marker is gone unless
    [os.remove] failed; and, when profile removal works, no other path
    has changed. *)
Theorem successful_run_is_clean env serve_dir lock_path preferred console s s' :
  run_and_block env serve_dir lock_path preferred console s = (Ret true, s') ->
  (exists srv,
      server s' = Some srv /\ stopped srv /\ srv_directory srv = serve_dir
      /\ port_free env (srv_port srv) = true)
  /\ _shutdown_requested s' = false
  /\ (forall P, lock_path = Some P -> P <> EmptyString -> remove_fails env P = false ->
       fs s' !! P = None)
  /\ (rmtree_succeeds env = true ->
       forall d, lock_path <> Some d -> fs s' !! d = fs s !! d).
Proof.
  intros Hrun.
  apply run_and_block_inv in Hrun as [(_ & _ & Hr) | (s1 & rg & Hlock & Hg & Hr)];
    [discriminate Hr|].
  apply guarded_run_inv in Hg as (rb & s2 & Hb & Hcases).
  destruct rb as [early|e|].
  2: { destruct Hcases as [-> _]. discriminate Hr. }
  2: { destruct Hcases as [-> _]. discriminate Hr. }
  destruct Hcases as [-> Hrel].
  destruct early as [b|].
  { apply run_body_early in Hb as ->. discriminate Hr. }
  assert (Hflag : _shutdown_requested s' = false).
  { destruct (_shutdown_requested s'); [discriminate Hr|reflexivity]. }
  destruct (run_body_completed _ _ _ _ _ _ Hb) as (srv & Hsrv & Hstopped & Hdir & Hfree).
  assert (Hsrv' : server s' = server s2).
  { destruct (truthy_str lock_path); cbn [when] in Hrel.
    - exact (steady_release_lock _ frame_same_server env _
               (same_server_allows_unlink _) _ _ _ Hrel).
    - inversion Hrel. reflexivity. }
  split; [|split; [exact Hflag|split]].
  - exists srv. rewrite Hsrv'. split; [exact Hsrv|]. split; [exact Hstopped|].
    split; assumption.
  - intros P -> HP Hrm. rewrite (truthy_str_nonempty P HP) in *.
    cbn [default from_option id when] in *.
    destruct (acquire_lock_true _ _ _ _ Hlock) as (Hfile & _ & _).
    assert (Hfile2 : fs s2 !! P = Some (File (own_pid_text env))).
    { refine (steady_run_body _ (frame_keeps_file P (own_pid_text env)) _ _ _ _
                _ _ _ _ _ _ _ Hb Hfile).
      - apply keeps_file_allows_browser.
      - apply keeps_file_ignores_server.
      - apply keeps_file_allows_mkdir.
      - apply keeps_file_allows_rmdir. }
    rewrite (release_lock_file env P s2 _ Hfile2), Hrm in Hrel.
    inversion Hrel. cbn. apply lookup_delete_eq.
  - intros Hok d Hd.
    assert (Hfs2 : fs s2 = fs s1).
    { apply (run_body_restores_fs _ _ _ _ _ _ _ Hok Hb). discriminate. }
    destruct (truthy_str lock_path) eqn:Ht; cbn [when] in Hrel.
    + destruct lock_path as [P|]; [|discriminate Ht]. cbn [default from_option id] in *.
      assert (HdP : d <> P) by congruence.
      rewrite (steady_release_lock _ (frame_only_touches P) env P
                 (only_touches_allows_unlink P) _ _ _ Hrel d HdP).
      rewrite Hfs2.
      exact (steady_acquire_lock _ (frame_only_touches P) env P
               (only_touches_allows_unlink P) (only_touches_allows_write P)
               _ _ _ Hlock d HdP).
    + inversion Hrel; subst. rewrite Hfs2. reflexivity.
Qed.

Lemma successful_run_is_clean_witness :
  let s' := snd (run_and_block env_posix "viewer" (Some lock) None false (state_of ∅)) in
  (exists srv,
      server s' = Some srv /\ stopped srv /\ srv_directory srv = "viewer"
      /\ port_free env_posix (srv_port srv) = true)
  /\ _shutdown_requested s' = false
  /\ (forall P, Some lock = Some P -> P <> EmptyString -> remove_fails env_posix P = false ->
       fs s' !! P = None)
  /\ (rmtree_succeeds env_posix = true ->
       forall d, Some lock <> Some d -> fs s' !! d = fs (state_of ∅) !! d).
Proof.
  apply (successful_run_is_clean env_posix "viewer" (Some lock) None false (state_of ∅)).
  vm_compute. reflexivity.
Defined.

(** A marker that names a live process other than 0: the run ends with
    the refusal of the lock. *)
Lemma refused_run env serve_dir P preferred console s content pid :
  P <> EmptyString ->
  fs s !! P = Some (File content) ->
  read_fails env P = false ->
  parse_marker content = Some pid ->
  pid <> 0 ->
  pid_alive env pid = true ->
  run_and_block env serve_dir (Some P) preferred console s
  = (Ret false,
     add_stdout ("Another instance appears to be running (PID " +:+ str_int pid
                 +:+ "). Aborting.")
       (add_calls [CExists P; CRead P;
                   if String.eqb (os_name env) "nt" then COpenProcess pid else CKill0 pid]
          s)).
Proof.
  intros HP Hfile Hread Hparse Hpid Halive.
  unfold run_and_block. rewrite (truthy_str_nonempty P HP).
  cbn [default from_option id].
  unfold acquire_lock, os_path_exists, inspect_marker, read_text, int_, parse_marker in *.
  mcbn. rewrite Hfile. rewrite bool_decide_eq_true_2 by eauto.
  mcbn. rewrite Hfile, Hread. mcbn. rewrite Hparse. mcbn.
  unfold truthy_int. destruct (Z.eqb_spec pid 0) as [|_]; [contradiction|].
  mcbn. rewrite liveness_check_eq. mcbn. rewrite Halive. mcbn.
  unfold add_calls, add_stdout, add_call. cbn. rewrite <- !app_assoc. reflexivity.
Qed.

(** X16.  A launcher that finds the marker of a live instance backs off
    completely: [run_and_block] returns [False] after reading the marker
    and asking the system about that one process.  It binds no port,
    starts nothing, and does not go through [release_lock]: the file
    system, the owner's marker included, is as it was. *)
Theorem run_refused_by_live_owner env serve_dir P preferred console s content pid :
  P <> EmptyString ->
  fs s !! P = Some (File content) ->
  read_fails env P = false ->
  parse_marker content = Some pid ->
  pid <> 0 ->
  pid_alive env pid = true ->
  exists s',
    run_and_block env serve_dir (Some P) preferred console s = (Ret false, s')
    /\ fs s' = fs s
    /\ server s' = server s
    /\ calls s'
       = (calls s
          ++ [CExists P; CRead P;
              if String.eqb (os_name env) "nt" then COpenProcess pid else CKill0 pid])%list
    /\ stdout s'
       = (stdout s ++ ["Another instance appears to be running (PID " +:+ str_int pid
                       +:+ "). Aborting."])%list.
Proof.
  intros HP Hfile Hread Hparse Hpid Halive.
  rewrite (refused_run env serve_dir P preferred console s content pid) by assumption.
  eexists. split; [reflexivity|]. cbn. repeat split.
Qed.

Lemma run_refused_by_live_owner_witness :
  exists s',
    run_and_block env_posix "viewer" (Some lock) (Some 9000) false (state_of (marker "777"))
    = (Ret false, s')
    /\ fs s' = fs (state_of (marker "777"))
    /\ server s' = server (state_of (marker "777"))
    /\ calls s'
       = (calls (state_of (marker "777"))
          ++ [CExists lock; CRead lock;
              if String.eqb (os_name env_posix) "nt" then COpenProcess 777
              else CKill0 777])%list
    /\ stdout s'
       = (stdout (state_of (marker "777"))
          ++ ["Another instance appears to be running (PID " +:+ str_int 777
              +:+ "). Aborting."])%list.
Proof.
  apply (run_refused_by_live_owner env_posix "viewer" lock (Some 9000) false
           (state_of (marker "777")) "777" 777).
  - discriminate.
  - reflexivity.
  - reflexivity.
  - reflexivity.
  - discriminate.
  - reflexivity.
Defined.



(** X18.  Outside Windows the console flag changes nothing: with
    [os.name] other than "nt", a run with [use_new_console] set is the
    same run as one without. *)
Theorem console_flag_only_on_windows env serve_dir lock_path preferred s :
  os_name env <> "nt" ->
  run_and_block env serve_dir lock_path preferred true s
  = run_and_block env serve_dir lock_path preferred false s.
Proof.
  intros Hos. unfold run_and_block, run_body, launch_browser_in_new_terminal.
  destruct (String.eqb_spec (os_name env) "nt") as [Heq|_]; [contradiction|].
  cbn [andb]. reflexivity.
Qed.

Lemma console_flag_only_on_windows_witness :
  run_and_block env_posix "viewer" (Some lock) None true (state_of with_chrome)
  = run_and_block env_posix "viewer" (Some lock) None false (state_of with_chrome).
Proof.
  apply console_flag_only_on_windows. discriminate.
Defined.

(** X19.  A shutdown request that arrives when the server is up but the
    browser is not yet launched ends the run at once: when the handler is
    installed for the signal, [run_and_block] returns [False] and
    launches nothing.  This return is not guarded by the inner
    [finally]: after the start of the server the run only goes through
    [release_lock], and the server is left serving. *)
Theorem shutdown_before_launch env serve_dir P preferred console s s1 port s2 signum :
  P <> EmptyString ->
  acquire_lock env P s = (Ret true, s1) ->
  start_server env serve_dir preferred
    (add_stdout ("Starting HTTP server for directory: " +:+ serve_dir) s1)
  = (Ret (tt, tt, port), s2) ->
  signal_after_start env = Some signum ->
  handled signum s2 = true ->
  exists s',
    run_and_block env serve_dir (Some P) preferred console s = (Ret false, s')
    /\ server s' = Some (serving port serve_dir)
    /\ calls s' = (calls s2 ++ [CExists P; CRemove P])%list
    /\ stdout s' = (stdout s2
                    ++ ["VIEWER_URL=" +:+ viewer_url port;
                        "Server started at " +:+ viewer_url port;
                        "Received signal " +:+ str_int signum +:+ "; requesting shutdown."]
                    ++ (if remove_fails env P
                        then ["Warning: failed to remove lock file: " +:+ oserror_text env]
                        else []))%list
    /\ (remove_fails env P = false -> fs s' !! P = None).
Proof.
  intros HP Ha Hstart Hsig Hhandled.
  destruct (acquire_lock_true _ _ _ _ Ha) as (Hfile & _ & _).
  destruct (start_server_value _ _ _ _ _ _ Hstart) as (Hsrv & _ & _).
  assert (Hfile2 : fs s2 !! P = Some (File (own_pid_text env))).
  { refine (steady_start_server _ (frame_keeps_file P (own_pid_text env)) env serve_dir
              preferred (keeps_file_ignores_server _ _) _ _ _ Hstart _).
    exact Hfile. }
  unfold run_and_block. rewrite (truthy_str_nonempty P HP).
  cbn [default from_option id].
  unfold bind at 1 2. rewrite Ha. cbn [negb ret].
  unfold run_body.
  unfold bind at 1. unfold try_finally, try_except2.
  unfold bind at 1. unfold log at 1, modify. unfold bind at 1.
  rewrite Hstart. rewrite Hsig.
  unfold deliver. mcbn.
  match goal with
  | |- context [handled signum ?st] => change (handled signum st) with (handled signum s2)
  end.
  rewrite Hhandled. unfold signal_handler. mcbn.
  match goal with
  | |- context [release_lock env P ?st] =>
      rewrite (release_lock_file env P st (own_pid_text env)) by exact Hfile2
  end.
  eexists. split; [reflexivity|].
  unfold viewer_url.
  destruct (remove_fails env P); cbn; (split; [exact Hsrv|split; [|split]]);
    try (now rewrite <- !app_assoc); intros Hrm; try discriminate.
  apply lookup_delete_eq.
Qed.

Lemma shutdown_before_launch_witness :
  exists s',
    run_and_block env_sigterm_early "viewer" (Some lock) None false (armed ∅)
    = (Ret false, s')
    /\ server s' = Some (serving 8080 "viewer")
    /\ calls s' = [CExists lock; CWrite lock "4242"; CBind 8080; CListen 8080;
                   CConnect 8080; CExists lock; CRemove lock]
    /\ stdout s' = [ "Starting HTTP server for directory: viewer";
                     "VIEWER_URL=http://127.0.0.1:8080/timeline_viewer.html";
                     "Server started at http://127.0.0.1:8080/timeline_viewer.html";
                     "Received signal 15; requesting shutdown." ]
    /\ (remove_fails env_sigterm_early lock = false -> fs s' !! lock = None).
Proof.
  assert (Hacquire : acquire_lock env_sigterm_early lock (armed ∅)
                     = (Ret true, snd (acquire_lock env_sigterm_early lock (armed ∅))))
    by (vm_compute; reflexivity).
  assert (Hstart : start_server env_sigterm_early "viewer" None
                     (add_stdout ("Starting HTTP server for directory: " +:+ "viewer")
                        (snd (acquire_lock env_sigterm_early lock (armed ∅))))
                   = (Ret (tt, tt, 8080),
                      snd (start_server env_sigterm_early "viewer" None
                             (add_stdout "Starting HTTP server for directory: viewer"
                                (snd (acquire_lock env_sigterm_early lock (armed ∅)))))))
    by (vm_compute; reflexivity).
  destruct (shutdown_before_launch env_sigterm_early "viewer" lock None false (armed ∅)
              _ 8080 _ SIGTERM ltac:(discriminate) Hacquire Hstart eq_refl)
    as (s' & Hrun & Hsrv & Hcalls & Hout & Hmarker).
  - vm_compute. reflexivity.
  - exists s'. split; [exact Hrun|]. split; [exact Hsrv|].
    split; [rewrite Hcalls; vm_compute; reflexivity|].
    split; [rewrite Hout; vm_compute; reflexivity|exact Hmarker].
Defined.

Lemma first_existing_some paths :
  forall s exe,
    In exe paths -> is_Some (fs s !! exe) ->
    exists found k,
      first_existing paths s
      = (Ret (Some found), add_calls (map CExists (firstn k paths)) s)
      /\ In found paths.
Proof.
  induction paths as [|p others IH]; intros s exe Hin Hex; [destruct Hin|].
  cbn [first_existing]. unfold os_path_exists. mcbn.
  destruct (bool_decide (is_Some (fs s !! p))) eqn:Hp.
  - exists p, 1%nat. split; [reflexivity|left; reflexivity].
  - destruct Hin as [->|Hin].
    + apply bool_decide_eq_false in Hp. contradiction.
    + destruct (IH (add_call (CExists p) s) exe Hin Hex) as (found & k & Hrun & Hfound).
      exists found, (S k). rewrite Hrun. cbn [firstn map]. rewrite add_calls_cons.
      split; [reflexivity|right; exact Hfound].
Qed.

(** X20.  When a browser binary is installed but no profile directory
    can be made for it, the failure of [mkdtemp] leaves
    [launch_browser_in_new_terminal] as an exception.  The outer handler
    turns it into [False], and the lock is released; but the launch is
    not guarded by the inner [finally], so nothing is spawned, no default
    browser is opened, and the server that was started is left
    serving. *)
Theorem profile_failure_leaves_server env serve_dir P preferred console s s1 port s2 exe :
  P <> EmptyString ->
  acquire_lock env P s = (Ret true, s1) ->
  start_server env serve_dir preferred
    (add_stdout ("Starting HTTP server for directory: " +:+ serve_dir) s1)
  = (Ret (tt, tt, port), s2) ->
  signal_after_start env = None ->
  In exe candidates ->
  is_Some (fs s2 !! exe) ->
  mkdtemp_suffix env = None ->
  exists s' k,
    run_and_block env serve_dir (Some P) preferred console s = (Ret false, s')
    /\ server s' = Some (serving port serve_dir)
    /\ calls s' = (calls s2 ++ map CExists (firstn k candidates)
                   ++ [CMkdtemp "viewer-profile-"; CExists P; CRemove P])%list
    /\ stdout s' = (stdout s2
                    ++ ["VIEWER_URL=" +:+ viewer_url port;
                        "Server started at " +:+ viewer_url port;
                        "Error during execution: " +:+ oserror_text env]
                    ++ (if remove_fails env P
                        then ["Warning: failed to remove lock file: " +:+ oserror_text env]
                        else []))%list
    /\ (remove_fails env P = false -> fs s' !! P = None).
Proof.
  intros HP Ha Hstart Hsig Hin Hex Htmp.
  destruct (acquire_lock_true _ _ _ _ Ha) as (Hfile & _ & _).
  destruct (start_server_value _ _ _ _ _ _ Hstart) as (Hsrv & Hflag & _).
  assert (Hfile2 : fs s2 !! P = Some (File (own_pid_text env))).
  { refine (steady_start_server _ (frame_keeps_file P (own_pid_text env)) env serve_dir
              preferred (keeps_file_ignores_server _ _) _ _ _ Hstart _).
    exact Hfile. }
  set (s3 := add_stdout ("Server started at " +:+ viewer_url port)
               (add_stdout ("VIEWER_URL=" +:+ viewer_url port) s2)).
  destruct (first_existing_some candidates s3 exe Hin Hex) as (found & k & Hfind & Hfound).
  unfold run_and_block. rewrite (truthy_str_nonempty P HP).
  cbn [default from_option id].
  unfold bind at 1 2. rewrite Ha. cbn [negb ret].
  unfold run_body.
  unfold bind at 1. unfold try_finally, try_except2.
  unfold bind at 1. unfold log at 1, modify. unfold bind at 1.
  rewrite Hstart. rewrite Hsig.
  unfold deliver. unfold bind at 1. unfold log at 1, modify.
  unfold bind at 1. unfold log at 1, modify.
  unfold bind at 1. unfold ret at 1. unfold bind at 1. unfold get at 1.
  cbn [fst snd _shutdown_requested add_stdout]. rewrite Hflag.
  unfold launch_browser_in_new_terminal, find_chrome_like.
  unfold bind at 1 2. fold (viewer_url port). fold s3. rewrite Hfind.
  rewrite (candidates_nonempty found Hfound). cbn [negb default from_option id].
  unfold mkdtemp. unfold bind at 1 2. unfold called at 1, modify. rewrite Htmp.
  unfold raise at 1. cbn [is_KeyboardInterrupt is_Exception os_error exn_cls exn_msg str_exn].
  unfold bind at 1. unfold log at 1, modify. cbn [ret when].
  match goal with
  | |- context [release_lock env P ?st] =>
      rewrite (release_lock_file env P st (own_pid_text env)) by exact Hfile2
  end.
  eexists _, k. split; [reflexivity|].
  destruct (remove_fails env P); cbn; (split; [exact Hsrv|split; [|split]]);
    try (now rewrite <- !app_assoc); intros Hrm; try discriminate.
  apply lookup_delete_eq.
Qed.

Lemma profile_failure_leaves_server_witness :
  let s1 := snd (acquire_lock env_no_tmp lock (state_of with_chrome)) in
  let s2 := snd (start_server env_no_tmp "viewer" None
                   (add_stdout "Starting HTTP server for directory: viewer" s1)) in
  exists s' k,
    run_and_block env_no_tmp "viewer" (Some lock) None false (state_of with_chrome)
    = (Ret false, s')
    /\ server s' = Some (serving 8080 "viewer")
    /\ calls s' = (calls s2 ++ map CExists (firstn k candidates)
                   ++ [CMkdtemp "viewer-profile-"; CExists lock; CRemove lock])%list
    /\ stdout s' = (stdout s2
                    ++ ["VIEWER_URL=" +:+ viewer_url 8080;
                        "Server started at " +:+ viewer_url 8080;
                        "Error during execution: " +:+ oserror_text env_no_tmp]
                    ++ (if remove_fails env_no_tmp lock
                        then ["Warning: failed to remove lock file: "
                              +:+ oserror_text env_no_tmp]
                        else []))%list
    /\ (remove_fails env_no_tmp lock = false -> fs s' !! lock = None).
Proof.
  intros s1 s2.
  apply (profile_failure_leaves_server env_no_tmp "viewer" lock None false
           (state_of with_chrome) s1 8080 s2 chrome).
  - discriminate.
  - subst s1. vm_compute. reflexivity.
  - subst s2 s1. vm_compute. reflexivity.
  - reflexivity.
  - unfold chrome, candidates. cbn. tauto.
  - vm_compute. eauto.
  - reflexivity.
Defined.

(** The wait for the browser only polls and sleeps; an interrupt is the
    one thing that can leave it as an exception. *)
Lemma wait_for_browser_polls ticks :
  forall s r s',
    wait_for_browser ticks s = (r, s') ->
    r <> Hang ->
    (r = Ret tt \/ r = Raise interrupt)
    /\ exists polls, Forall is_poll polls /\ calls s' = (calls s ++ polls)%list.
Proof.
  induction ticks as [|t later IH]; intros s r s' H Hr.
  - inversion H; subst. contradiction.
  - cbn [wait_for_browser] in H.
    apply bind_inv in H as [([] & s1 & Hsig & H) | [(e & Hsig & ->) | (Hsig & ->)]];
      [| |contradiction].
    2: { split; [right; rewrite (deliver_raises _ _ _ _ Hsig); reflexivity|].
         exists []. split; [constructor|].
         rewrite (deliver_calls _ _ _ _ Hsig), app_nil_r. reflexivity. }
    pose proof (deliver_calls _ _ _ _ Hsig) as Hcalls1.
    mcbn_in H.
    destruct (tick_ok t).
    + inversion H; subst. split; [left; reflexivity|].
      exists [CPoll]. split; [repeat constructor|]. cbn. rewrite Hcalls1. reflexivity.
    + change (_shutdown_requested (add_call CPoll s1)) with (_shutdown_requested s1) in H.
      destruct (_shutdown_requested s1).
      * inversion H; subst. split; [left; reflexivity|].
        exists [CPoll]. split; [repeat constructor|]. cbn. rewrite Hcalls1. reflexivity.
      * apply IH in H as (Hres & polls & Hpolls & Hcalls); [|exact Hr].
        split; [exact Hres|].
        exists (CPoll :: CSleep 100 :: polls). split.
        -- constructor; [left; reflexivity|]. constructor; [right; reflexivity|exact Hpolls].
        -- rewrite Hcalls. cbn. rewrite Hcalls1, <- !app_assoc. reflexivity.
Qed.

(** X21.  How the wait for the dedicated browser ends.  While it waits,
    the launcher only polls the process and sleeps.  A browser that
    exits with no shutdown requested is never terminated or killed.  On
    a shutdown request the process is sent [terminate] and waited for;
    [kill] is used only when one of these two raised, and its own
    failure is swallowed.  The one exception that leaves the wait is the
    [KeyboardInterrupt] of an unhandled SIGINT, and then the browser
    process is neither terminated nor killed. *)
Theorem browser_wait_protocol env pid port s r s' :
  wait_for_session env (Some pid) port s = (r, s') ->
  r <> Hang ->
  exists polls,
    Forall is_poll polls
    /\ ((r = Ret tt
         /\ calls s' = (calls s ++ polls
                        ++ (if _shutdown_requested s' then stop_browser_calls env
                            else []))%list)
        \/ (r = Raise interrupt /\ calls s' = (calls s ++ polls)%list)).
Proof.
  unfold wait_for_session. rewrite bool_decide_eq_true_2 by eauto.
  intros H Hr.
  unfold bind at 1 in H. unfold log at 1, modify in H.
  apply bind_inv in H as [([] & s1 & Hwait & H) | [(e & Hwait & ->) | (Hwait & ->)]];
    [| |contradiction].
  2: { apply wait_for_browser_polls in Hwait as ([Hbad | Hint] & polls & Hpolls & Hcalls);
         [discriminate Hbad| |discriminate].
       exists polls. split; [exact Hpolls|]. right. split; [exact Hint|exact Hcalls]. }
  apply wait_for_browser_polls in Hwait as (_ & polls & Hpolls & Hcalls); [|discriminate].
  cbn [calls add_stdout] in Hcalls.
  exists polls. split; [exact Hpolls|]. left.
  unfold stop_browser_calls, proc_terminate, proc_wait, proc_kill in *. mcbn_in H.
  destruct (_shutdown_requested s1) eqn:Hflag.
  - destruct (terminate_fails env); mcbn_in H.
    + destruct (kill_fails env); mcbn_in H; inversion H; subst; cbn;
        rewrite Hflag; (split; [reflexivity|]);
        rewrite Hcalls, <- !app_assoc; reflexivity.
    + destruct (wait_times_out env); mcbn_in H.
      * destruct (kill_fails env); mcbn_in H; inversion H; subst; cbn;
          rewrite Hflag; (split; [reflexivity|]);
          rewrite Hcalls, <- !app_assoc; reflexivity.
      * inversion H; subst; cbn. rewrite Hflag. split; [reflexivity|].
        rewrite Hcalls, <- !app_assoc. reflexivity.
  - inversion H; subst; cbn. rewrite Hflag. split; [reflexivity|].
    rewrite Hcalls, app_nil_r. reflexivity.
Qed.

Lemma browser_wait_protocol_witness :
  let handled_run := wait_for_session env_interrupted (Some 5151) 8080 (armed ∅) in
  let unhandled_run := wait_for_session env_interrupted (Some 5151) 8080 (state_of ∅) in
  (fst handled_run = Ret tt
   /\ calls (snd handled_run) = [CPoll; CSleep 100; CPoll; CTerminate; CWait])
  /\ fst unhandled_run = Raise interrupt
  /\ exists polls, Forall is_poll polls /\ calls (snd unhandled_run) = polls.
Proof.
  intros handled_run unhandled_run.
  split; [split; vm_compute; reflexivity|].
  split; [vm_compute; reflexivity|].
  destruct (browser_wait_protocol env_interrupted 5151 8080 (state_of ∅)
              (fst unhandled_run) (snd unhandled_run))
    as (polls & Hpolls & [[Hret _] | [_ Hcalls]]).
  - apply surjective_pairing.
  - vm_compute. discriminate.
  - vm_compute in Hret. discriminate Hret.
  - exists polls. split; [exact Hpolls|exact Hcalls].
Defined.

(** ** Signal handlers and the entry point *)

(** X22.  [setup_signal_handlers] always returns.  It installs the
    handler for SIGINT, SIGTERM and, where the platform has it, SIGHUP,
    in this order; the first installation that fails ends the setup, with
    the handlers before it in place and one warning logged.  Nothing else
    changes. *)
Theorem setup_signal_handlers_returns env s :
  exists s',
    setup_signal_handlers env s = (Ret tt, s')
    /\ handlers s' = (handlers s ++ installable (signal_fails env) (wanted_signals env))%list
    /\ stdout s'
       = (stdout s
          ++ (if forallb (fun signum => negb (signal_fails env signum)) (wanted_signals env)
              then []
              else ["Warning: failed to setup signal handlers: "
                    +:+ "signal only works in main thread of the main interpreter"]))%list
    /\ fs s' = fs s /\ server s' = server s
    /\ _shutdown_requested s' = _shutdown_requested s.
Proof.
  unfold setup_signal_handlers, signal_signal, wanted_signals. mcbn.
  destruct (signal_fails env SIGINT) eqn:Hint; mcbn.
  { eexists. split; [reflexivity|]. cbn. rewrite Hint. cbn.
    rewrite app_nil_r. repeat split. }
  destruct (signal_fails env SIGTERM) eqn:Hterm; mcbn.
  { eexists. split; [reflexivity|]. cbn. rewrite Hint, Hterm. cbn. repeat split. }
  destruct (has_SIGHUP env); mcbn.
  - destruct (signal_fails env SIGHUP) eqn:Hhup; mcbn.
    + eexists. split; [reflexivity|]. cbn. rewrite Hint, Hterm, Hhup. cbn.
      rewrite <- !app_assoc. repeat split.
    + eexists. split; [reflexivity|]. cbn. rewrite Hint, Hterm, Hhup. cbn.
      rewrite <- !app_assoc, app_nil_r. repeat split.
  - eexists. split; [reflexivity|]. cbn. rewrite Hint, Hterm. cbn.
    rewrite <- !app_assoc, app_nil_r. repeat split.
Qed.

(** The setup of the handlers, for what follows it: it returns, and the
    file system and the server are as before. *)
Lemma setup_signal_handlers_quiet env s :
  exists s',
    setup_signal_handlers env s = (Ret tt, s')
    /\ fs s' = fs s /\ server s' = server s
    /\ forall c, In c (calls s') -> In c (calls s) \/ exists signum, c = CSignal signum.
Proof.
  unfold setup_signal_handlers, signal_signal. mcbn.
  assert (Hin : forall (c : call) before (added : list call),
             (forall x, In x added -> exists signum, x = CSignal signum) ->
             In c (before ++ added) -> In c before \/ exists signum, c = CSignal signum).
  { intros c before added Hadded Hc. apply in_app_or in Hc as [Hc|Hc]; [left; exact Hc|].
    right. apply Hadded, Hc. }
  destruct (signal_fails env SIGINT); mcbn.
  { eexists. split; [reflexivity|]. cbn. repeat split. intros c.
    apply Hin. intros x [<-|[]]. eauto. }
  destruct (signal_fails env SIGTERM); mcbn.
  { eexists. split; [reflexivity|]. cbn. repeat split. intros c. rewrite <- app_assoc.
    apply Hin. intros x [<-|[<-|[]]]; eauto. }
  destruct (has_SIGHUP env); mcbn.
  - destruct (signal_fails env SIGHUP); mcbn;
      (eexists; split; [reflexivity|]; cbn; repeat split; intros c;
       rewrite <- !app_assoc; apply Hin; intros x [<-|[<-|[<-|[]]]]; eauto).
  - eexists. split; [reflexivity|]. cbn. repeat split. intros c. rewrite <- app_assoc.
    apply Hin. intros x [<-|[<-|[]]]; eauto.
Qed.

Section EntryPoint.

Context `{OsPath}.

(** [get_serve_dir], case by case. *)
Lemma get_serve_dir_cases py s :
  let local := os_path_join (os_getcwd py) ["viewer"] in
  exists r probes,
    get_serve_dir py s = (r, add_calls (map CIsdir probes) s)
    /\ match r with
       | Ret dir =>
           fs s !! dir = Some Dir
           \/ (sys_frozen py = true /\ sys__MEIPASS py = Some dir /\ dir <> EmptyString
               /\ fs s !! os_path_join dir ["viewer"] <> Some Dir)
       | Raise e => e = viewer_not_found local /\ fs s !! local <> Some Dir
                    /\ probes = [local]
       | Hang => False
       end.
Proof.
  intros local. unfold get_serve_dir, os_path_isdir. fold local.
  assert (Hlocal : exists r,
             (isdir <- (called (CIsdir local) ;; s0 <- get ;;
                        ret match fs s0 !! local with Some Dir => true | _ => false end) ;;
              if isdir then ret local else raise (viewer_not_found local)) s
             = (r, add_calls (map CIsdir [local]) s)
             /\ match r with
                | Ret dir => fs s !! dir = Some Dir
                | Raise e => e = viewer_not_found local /\ fs s !! local <> Some Dir
                | Hang => False
                end).
  { mcbn. destruct (fs s !! local) as [[content|]|] eqn:Hl; eexists;
      (split; [reflexivity|]); try exact Hl; split; try reflexivity; discriminate. }
  destruct (sys_frozen py) eqn:Hfrozen.
  - destruct (sys__MEIPASS py) as [base|] eqn:Hbase; cbn [truthy_str].
    + destruct base as [|c base'] eqn:Ebase.
      * unfold bind at 1. unfold ret at 1.
        destruct Hlocal as (r & Hrun & Hr). exists r, [local]. split; [exact Hrun|].
        destruct r as [dir|e|]; [left; exact Hr| |exact Hr].
        destruct Hr as [-> Hno]. repeat split. exact Hno.
      * rewrite <- Ebase. cbn [default from_option id]. mcbn.
        destruct (fs s !! os_path_join base ["viewer"]) as [[content|]|] eqn:Hc.
        -- exists (Ret base), [os_path_join base ["viewer"]]. split; [reflexivity|].
           right. repeat split; [subst; discriminate|rewrite Hc; discriminate].
        -- exists (Ret (os_path_join base ["viewer"])), [os_path_join base ["viewer"]].
           split; [reflexivity|]. left. exact Hc.
        -- exists (Ret base), [os_path_join base ["viewer"]]. split; [reflexivity|].
           right. repeat split; [subst; discriminate|rewrite Hc; discriminate].
    + unfold bind at 1. unfold ret at 1.
      destruct Hlocal as (r & Hrun & Hr). exists r, [local]. split; [exact Hrun|].
      destruct r as [dir|e|]; [left; exact Hr| |exact Hr].
      destruct Hr as [-> Hno]. repeat split. exact Hno.
  - unfold bind at 1. unfold ret at 1.
    destruct Hlocal as (r & Hrun & Hr). exists r, [local]. split; [exact Hrun|].
    destruct r as [dir|e|]; [left; exact Hr| |exact Hr].
    destruct Hr as [-> Hno]. repeat split. exact Hno.
Qed.


(** X24.  [main] ends in an exit status and raises nothing: 0, 1 or 2,
    whatever the file system, the ports, the browser and the signals do;
    or it does not return, which is the wait for a browser that never
    exits or the end of the process by a signal nobody handles. *)
Theorem main_exit_status env py args s :
  let r := fst (main env py args s) in
  r = Ret 0 \/ r = Ret 1 \/ r = Ret 2 \/ r = Hang.
Proof.
  destruct (main env py args s) as [r s'] eqn:Hmain. cbn [fst].
  unfold main in Hmain. destruct (args_version args).
  { inversion Hmain. left. reflexivity. }
  destruct (setup_signal_handlers_quiet env s) as (s1 & Hsetup & _).
  unfold bind at 1 in Hmain. rewrite Hsetup in Hmain.
  apply bind_inv in Hmain
    as [(found & s2 & Hfound & Hmain) | [(e & Hfound & ->) | (Hfound & ->)]].
  - destruct found as [serve_dir|]; [|inversion Hmain; auto].
    apply bind_inv in Hmain
      as [(isdir & s3 & _ & Hmain) | [(e & Hisdir & _) | (Hisdir & _)]];
      [|discriminate Hisdir|discriminate Hisdir].
    destruct isdir; cbn [negb] in Hmain; [|inversion Hmain; auto].
    repeat (apply bind_inv in Hmain
              as [([] & ? & _ & Hmain) | [(? & Hlog & _) | (Hlog & _)]];
            [|first [discriminate Hlog
                    |destruct (truthy_int (args_port args)); discriminate Hlog]
             |first [discriminate Hlog
                    |destruct (truthy_int (args_port args)); discriminate Hlog]]).
    apply bind_inv in Hmain
      as [(ok & s4 & Hrun & Hmain) | [(e & Hrun & ->) | (Hrun & ->)]].
    + destruct ok; inversion Hmain; auto.
    + apply run_and_block_outcome in Hrun as [Hr|[Hr|Hr]]; discriminate Hr.
    + auto.
  - exfalso. unfold try_except, bind in Hfound.
    destruct (get_serve_dir_cases py s1) as (rd & probes & Hdir & Hrd).
    rewrite Hdir in Hfound. destruct rd as [dir|e'|]; [discriminate Hfound| |destruct Hrd].
    destruct Hrd as (-> & _). discriminate Hfound.
  - exfalso. unfold try_except, bind in Hfound.
    destruct (get_serve_dir_cases py s1) as (rd & probes & Hdir & Hrd).
    rewrite Hdir in Hfound. destruct rd as [dir|e'|]; [discriminate Hfound| |destruct Hrd].
    destruct Hrd as (-> & _). discriminate Hfound.
Qed.

(** X25.  With no [viewer] directory under the working directory, a
    launcher run from source exits with status 2 after installing its
    signal handlers and one look at the path: it says where it looked,
    takes no lock, binds no port and starts nothing. *)
Theorem main_missing_viewer env py args s :
  let local := os_path_join (os_getcwd py) ["viewer"] in
  args_version args = false ->
  sys_frozen py = false ->
  fs s !! local <> Some Dir ->
  exists s',
    main env py args s = (Ret 2, s')
    /\ fs s' = fs s /\ server s' = server s
    /\ last (stdout s')
       = Some ("Error locating serve_dir: Viewer directory not found at " +:+ local)
    /\ forall c, In c (calls s') ->
                 In c (calls s) \/ (exists signum, c = CSignal signum) \/ c = CIsdir local.
Proof.
  intros local Hversion Hfrozen Hmissing. unfold main. rewrite Hversion.
  unfold bind at 1.
  destruct (setup_signal_handlers_quiet env s) as (s1 & -> & Hfs1 & Hsrv1 & Hcalls1).
  unfold get_serve_dir, os_path_isdir. rewrite Hfrozen. fold local. mcbn.
  rewrite Hfs1.
  assert (Hno : match fs s !! local with Some Dir => true | _ => false end = false).
  { destruct (fs s !! local) as [[content|]|]; try reflexivity. contradiction. }
  rewrite Hno. mcbn.
  eexists. split; [reflexivity|]. cbn. split; [exact Hfs1|]. split; [exact Hsrv1|].
  split.
  - apply last_snoc.
  - intros c Hc. apply in_app_or in Hc as [Hc|[<-|[]]].
    + destruct (Hcalls1 c Hc) as [Hold|Hsig]; [left; exact Hold|right; left; exact Hsig].
    + right. right. reflexivity.
Qed.

End EntryPoint.

Lemma main_missing_viewer_witness :
  let local := "/home/dev/project/viewer" in
  exists s',
    main env_posix py_source args_default (state_of ∅) = (Ret 2, s')
    /\ fs s' = fs (state_of ∅) /\ server s' = server (state_of ∅)
    /\ last (stdout s')
       = Some ("Error locating serve_dir: Viewer directory not found at " +:+ local)
    /\ forall c, In c (calls s') ->
                 In c (calls (state_of ∅)) \/ (exists signum, c = CSignal signum)
                 \/ c = CIsdir local.
Proof.
  intros local.
  assert (Hlocal : os_path_join (os_getcwd py_source) ["viewer"] = local)
    by (vm_compute; reflexivity).
  destruct (main_missing_viewer env_posix py_source args_default (state_of ∅))
    as (s' & Hrun & Hfs & Hsrv & Hlast & Hcalls).
  - reflexivity.
  - reflexivity.
  - rewrite Hlocal. vm_compute. discriminate.
  - rewrite Hlocal in Hlast, Hcalls.
    exists s'. repeat split; assumption.
Defined.

(** ** Where the lock is *)

Lemma str_app_assoc (a b c : string) : (a +:+ b) +:+ c = a +:+ (b +:+ c).
Proof.
  induction a as [|x a IH]; [reflexivity|].
  change (String x ((a +:+ b) +:+ c) = String x (a +:+ (b +:+ c))). f_equal. exact IH.
Qed.

Lemma str_app_nil_r (a : string) : a +:+ EmptyString = a.
Proof.
  induction a as [|x a IH]; [reflexivity|].
  change (String x (a +:+ EmptyString) = String x a). f_equal. exact IH.
Qed.

Lemma split_sep_cons s : exists comp comps, posixpath.split_sep s = comp :: comps.
Proof.
  induction s as [|c s (comp & comps & IH)]; cbn; [eauto|].
  destruct (Ascii.eqb c "/"); [eauto|]. rewrite IH. eauto.
Qed.

Lemma split_sep_component comp s :
  posixpath.has_sep comp = false ->
  posixpath.split_sep (comp +:+ s)
  = match posixpath.split_sep s with
    | first :: later => (comp +:+ first) :: later
    | [] => [comp]
    end.
Proof.
  induction comp as [|c comp IH]; cbn [posixpath.has_sep]; intros Hsep.
  - change (EmptyString +:+ s) with s.
    destruct (split_sep_cons s) as (first & later & ->). reflexivity.
  - apply orb_false_iff in Hsep as [Hc Hcomp].
    change (String c comp +:+ s) with (String c (comp +:+ s)).
    cbn [posixpath.split_sep]. rewrite Hc, (IH Hcomp).
    destruct (posixpath.split_sep s); reflexivity.
Qed.

Lemma split_sep_absolute comps :
  Forall (fun comp => posixpath.has_sep comp = false) comps ->
  posixpath.split_sep (absolute comps) = EmptyString :: comps.
Proof.
  induction 1 as [|comp later Hcomp _ IH]; [reflexivity|].
  cbn [absolute].
  change ("/" +:+ comp +:+ absolute later) with (String "/" (comp +:+ absolute later)).
  cbn [posixpath.split_sep]. cbn [Ascii.eqb Bool.eqb].
  rewrite (split_sep_component _ _ Hcomp), IH, str_app_nil_r. reflexivity.
Qed.

Lemma absolute_app a b : absolute (a ++ b) = absolute a +:+ absolute b.
Proof.
  induction a as [|comp a IH]; [reflexivity|].
  cbn [absolute app]. rewrite IH, !str_app_assoc. reflexivity.
Qed.

Lemma norm_step_plain n acc comp :
  plain_component comp -> posixpath.norm_step n acc comp = (acc ++ [comp])%list.
Proof.
  intros (_ & Hempty & Hdot & Hdots). unfold posixpath.norm_step.
  apply String.eqb_neq in Hempty, Hdot, Hdots. rewrite Hempty, Hdot, Hdots. reflexivity.
Qed.

Lemma fold_norm_step_plain n comps :
  Forall plain_component comps ->
  forall acc, fold_left (posixpath.norm_step n) comps acc = (acc ++ comps)%list.
Proof.
  induction 1 as [|comp later Hcomp _ IH]; intros acc; cbn [fold_left].
  - rewrite app_nil_r. reflexivity.
  - rewrite (norm_step_plain _ _ _ Hcomp), IH, <- app_assoc. reflexivity.
Qed.

Lemma join_absolute comp later : "/" +:+ join "/" (comp :: later) = absolute (comp :: later).
Proof.
  revert comp. induction later as [|next later IH]; intros comp.
  - cbn [join absolute]. rewrite str_app_nil_r. reflexivity.
  - change (join "/" (comp :: next :: later))
      with (comp +:+ "/" +:+ join "/" (next :: later)).
    change (absolute (comp :: next :: later))
      with ("/" +:+ comp +:+ absolute (next :: later)).
    rewrite <- (IH next). reflexivity.
Qed.

Lemma endswith_sep_app a c b :
  posixpath.endswith_sep (a +:+ String c b) = posixpath.endswith_sep (String c b).
Proof.
  induction a as [|x a IH]; [reflexivity|].
  change (String x a +:+ String c b) with (String x (a +:+ String c b)).
  cbn [posixpath.endswith_sep]. rewrite IH.
  destruct (a +:+ String c b) eqn:E; [|reflexivity].
  destruct a; discriminate E.
Qed.

Lemma endswith_sep_component comp :
  posixpath.has_sep comp = false -> posixpath.endswith_sep comp = false.
Proof.
  induction comp as [|c comp IH]; [reflexivity|].
  cbn [posixpath.has_sep posixpath.endswith_sep]. intros Hsep.
  apply orb_false_iff in Hsep as [Hc Hcomp]. destruct comp; [exact Hc|apply IH, Hcomp].
Qed.

Lemma endswith_sep_absolute comps :
  Forall plain_component comps -> posixpath.endswith_sep (absolute comps) = false.
Proof.
  induction 1 as [|comp later Hcomp _ IH]; [reflexivity|].
  cbn [absolute]. destruct later as [|next later].
  - cbn [absolute]. rewrite str_app_nil_r.
    destruct Hcomp as (Hsep & Hne & _). destruct comp as [|c comp]; [contradiction|].
    rewrite (endswith_sep_app "/" c comp). apply endswith_sep_component, Hsep.
  - rewrite <- str_app_assoc.
    change (absolute (next :: later)) with (String "/" (next +:+ absolute later)) in *.
    rewrite endswith_sep_app. exact IH.
Qed.

Lemma prefix_sep_component name :
  posixpath.has_sep name = false -> String.prefix "/" name = false.
Proof.
  destruct name as [|c name]; [reflexivity|]. cbn [posixpath.has_sep String.prefix].
  intros Hname. apply orb_false_iff in Hname as [Hc _].
  destruct (ascii_dec "/" c) as [<-|]; [discriminate Hc|reflexivity].
Qed.

Lemma join_one_relative path c name :
  path <> EmptyString ->
  posixpath.endswith_sep path = false ->
  posixpath.has_sep (String c name) = false ->
  posixpath.join_one path (String c name) = path +:+ String "/" (String c name)
  /\ path +:+ String "/" (String c name) <> EmptyString
  /\ posixpath.endswith_sep (path +:+ String "/" (String c name)) = false.
Proof.
  intros Hne Hend Hname. unfold posixpath.join_one.
  rewrite (prefix_sep_component _ Hname), Hend.
  apply String.eqb_neq in Hne. rewrite Hne. cbn [orb].
  split; [reflexivity|]. split.
  - destruct path; discriminate.
  - change (path +:+ String "/" (String c name)) with (path +:+ "/" +:+ String c name).
    rewrite <- str_app_assoc, endswith_sep_app. apply endswith_sep_component, Hname.
Qed.

Lemma absolute_shape comps more :
  comps <> [] ->
  Forall plain_component comps ->
  let path := absolute (comps ++ more) in
  String.eqb path EmptyString = false
  /\ String.prefix "/" path = true
  /\ String.prefix "//" path = false.
Proof.
  intros Hne Hplain. destruct comps as [|first later]; [contradiction|].
  apply Forall_cons in Hplain as [(Hsep & Hempty & _) _].
  destruct first as [|c rest]; [contradiction|].
  cbn [posixpath.has_sep] in Hsep. apply orb_false_iff in Hsep as [Hc _].
  cbn [app absolute].
  change ("/" +:+ String c rest +:+ absolute (later ++ more))
    with (String "/" (String c (rest +:+ absolute (later ++ more)))).
  split; [reflexivity|]. split; [reflexivity|]. cbn [String.prefix].
  destruct (ascii_dec "/" "/") as [_|Hbad]; [|contradiction].
  destruct (ascii_dec "/" c) as [<-|]; [discriminate Hc|reflexivity].
Qed.

Lemma is_nil_snoc {A} (l : list A) x : posixpath.is_nil (l ++ [x]) = false.
Proof. destruct l; reflexivity. Qed.

(** The two paths [main] works with when the launcher is run from source
    in the directory [absolute comps]: the directory to serve and the
    lock beside it. *)
Lemma viewer_paths comps :
  comps <> [] ->
  Forall plain_component comps ->
  let cwd := absolute comps in
  posixpath.join cwd ["viewer"] = cwd +:+ "/viewer"
  /\ posixpath.normpath (posixpath.join (cwd +:+ "/viewer") [".."; "viewer.lock"])
     = cwd +:+ "/viewer.lock".
Proof.
  intros Hne Hplain cwd.
  assert (Hcwd : cwd <> EmptyString).
  { subst cwd. destruct comps; [contradiction|discriminate]. }
  pose proof (endswith_sep_absolute comps Hplain) as Hend. fold cwd in Hend.
  destruct (join_one_relative cwd "v" "iewer" Hcwd Hend eq_refl) as (Hj1 & Hne1 & Hend1).
  destruct (join_one_relative _ "." "." Hne1 Hend1 eq_refl) as (Hj2 & Hne2 & Hend2).
  destruct (join_one_relative _ "v" "iewer.lock" Hne2 Hend2 eq_refl) as (Hj3 & _ & _).
  split; [exact Hj1|].
  unfold posixpath.join. cbn [fold_left]. rewrite Hj2, Hj3.
  assert (Hpath : ((cwd +:+ "/viewer") +:+ "/..") +:+ "/viewer.lock"
                  = absolute (comps ++ ["viewer"; ".."; "viewer.lock"])).
  { rewrite absolute_app. cbn [absolute]. fold cwd. rewrite !str_app_assoc. reflexivity. }
  rewrite Hpath. clear Hpath Hj1 Hj2 Hj3.
  destruct (absolute_shape comps ["viewer"; ".."; "viewer.lock"] Hne Hplain)
    as (Hi0 & Hi1 & Hi2).
  unfold posixpath.normpath. rewrite Hi0, Hi1, Hi2. cbn [andb].
  rewrite split_sep_absolute.
  2: { apply Forall_app. split.
       - eapply Forall_impl; [exact Hplain|]. intros comp Hcomp. apply Hcomp.
       - repeat constructor. }
  assert (Hfold : fold_left (posixpath.norm_step 1)
                    (EmptyString :: comps ++ ["viewer"; ".."; "viewer.lock"]) []
                  = (comps ++ ["viewer.lock"])%list).
  { change (fold_left (posixpath.norm_step 1)
              (EmptyString :: comps ++ ["viewer"; ".."; "viewer.lock"]) [])
      with (fold_left (posixpath.norm_step 1)
              (comps ++ ["viewer"; ".."; "viewer.lock"]) []).
    rewrite fold_left_app, (fold_norm_step_plain _ _ Hplain).
    change (([] : list string) ++ comps)%list with comps.
    change (fold_left (posixpath.norm_step 1) ["viewer"; ".."; "viewer.lock"] comps)
      with (posixpath.norm_step 1
              (posixpath.norm_step 1 (posixpath.norm_step 1 comps "viewer") "..")
              "viewer.lock").
    rewrite (norm_step_plain _ _ "viewer") by (repeat split; discriminate).
    assert (Hup : posixpath.norm_step 1 (comps ++ ["viewer"]) ".." = comps).
    { unfold posixpath.norm_step. rewrite is_nil_snoc, last_last.
      cbn [String.eqb Ascii.eqb Bool.eqb orb negb andb Nat.eqb].
      apply removelast_last. }
    rewrite Hup. apply norm_step_plain. repeat split; discriminate. }
  rewrite Hfold.
  change (String.concat EmptyString (repeat "/" 1)) with "/".
  destruct comps as [|first later]; [contradiction|].
  change ((first :: later) ++ ["viewer.lock"])%list
    with (first :: (later ++ ["viewer.lock"]))%list.
  rewrite join_absolute.
  change (first :: (later ++ ["viewer.lock"]))%list
    with ((first :: later) ++ ["viewer.lock"])%list.
  rewrite absolute_app. fold cwd.
  assert (Hnonempty : String.eqb (cwd +:+ absolute ["viewer.lock"]) EmptyString = false).
  { apply String.eqb_neq. destruct cwd; [contradiction|discriminate]. }
  rewrite Hnonempty. reflexivity.
Qed.

(** X26.  Two launchers in one directory.  On a POSIX system a launcher
    run from source in the directory [cwd] serves [cwd/viewer] and keeps
    its lock in [cwd/viewer.lock].  When that marker names a live
    process, [main] says so and exits with status 1: it has bound no
    port and started nothing, and the file system, the marker included,
    is as it was. *)
Theorem second_launcher_exits env py args s comps content pid :
  let cwd := absolute comps in
  let marker_path := cwd +:+ "/viewer.lock" in
  args_version args = false ->
  sys_frozen py = false ->
  os_getcwd py = cwd ->
  comps <> [] ->
  Forall plain_component comps ->
  fs s !! (cwd +:+ "/viewer") = Some Dir ->
  fs s !! marker_path = Some (File content) ->
  read_fails env marker_path = false ->
  parse_marker content = Some pid ->
  pid <> 0 ->
  pid_alive env pid = true ->
  exists s',
    main env py args s = (Ret 1, s')
    /\ fs s' = fs s
    /\ server s' = server s
    /\ In ("Serving from: " +:+ cwd +:+ "/viewer") (stdout s')
    /\ In ("Lock path: " +:+ marker_path) (stdout s')
    /\ In ("Another instance appears to be running (PID " +:+ str_int pid
           +:+ "). Aborting.") (stdout s')
    /\ last (stdout s') = Some "Viewer session failed or was interrupted."
    /\ forall port, In (CBind port) (calls s') -> In (CBind port) (calls s).
Proof.
  intros cwd marker_path Hversion Hfrozen Hcwd Hne Hplain Hviewer Hmarker Hread Hparse
    Hpid Halive.
  destruct (viewer_paths comps Hne Hplain) as [Hjoin Hlock]. fold cwd in Hjoin, Hlock.
  unfold main. rewrite Hversion.
  unfold bind at 1.
  destruct (setup_signal_handlers_quiet env s) as (s1 & -> & Hfs1 & Hsrv1 & Hcalls1).
  unfold get_serve_dir, os_path_isdir. rewrite Hfrozen, Hcwd.
  cbn [os_path_join posix_path]. rewrite Hjoin.
  mcbn. rewrite Hfs1, Hviewer. mcbn. rewrite Hfs1, Hviewer. mcbn.
  rewrite ?Hfrozen. cbn [os_path_join os_path_normpath posix_path].
  rewrite !Hlock. fold marker_path.
  assert (HP : marker_path <> EmptyString).
  { subst marker_path. destruct cwd; discriminate. }
  assert (Hrefused := fun st (Hst : fs st = fs s) =>
            refused_run env (cwd +:+ "/viewer") marker_path (args_port args)
              (negb (args_no_new_console args)) st content pid HP
              (eq_trans (f_equal (fun m => m !! marker_path) Hst) Hmarker)
              Hread Hparse Hpid Halive).
  destruct (truthy_int (args_port args)); mcbn;
    (rewrite Hrefused by (cbn; exact Hfs1));
    (eexists; split; [reflexivity|]; cbn;
     split; [exact Hfs1|]; split; [exact Hsrv1|];
     split; [rewrite !in_app_iff; cbn; tauto|];
     split; [rewrite !in_app_iff; cbn; tauto|];
     split; [rewrite !in_app_iff; cbn; tauto|];
     split; [apply last_snoc|]);
    intros port; rewrite !in_app_iff; cbn; intros Hc;
    repeat match goal with
           | Hx : _ \/ _ |- _ => destruct Hx as [Hx|Hx]
           end;
    try discriminate; try contradiction;
    try (destruct (String.eqb (os_name env) "nt"); discriminate);
    match goal with
    | Hx : In _ (calls s1) |- _ =>
        destruct (Hcalls1 _ Hx) as [Hold|(signum & Hsig)];
        [exact Hold|discriminate Hsig]
    end.
Qed.

Lemma second_launcher_exits_witness :
  exists s',
    main env_posix py_source args_default (state_of project_in_use) = (Ret 1, s')
    /\ fs s' = fs (state_of project_in_use)
    /\ server s' = server (state_of project_in_use)
    /\ In ("Serving from: " +:+ "/home/dev/project" +:+ "/viewer") (stdout s')
    /\ In ("Lock path: " +:+ "/home/dev/project" +:+ "/viewer.lock") (stdout s')
    /\ In ("Another instance appears to be running (PID " +:+ str_int 777
           +:+ "). Aborting.") (stdout s')
    /\ last (stdout s') = Some "Viewer session failed or was interrupted."
    /\ forall port, In (CBind port) (calls s') ->
                    In (CBind port) (calls (state_of project_in_use)).
Proof.
  apply (second_launcher_exits env_posix py_source args_default (state_of project_in_use)
           ["home"; "dev"; "project"] "777" 777).
  - reflexivity.
  - reflexivity.
  - reflexivity.
  - discriminate.
  - repeat constructor; discriminate.
  - reflexivity.
  - reflexivity.
  - reflexivity.
  - reflexivity.
  - discriminate.
  - reflexivity.
Defined.

(** ** The resolver of the latest output folder *)







(** ** What the integration test reads from the launcher's output *)






















